(** * Moodify: emotion detection, analytics and recommendation routes

    A shallow embedding of the server routes and clients of the Moodify
    application and the properties its specification states about them.

    Conventions of the embedding.
    - JavaScript numbers are exact rationals ([Q]); floating-point rounding
      is not modelled.  Counts, indices, HTTP status codes are [nat],
      timestamps are [Z] (milliseconds).  Strings are byte strings: lengths
      and substrings count bytes, which is what JavaScript counts on ASCII
      text.
    - A provider payload is typed as the interfaces of the source type it;
      a field the code guards against being absent is an [option].
    - Everything outside the program is an oracle held in a world record:
      environment variables, the clock, [Math.random], and the outcome of
      every [fetch].  A handler is a function of the world, the module-level
      state and the request.
    - A JavaScript object used as a table is an association list of its own
      properties in insertion order; reading [o[k]] goes through [js_get],
      which also sees the properties inherited from [Object.prototype].
    - A recursive asynchronous method takes a fuel argument that bounds the
      number of invocations; [Running] is the outcome of a run that has not
      returned when the fuel is used up. *)

From Stdlib Require Import QArith Qabs Qminmax Qround Lqa Lia ZArith NArith List Permutation String Ascii Bool Arith DecimalString.
Import ListNotations.

Open Scope list_scope.
Open Scope string_scope.

(* ================================================================== *)
(** * JavaScript values and helpers *)
(* ================================================================== *)

Module JS.

(** Own properties of an object, in insertion order. *)
Definition JSObject (A : Type) : Type := list (string * A).

Fixpoint own_get {A} (o : JSObject A) (k : string) : option A :=
  match o with
  | [] => None
  | (k', v) :: rest => if String.eqb k k' then Some v else own_get rest k
  end.

(** The properties every object literal inherits from [Object.prototype]. *)
Definition object_prototype_names : list string :=
  [ "constructor"; "__defineGetter__"; "__defineSetter__"; "hasOwnProperty";
    "__lookupGetter__"; "__lookupSetter__"; "isPrototypeOf";
    "propertyIsEnumerable"; "toString"; "valueOf"; "__proto__";
    "toLocaleString" ].

Definition is_inherited (k : string) : bool :=
  existsb (String.eqb k) object_prototype_names.

(** The result of the property read [o[k]]. *)
Inductive JSProp (A : Type) : Type :=
| Own (a : A)
| Inherited (name : string)
| Undefined.
Arguments Own {A} a.
Arguments Inherited {A} name.
Arguments Undefined {A}.

Definition js_get {A} (o : JSObject A) (k : string) : JSProp A :=
  match own_get o k with
  | Some v => Own v
  | None => if is_inherited k then Inherited k else Undefined
  end.

(** [a || b] where an own value is an array or an object (always truthy) and
    an inherited one is a function or the prototype object (truthy too). *)
Definition js_or {A} (a b : JSProp A) : JSProp A :=
  match a with
  | Undefined => b
  | _ => a
  end.

(** [o[k] = v] for a number [v]: an existing own property keeps its place, a
    new one goes last.  The key [__proto__] is the prototype setter, which
    ignores a number. *)
Fixpoint own_set {A} (o : JSObject A) (k : string) (v : A) : JSObject A :=
  match o with
  | [] => [(k, v)]
  | (k', v') :: rest =>
      if String.eqb k k' then (k', v) :: rest else (k', v') :: own_set rest k v
  end.

Definition js_set {A} (o : JSObject A) (k : string) (v : A) : JSObject A :=
  if String.eqb k "__proto__" then o else own_set o k v.

(** The property key an inherited value turns into when it is used as one:
    the source text of the native function, or the text of the prototype
    object. *)
Definition inherited_as_key (name : string) : string :=
  if String.eqb name "__proto__" then "[object Object]"
  else if String.eqb name "constructor" then "function Object() { [native code] }"
  else "function " ++ name ++ "() { [native code] }".

(** A numeric property that is known to be there. *)
Definition num_get (o : JSObject Q) (k : string) : Q :=
  match own_get o k with
  | Some v => v
  | None => 0%Q
  end.

(** [a > b] on numbers. *)
Definition Qgtb (a b : Q) : bool := negb (Qle_bool a b).

Definition keys {A} (o : JSObject A) : list string := map fst o.
Definition values {A} (o : JSObject A) : list A := map snd o.

(** An object as the assignments of this file build it: every key once, and
    no own property [__proto__]. *)
Definition obj_wf {A} (o : JSObject A) : Prop :=
  NoDup (keys o) /\ ~ In "__proto__" (keys o).

(** Truthiness of a string and of a possibly undefined string. *)
Definition truthy (s : string) : bool := negb (String.eqb s "").

Definition truthy_opt (s : option string) : bool :=
  match s with
  | Some s => truthy s
  | None => false
  end.

(** [a || b] on possibly undefined strings. *)
Definition or_str (a b : option string) : option string :=
  if truthy_opt a then a else b.

(** [s.includes(t)]. *)
Definition includes (s t : string) : bool :=
  match String.index 0 t s with
  | Some _ => true
  | None => false
  end.

(** [s.split(",")]. *)
Fixpoint split_comma_aux (s acc : string) : list string :=
  match s with
  | EmptyString => [acc]
  | String c rest =>
      if Ascii.eqb c ","%char then acc :: split_comma_aux rest ""
      else split_comma_aux rest (acc ++ String c "")
  end.

Definition split_comma (s : string) : list string := split_comma_aux s "".

(** [s.split(", ")]. *)
Fixpoint split_comma_space_aux (s acc : string) : list string :=
  match s with
  | EmptyString => [acc]
  | String c rest =>
      match rest with
      | String c2 rest2 =>
          if Ascii.eqb c ","%char && Ascii.eqb c2 " "%char
          then acc :: split_comma_space_aux rest2 ""
          else split_comma_space_aux rest (acc ++ String c "")
      | EmptyString => [acc ++ String c ""]
      end
  end.

Definition split_comma_space (s : string) : list string :=
  split_comma_space_aux s "".

(** Decimal text of a natural number, and [padStart(2, "0")]. *)
Definition show_N (n : N) : string :=
  NilEmpty.string_of_uint (N.to_uint n).

Definition pad2 (s : string) : string :=
  match String.length s with
  | O => "00"
  | 1%nat => "0" ++ s
  | _ => s
  end.

(** [m:ss] text of a duration in milliseconds. *)
Definition show_duration (duration_ms : N) : string :=
  show_N (duration_ms / 60000)%N ++ ":"
  ++ pad2 (show_N ((duration_ms mod 60000) / 1000)%N).

(** Keep the first element of every key: the loop over a [Set] of seen keys. *)
Fixpoint dedupe_by {A} (key : A -> string) (seen : list string) (l : list A)
    : list A :=
  match l with
  | [] => []
  | x :: rest =>
      if existsb (String.eqb (key x)) seen
      then dedupe_by key seen rest
      else x :: dedupe_by key (key x :: seen) rest
  end.

(** [[a[i], a[j]] = [a[j], a[i]]] for indices inside the array. *)
Fixpoint set_nth {A} (l : list A) (i : nat) (x : A) : list A :=
  match l, i with
  | [], _ => []
  | _ :: rest, O => x :: rest
  | y :: rest, S i' => y :: set_nth rest i' x
  end.

Definition swap {A} (l : list A) (i j : nat) : list A :=
  match nth_error l i, nth_error l j with
  | Some x, Some y => set_nth (set_nth l i y) j x
  | _, _ => l
  end.

(** The shuffle loop [for (i = n - 1; i > 0; i--)] with
    [j = Math.floor(Math.random() * (i + 1))]: any index from 0 to [i]; the
    oracle [pick] gives a number per [i], reduced modulo [i + 1]. *)
Fixpoint shuffle_from {A} (i : nat) (pick : nat -> nat) (l : list A) : list A :=
  match i with
  | O => l
  | S i' => shuffle_from i' pick (swap l i (pick i mod S i))
  end.

Definition shuffle {A} (pick : nat -> nat) (l : list A) : list A :=
  shuffle_from (List.length l - 1) pick l.

(** [a[Math.floor(Math.random() * a.length)]]. *)
Definition random_element {A} (pick : nat) (l : list A) : option A :=
  nth_error l (pick mod List.length l).

(** [v.length] of an inherited property: the arity of the function;
    [__proto__] is the prototype object, which has no length. *)
Definition inherited_length (name : string) : option nat :=
  if String.eqb name "__proto__" then None
  else if String.eqb name "__defineGetter__" || String.eqb name "__defineSetter__"
  then Some 2%nat
  else if String.eqb name "toString" || String.eqb name "valueOf"
          || String.eqb name "toLocaleString"
  then Some 0%nat
  else Some 1%nat.

(** [v.length > 0]; a comparison with [undefined] is false. *)
Definition length_positive {A} (v : JSProp (list A)) : bool :=
  match v with
  | Own l => (0 <? List.length l)%nat
  | Inherited name =>
      match inherited_length name with
      | Some n => (0 <? n)%nat
      | None => false
      end
  | Undefined => false
  end.

(** [a.map(f)] where [f] reads the index and may throw. *)
Fixpoint mapi_exc {A B} (f : nat -> A -> option B) (i : nat) (l : list A)
    : option (list B) :=
  match l with
  | [] => Some []
  | x :: rest =>
      match f i x with
      | None => None
      | Some y =>
          match mapi_exc f (S i) rest with
          | None => None
          | Some ys => Some (y :: ys)
          end
      end
  end.

(** [a.slice(0, n)]. *)
Definition slice0 {A} (n : nat) (l : list A) : list A := firstn n l.
Global Arguments slice0 : simpl never.

(** The outcome of [await fetch(...)] followed by reading the body. *)
Inductive Fetch (A : Type) : Type :=
| Rejected                                   (* network error, abort, timeout *)
| Responded (status : nat) (body : option A) (* [None]: the body does not parse *).
Arguments Rejected {A}.
Arguments Responded {A} status body.

Definition status_ok (status : nat) : bool :=
  (200 <=? status)%nat && (status <=? 299)%nat.

(** The request is rejected or answered with a status that is not ok. *)
Definition failed {A} (f : Fetch A) : Prop :=
  match f with
  | Rejected => True
  | Responded status _ => status_ok status = false
  end.

(** The request fails or comes back without items. *)
Definition no_items {A} (f : Fetch (option (list A))) : Prop :=
  match f with
  | Responded status (Some (Some (_ :: _))) => status_ok status = false
  | _ => True
  end.

Definition no_tracks {A} (f : Fetch (list A)) : Prop :=
  match f with
  | Responded status (Some (_ :: _)) => status_ok status = false
  | _ => True
  end.

(** A computation that returns or throws. *)
Inductive Exc (A : Type) : Type :=
| Ret (a : A)
| Throw (message : string).
Arguments Ret {A} a.
Arguments Throw {A} message.

(** A run bounded by fuel. *)
Inductive Outcome (A S : Type) : Type :=
| Finished (a : A) (s : S)
| Running (s : S).
Arguments Finished {A S} a s.
Arguments Running {A S} s.


End JS.
Import JS.

(** The card shown by the interface: [interface Recommendation], declared
    alike in the route, the page and the card component. *)
Module Card.

Record Recommendation : Type := {
  id : string;
  title : string;
  description : string;
  image : string;
  link : string;
  rating : option Q;          (* [None]: absent, or NaN (null in JSON) *)
  preview_url : option string
}.

(** A card that can be rendered: it has a title and a link. *)
Definition card_ok (r : Recommendation) : bool :=
  truthy (title r) && truthy (link r).

End Card.
Definition Recommendation : Type := Card.Recommendation.

(* ================================================================== *)
(** * The token route (POST /api/spotify-auth) *)
(* ================================================================== *)

Module SpotifyAuth.

Record SpotifyTokenResponse : Type := {
  tr_access_token : string;
  tr_token_type : string;
  tr_expires_in : Z
}.

Record CachedToken : Type := {
  access_token : string;
  expires_at : Z
}.

Record World : Type := {
  SPOTIFY_CLIENT_ID : option string;
  SPOTIFY_CLIENT_SECRET : option string;
  clock : nat -> Z;                                  (* n-th [Date.now()] *)
  token_fetch : nat -> Fetch SpotifyTokenResponse    (* n-th token request *)
}.

(** The module variable [cachedToken], with two counters the code does not
    have: the [Date.now()] reads and the requests sent to the provider. *)
Record State : Type := {
  cachedToken : option CachedToken;
  ticks : nat;
  auth_requests : nat
}.

Inductive Body : Type :=
| Cached (access_token : string)
| Fresh (access_token : string) (expires_in : Z)
| NotConfigured
| AuthFailed (details : string).

Record Response : Type := {
  status : nat;
  body : Body
}.

Definition tick (s : State) : State :=
  {| cachedToken := cachedToken s; ticks := S (ticks s);
     auth_requests := auth_requests s |}.

Definition sent (s : State) : State :=
  {| cachedToken := cachedToken s; ticks := ticks s;
     auth_requests := S (auth_requests s) |}.

(** The handler past the cache check: the client-credentials request.  The
    text of an error raised by the runtime is not modelled; [AuthFailed]
    carries a fixed text for it. *)
Definition authenticate (w : World) (s : State) : Response * State :=
  if negb (truthy_opt (SPOTIFY_CLIENT_ID w))
     || negb (truthy_opt (SPOTIFY_CLIENT_SECRET w))
  then ({| status := 400; body := NotConfigured |}, s)
  else
    match token_fetch w (auth_requests s) with
    | Rejected =>
        ({| status := 500; body := AuthFailed "fetch failed" |}, sent s)
    | Responded st data =>
        if negb (status_ok st)
        then ({| status := 500;
                 body := AuthFailed ("Spotify auth failed: " ++ show_N (N.of_nat st)) |},
              sent s)
        else
          match data with
          | None => ({| status := 500; body := AuthFailed "invalid json" |}, sent s)
          | Some data =>
              let now := clock w (ticks s) in
              ({| status := 200;
                  body := Fresh (tr_access_token data) (tr_expires_in data) |},
               {| cachedToken :=
                    Some {| access_token := tr_access_token data;
                            expires_at := now + (tr_expires_in data - 300) * 1000 |};
                  ticks := S (ticks s);
                  auth_requests := S (auth_requests s) |})
          end
    end.

(** [cachedToken && cachedToken.expires_at > Date.now()]: the clock is read
    only when a token is cached. *)
Definition POST (w : World) (s : State) : Response * State :=
  match cachedToken s with
  | Some c =>
      if Z.ltb (clock w (ticks s)) (expires_at c)
      then ({| status := 200; body := Cached (access_token c) |}, tick s)
      else authenticate w (tick s)
  | None => authenticate w s
  end.

(** [n] successive requests. *)
Fixpoint POST_n (n : nat) (w : World) (s : State) : list Response * State :=
  match n with
  | O => ([], s)
  | S n' =>
      let '(r, s1) := POST w s in
      let '(rs, s2) := POST_n n' w s1 in
      (r :: rs, s2)
  end.

End SpotifyAuth.

(* ================================================================== *)
(** * The browser-side client (lib/spotify-client.ts) *)
(* ================================================================== *)

Module SpotifyClient.

Record Artist : Type := { artist_name : string }.

Record Image : Type := { url : string; height : nat; width : nat }.

Record SpotifyTrack : Type := {
  id : string;
  name : string;
  artists : list Artist;
  album_name : string;
  album_images : list Image;
  external_url_spotify : string;
  preview_url : option string;
  popularity : Q;
  duration_ms : N
}.

Record SpotifyAuthResponse : Type := {
  access_token : option string;
  error : option string;
  fallback : bool;
  cached : bool
}.

Record World : Type := {
  clock : nat -> Z;                                     (* n-th [Date.now()] *)
  auth_fetch : nat -> Fetch SpotifyAuthResponse;        (* n-th /api/spotify-auth *)
  (* n-th request to api.spotify.com, by bearer token, query and limit *)
  search_fetch : nat -> string -> string -> nat -> Fetch (list SpotifyTrack);
  recommendations_fetch : nat -> string -> string -> nat -> Fetch (list SpotifyTrack);
  genres_fetch : nat -> string -> Fetch (list string)
}.

(** The three private fields, with counters of the clock reads and of the
    requests sent. *)
Record State : Type := {
  accessToken : option string;
  isAvailable : bool;
  lastCheck : Z;
  ticks : nat;
  auth_requests : nat;
  api_requests : nat
}.

Definition initial : State :=
  {| accessToken := None; isAvailable := true; lastCheck := 0;
     ticks := 0; auth_requests := 0; api_requests := 0 |}.

Definition unavailable (s : State) (now : Z) : State :=
  {| accessToken := accessToken s; isAvailable := false; lastCheck := now;
     ticks := ticks s; auth_requests := auth_requests s;
     api_requests := api_requests s |}.

Definition getAccessToken (w : World) (s : State) : Exc string * State :=
  match (if truthy_opt (accessToken s) && isAvailable s
         then accessToken s else None) with
  | Some token => (Ret token, s)
  | None =>
      let now := clock w (ticks s) in
      let s1 := {| accessToken := accessToken s; isAvailable := isAvailable s;
                   lastCheck := lastCheck s; ticks := S (ticks s);
                   auth_requests := auth_requests s;
                   api_requests := api_requests s |} in
      if negb (isAvailable s1) && Z.ltb (now - lastCheck s1) 60000
      then (Throw "Spotify service temporarily unavailable", s1)
      else
        let s2 := {| accessToken := accessToken s1; isAvailable := isAvailable s1;
                     lastCheck := lastCheck s1; ticks := ticks s1;
                     auth_requests := S (auth_requests s1);
                     api_requests := api_requests s1 |} in
        match auth_fetch w (auth_requests s1) with
        | Rejected => (Throw "fetch failed", unavailable s2 now)
        | Responded st None => (Throw "invalid json", unavailable s2 now)
        | Responded st (Some data) =>
            if fallback data
            then (Throw "Spotify credentials not configured", unavailable s2 now)
            else
              match (if status_ok st && truthy_opt (access_token data)
                     then access_token data else None) with
              | None =>
                  (Throw (match or_str (error data) None with
                          | Some e => e
                          | None => "Failed to get access token"
                          end),
                   unavailable s2 now)
              | Some token =>
                  (Ret token,
                   {| accessToken := Some token; isAvailable := true;
                      lastCheck := now; ticks := ticks s2;
                      auth_requests := auth_requests s2;
                      api_requests := api_requests s2 |})
              end
        end
  end.

Definition sent (s : State) : State :=
  {| accessToken := accessToken s; isAvailable := isAvailable s;
     lastCheck := lastCheck s; ticks := ticks s;
     auth_requests := auth_requests s; api_requests := S (api_requests s) |}.

Definition clear_token (s : State) : State :=
  {| accessToken := None; isAvailable := isAvailable s;
     lastCheck := lastCheck s; ticks := ticks s;
     auth_requests := auth_requests s; api_requests := api_requests s |}.

(** One invocation per unit of fuel; the 401 branch calls the method again. *)
Fixpoint searchTracks (fuel : nat) (w : World) (query : string) (limit : nat)
    (s : State) : Outcome (list SpotifyTrack) State :=
  match fuel with
  | O => Running s
  | S fuel' =>
      match getAccessToken w s with
      | (Throw _, s1) => Finished [] s1
      | (Ret token, s1) =>
          let s2 := sent s1 in
          match search_fetch w (api_requests s1) token query limit with
          | Rejected => Finished [] s2
          | Responded st data =>
              if negb (status_ok st)
              then
                if (st =? 401)%nat
                then searchTracks fuel' w query limit (clear_token s2)
                else Finished [] s2
              else
                match data with
                | Some items => Finished items s2
                | None => Finished [] s2
                end
          end
      end
  end.

(** [seedGenres.slice(0, 5).join(",")]. *)
Definition join_genres (seedGenres : list string) : string :=
  String.concat "," (slice0 5 seedGenres).

Fixpoint getRecommendations (fuel : nat) (w : World) (seedGenres : list string)
    (limit : nat) (s : State) : Outcome (list SpotifyTrack) State :=
  match fuel with
  | O => Running s
  | S fuel' =>
      match getAccessToken w s with
      | (Throw _, s1) => Finished [] s1
      | (Ret token, s1) =>
          let s2 := sent s1 in
          match recommendations_fetch w (api_requests s1) token
                  (join_genres seedGenres) limit with
          | Rejected => Finished [] s2
          | Responded st data =>
              if negb (status_ok st)
              then
                if (st =? 401)%nat
                then getRecommendations fuel' w seedGenres limit (clear_token s2)
                else Finished [] s2
              else
                match data with
                | Some tracks => Finished tracks s2
                | None => Finished [] s2
                end
          end
      end
  end.

Definition formatTrackForRecommendation (track : SpotifyTrack) : Recommendation :=
  {| Card.id := id track;
     Card.title := name track ++ " - " ++ String.concat ", " (map artist_name (artists track));
     Card.description := album_name track ++ " • " ++ show_duration (duration_ms track);
     Card.image := match album_images track with
              | i :: _ => if truthy (url i) then url i
                          else "/placeholder.svg?height=200&width=200&text=Song"
              | [] => "/placeholder.svg?height=200&width=200&text=Song"
              end;
     Card.link := external_url_spotify track;
     Card.rating := Some (popularity track / 20)%Q;
     Card.preview_url := preview_url track |}.

Definition isSpotifyAvailable (s : State) : bool := isAvailable s.

(** The genre seeds.  This method has no 401 branch: any response that is not
    ok is an error, and every error gives the empty list. *)
Definition getAvailableGenres (w : World) (s : State) : list string * State :=
  match getAccessToken w s with
  | (Throw _, s1) => ([], s1)
  | (Ret token, s1) =>
      let s2 := sent s1 in
      match genres_fetch w (api_requests s1) token with
      | Rejected => ([], s2)
      | Responded st data =>
          if negb (status_ok st) then ([], s2)
          else
            match data with
            | Some genres => (genres, s2)
            | None => ([], s2)
            end
      end
  end.

Definition resetAvailability (s : State) : State :=
  {| accessToken := None; isAvailable := true; lastCheck := 0;
     ticks := ticks s; auth_requests := auth_requests s;
     api_requests := api_requests s |}.

End SpotifyClient.

(* ================================================================== *)
(** * The content recommender (lib/content-recommender.ts) *)
(* ================================================================== *)

Module ContentRecommender.

(** Provider payloads.  A field the code guards against being absent is an
    [option]. *)
Record OMDBMovie : Type := {
  Title : string;
  Year : string;
  imdbID : string;
  Poster : string
}.

(** The detail response: [interface OMDBMovie] with its optional fields, and
    the [Response] flag. *)
Record OMDBDetail : Type := {
  d_Response : string;
  d_imdbID : string;
  d_Title : string;
  d_Year : string;
  d_Poster : string;
  d_Plot : option string;
  d_imdbRating : option string;
  d_Genre : option string;
  d_Director : option string;
  d_Actors : option string
}.

(** [track.album?.images?.[0]?.url] is the field [t_image_url]. *)
Record SpotifyTrack : Type := {
  t_name : option string;
  t_artists : option (list string);
  t_album_name : option string;
  t_duration_ms : option N;
  t_preview_url : option string;
  t_image_url : option string;
  t_external_url : option string
}.

Record GoogleBook : Type := {
  v_title : option string;
  v_authors : option (list string);
  v_publishedDate : option string;
  v_description : option string;
  v_thumbnail : option string;
  v_categories : option (list string);
  v_pageCount : option nat;
  v_averageRating : option Q
}.

(** The records the three methods build. *)
Record Movie : Type := {
  id : string;
  title : string;
  year : string;
  rating : Q;
  overview : option string;
  poster_url : option string;
  genres : list string;
  director : option string;
  actors : option string;
  imdb_url : string
}.

Record Song : Type := {
  name : string;
  artist : string;
  album : string;
  duration : string;
  preview_url : option string;
  image_url : option string;
  external_url : option string
}.

Record Book : Type := {
  b_title : string;
  b_authors : list string;
  b_published_date : string;
  b_description : string;
  b_thumbnail : option string;
  b_categories : list string;
  b_page_count : option nat;
  b_rating : option Q
}.

Record Mapping : Type := {
  movie_queries : list string;
  music_genres : list string;
  book_queries : list string
}.

Definition emotionMappings : JSObject Mapping :=
  [ ("happy",
     {| movie_queries := ["happy"; "love"; "adventure"; "joy"; "fun"];
        music_genres := ["pop"; "dance"; "funk"; "reggae"];
        book_queries := ["comedy"; "romance"; "adventure"; "self-help"] |});
    ("sad",
     {| movie_queries := ["sad"; "tears"; "loss"; "grief"; "heart"];
        music_genres := ["acoustic"; "indie"; "blues"; "soul"];
        book_queries := ["drama"; "poetry"; "memoir"; "philosophy"] |});
    ("angry",
     {| movie_queries := ["action"; "fight"; "revenge"; "battle"; "war"];
        music_genres := ["rock"; "metal"; "punk"; "electronic"];
        book_queries := ["thriller"; "crime"; "politics"; "biography"] |});
    ("surprised",
     {| movie_queries := ["mystery"; "twist"; "secret"; "unexpected"; "shock"];
        music_genres := ["experimental"; "electronic"; "world"];
        book_queries := ["mystery"; "science fiction"; "fantasy"; "adventure"] |});
    ("fear",
     {| movie_queries := ["courage"; "brave"; "overcome"; "hope"; "escape"];
        music_genres := ["ambient"; "classical"; "new-age"; "folk"];
        book_queries := ["comfort"; "spirituality"; "meditation"; "healing"] |});
    ("disgust",
     {| movie_queries := ["nature"; "inspire"; "clean"; "pure"; "truth"];
        music_genres := ["classical"; "jazz"; "world"; "folk"];
        book_queries := ["nature"; "travel"; "art"; "culture"] |});
    ("neutral",
     {| movie_queries := ["classic"; "blockbuster"; "famous"; "top"; "movie"];
        music_genres := ["pop"; "rock"; "indie"; "alternative"];
        book_queries := ["bestseller"; "fiction"; "non-fiction"; "contemporary"] |}) ].

(** [this.emotionMappings[emotion] || this.emotionMappings.neutral], read
    as a mapping: an inherited property has none of the three fields, and
    slicing the missing field throws a TypeError ([None]). *)
Definition mapping_of (emotion : string) : option Mapping :=
  match js_or (js_get emotionMappings emotion)
              (js_get emotionMappings "neutral") with
  | Own m => Some m
  | _ => None
  end.

Record World : Type := {
  OMDB_API_KEY : option string;
  NEXT_PUBLIC_OMDB_API_KEY : option string;
  SPOTIFY_CLIENT_ID : option string;
  SPOTIFY_CLIENT_SECRET : option string;
  GOOGLE_BOOKS_API_KEY : option string;
  (* search by query term; the body is [data.Search] when it is an array *)
  omdb_search : string -> Fetch (option (list OMDBMovie));
  omdb_detail : string -> Fetch OMDBDetail;            (* by imdbID *)
  token_fetch : Fetch (option string);                  (* [data.access_token] *)
  (* by bearer token and genre; the body is [data.tracks?.items] *)
  track_search : string -> string -> Fetch (option (list SpotifyTrack));
  (* by query term and API key; the body is [data.items] *)
  volume_search : string -> option string -> Fetch (option (list GoogleBook));
  parseFloat : string -> option Q;                      (* [None]: NaN *)
  pick_movie : nat -> nat;
  pick_song : nat -> nat;
  pick_book : nat -> nat
}.

(** The fields set by the constructor. *)
Definition omdbApiKey (w : World) : string :=
  match or_str (OMDB_API_KEY w) (NEXT_PUBLIC_OMDB_API_KEY w) with
  | Some k => k
  | None => ""
  end.

Definition env_or_empty (v : option string) : string :=
  match v with
  | Some s => s
  | None => ""
  end.

Definition spotifyClientId (w : World) : string := env_or_empty (SPOTIFY_CLIENT_ID w).
Definition spotifyClientSecret (w : World) : string := env_or_empty (SPOTIFY_CLIENT_SECRET w).
Definition googleBooksApiKey (w : World) : string := env_or_empty (GOOGLE_BOOKS_API_KEY w).

(** The private field [spotifyToken]. *)
Definition State : Type := option string.

Definition getSpotifyToken (w : World) (spotifyToken : State) : option string * State :=
  if negb (truthy (spotifyClientId w)) || negb (truthy (spotifyClientSecret w))
  then (None, spotifyToken)
  else if truthy_opt spotifyToken
  then (spotifyToken, spotifyToken)
  else
    match token_fetch w with
    | Responded st (Some token) =>
        if status_ok st then (token, token) else (None, spotifyToken)
    | _ => (None, spotifyToken)
    end.

Definition na_or (v : option string) (default : option string) : option string :=
  match v with
  | Some "N/A" => default
  | _ => v
  end.

(** The record pushed for one detail response; [None] when nothing is pushed
    (the response is not successful, or building the record throws). *)
Definition movie_of_detail (w : World) (d : Fetch OMDBDetail) : option Movie :=
  match d with
  | Responded st (Some detailData) =>
      if status_ok st && String.eqb (d_Response detailData) "True"
      then
        match d_Genre detailData with
        | None => None        (* [undefined.split] throws; caught per movie *)
        | Some genre =>
            Some {| id := d_imdbID detailData;
                    title := if truthy (d_Title detailData)
                             then d_Title detailData else "Unknown Title";
                    year := d_Year detailData;
                    rating := match d_imdbRating detailData with
                              | Some "N/A" => 0
                              | Some r => match parseFloat w r with
                                          | Some q => q
                                          | None => 0
                                          end
                              | None => 0
                              end;
                    overview := na_or (d_Plot detailData)
                                  (Some "No description available.");
                    poster_url := na_or (Some (d_Poster detailData)) None;
                    genres := if String.eqb genre "N/A" then []
                              else split_comma_space genre;
                    director := na_or (d_Director detailData) (Some "Unknown");
                    actors := na_or (d_Actors detailData) (Some "Unknown");
                    imdb_url := "https://www.imdb.com/title/" ++ d_imdbID detailData |}
        end
      else None
  | _ => None
  end.

Definition option_list {A} (o : option A) : list A :=
  match o with
  | Some x => [x]
  | None => []
  end.

(** The movies pushed for one query. *)
Definition movies_of_query (w : World) (query : string) : list Movie :=
  match omdb_search w query with
  | Responded st (Some (Some search)) =>
      if status_ok st
      then flat_map (fun movie : OMDBMovie =>
                       option_list (movie_of_detail w (omdb_detail w (imdbID movie))))
                    (slice0 4 search)
      else []
  | _ => []
  end.

Definition getMovieRecommendations (w : World) (emotion : string) : Exc (list Movie) :=
  if negb (truthy (omdbApiKey w))
     || String.eqb (omdbApiKey w) "your_actual_omdb_api_key_here"
  then Throw "OMDB API key missing or invalid"
  else
    match mapping_of emotion with
    | None => Throw "TypeError"
    | Some mapping =>
        let movies := flat_map (movies_of_query w) (slice0 3 (movie_queries mapping)) in
        let uniqueMovies := dedupe_by id [] movies in
        Ret (slice0 10 (shuffle (pick_movie w) uniqueMovies))
    end.

Definition song_of_track (track : SpotifyTrack) : Song :=
  {| name := match or_str (t_name track) None with
             | Some n => n
             | None => "Unknown Track"
             end;
     artist := match t_artists track with
               | Some l => if truthy (String.concat ", " l)
                           then String.concat ", " l else "Unknown Artist"
               | None => "Unknown Artist"
               end;
     album := match or_str (t_album_name track) None with
              | Some a => a
              | None => "Unknown Album"
              end;
     duration := show_duration (match t_duration_ms track with
                                | Some d => d
                                | None => 0%N
                                end);
     preview_url := t_preview_url track;
     image_url := t_image_url track;
     external_url := t_external_url track |}.

Definition songs_of_genre (w : World) (token genre : string) : list Song :=
  match track_search w token genre with
  | Responded st (Some items) =>
      if status_ok st
      then map song_of_track (match items with Some l => l | None => [] end)
      else []
  | _ => []
  end.

Definition getMusicRecommendations (w : World) (emotion : string)
    (spotifyToken : State) : list Song * State :=
  match getSpotifyToken w spotifyToken with
  | (token, s1) =>
      match (if truthy_opt token then token else None) with
      | None => ([], s1)
      | Some token =>
          match mapping_of emotion with
          | None => ([], s1)
          | Some mapping =>
              let songs := flat_map (songs_of_genre w token)
                                    (slice0 2 (music_genres mapping)) in
              let uniqueSongs := dedupe_by name [] songs in
              (slice0 15 (shuffle (pick_song w) uniqueSongs), s1)
          end
      end
  end.

Definition book_of_volume (volumeInfo : GoogleBook) : option Book :=
  match or_str (v_title volumeInfo) None with
  | None => None
  | Some t =>
      let description := match v_description volumeInfo with
                         | Some d => d
                         | None => ""
                         end in
      Some {| b_title := t;
              b_authors := match v_authors volumeInfo with
                           | Some a => a
                           | None => ["Unknown Author"]
                           end;
              b_published_date := match or_str (v_publishedDate volumeInfo) None with
                                  | Some d => d
                                  | None => "Unknown"
                                  end;
              b_description := if (500 <? String.length description)%nat
                               then substring 0 500 description ++ "..."
                               else description;
              b_thumbnail := v_thumbnail volumeInfo;
              b_categories := match v_categories volumeInfo with
                              | Some c => c
                              | None => []
                              end;
              b_page_count := v_pageCount volumeInfo;
              b_rating := v_averageRating volumeInfo |}
  end.

Definition books_of_query (w : World) (query : string) : list Book :=
  match volume_search w query
          (if truthy (googleBooksApiKey w) then Some (googleBooksApiKey w) else None) with
  | Responded st (Some items) =>
      if status_ok st
      then flat_map (fun item => option_list (book_of_volume item))
                    (match items with Some l => l | None => [] end)
      else []
  | _ => []
  end.

Definition getBookRecommendations (w : World) (emotion : string) : list Book :=
  match mapping_of emotion with
  | None => []
  | Some mapping =>
      let books := flat_map (books_of_query w) (slice0 2 (book_queries mapping)) in
      let uniqueBooks := dedupe_by b_title [] books in
      slice0 10 (shuffle (pick_book w) uniqueBooks)
  end.

Record Recommendations : Type := {
  movies : list Movie;
  music : list Song;
  books : list Book
}.

(** [movies.status === 'fulfilled' ? movies.value : []]. *)
Definition movies_or_nil (w : World) (emotion : string) : list Movie :=
  match getMovieRecommendations w emotion with
  | Ret l => l
  | Throw _ => []
  end.

(** [Promise.allSettled]: a rejected method counts as an empty list; the
    other two methods catch their own errors. *)
Definition getRecommendations (w : World) (emotion : string) (s : State)
    : Recommendations * State :=
  let '(songs, s1) := getMusicRecommendations w emotion s in
  ({| movies := movies_or_nil w emotion;
      music := songs;
      books := getBookRecommendations w emotion |}, s1).

End ContentRecommender.

(* ================================================================== *)
(** * The recommendation route (POST /api/recommendations) *)
(* ================================================================== *)

Module Recommendations.

(** [type Emotion]: the seven labels. *)
Inductive Emotion : Type :=
| happy | sad | angry | surprised | neutral | disgust | fear.

Definition label (e : Emotion) : string :=
  match e with
  | happy => "happy"
  | sad => "sad"
  | angry => "angry"
  | surprised => "surprised"
  | neutral => "neutral"
  | disgust => "disgust"
  | fear => "fear"
  end.

Record SongsConfig : Type := {
  queries : list string;
  genres : list string;
  audioFeatures : JSObject Q
}.

Record Config : Type := {
  movies : list string;
  songs : SongsConfig;
  books : list string
}.

Definition emotionConfig : JSObject Config :=
  [ ("happy",
     {| movies := ["comedy"; "feel good"; "uplifting"; "musical"; "adventure"];
        songs :=
          {| queries := ["happy"; "upbeat"; "celebration"; "dance"; "feel good"; "party"; "joy"; "sunshine"; "positive"];
             genres := ["pop"; "dance"; "funk"; "disco"; "happy"; "party"];
             audioFeatures := [("valence", 0.8); ("energy", 0.7); ("danceability", 0.7)]%Q |};
        books := ["humor"; "romance"; "adventure"; "self help"; "inspiration"] |})
  ; ("sad",
     {| movies := ["drama"; "inspiring"; "hope"; "healing"; "uplifting"];
        songs :=
          {| queries := ["sad"; "melancholy"; "emotional"; "heartbreak"; "comfort"; "healing"; "slow"; "ballad"];
             genres := ["acoustic"; "indie"; "folk"; "blues"; "soul"; "sad"];
             audioFeatures := [("valence", 0.3); ("energy", 0.4); ("acousticness", 0.6)]%Q |};
        books := ["healing"; "memoir"; "philosophy"; "comfort"; "hope"] |})
  ; ("angry",
     {| movies := ["action"; "martial arts"; "sports"; "comedy"; "peaceful"];
        songs :=
          {| queries := ["rock"; "metal"; "aggressive"; "intense"; "powerful"; "energy"; "strong"];
             genres := ["rock"; "metal"; "punk"; "alternative"; "hard-rock"];
             audioFeatures := [("valence", 0.4); ("energy", 0.8); ("loudness", (-5))]%Q |};
        books := ["mindfulness"; "anger management"; "philosophy"; "meditation"; "psychology"] |})
  ; ("surprised",
     {| movies := ["thriller"; "mystery"; "sci-fi"; "plot twist"; "suspense"];
        songs :=
          {| queries := ["experimental"; "electronic"; "unique"; "unexpected"; "innovative"; "weird"; "unusual"];
             genres := ["electronic"; "experimental"; "progressive"; "indie"; "alternative"];
             audioFeatures := [("valence", 0.6); ("energy", 0.6); ("instrumentalness", 0.3)]%Q |};
        books := ["mystery"; "thriller"; "science fiction"; "plot twist"; "suspense"] |})
  ; ("neutral",
     {| movies := ["popular"; "top rated"; "classic"; "award winning"; "drama"];
        songs :=
          {| queries := ["popular"; "top hits"; "classic"; "mainstream"; "trending"; "chill"; "relaxed"];
             genres := ["pop"; "rock"; "indie"; "alternative"; "folk"];
             audioFeatures := [("valence", 0.5); ("energy", 0.5); ("popularity", 70)]%Q |};
        books := ["bestseller"; "classic"; "award winning"; "popular"; "fiction"] |})
  ; ("disgust",
     {| movies := ["wholesome"; "family"; "animation"; "nature"; "clean"];
        songs :=
          {| queries := ["peaceful"; "nature"; "instrumental"; "clean"; "wholesome"; "pure"; "calm"];
             genres := ["classical"; "ambient"; "new-age"; "instrumental"; "world"];
             audioFeatures := [("valence", 0.7); ("energy", 0.3); ("acousticness", 0.8)]%Q |};
        books := ["wholesome"; "nature"; "poetry"; "philosophy"; "clean fiction"] |})
  ; ("fear",
     {| movies := ["inspiring"; "courage"; "adventure"; "feel good"; "motivational"];
        songs :=
          {| queries := ["motivational"; "empowering"; "courage"; "strength"; "uplifting"; "brave"; "confident"];
             genres := ["pop"; "rock"; "inspirational"; "gospel"; "motivational"];
             audioFeatures := [("valence", 0.7); ("energy", 0.6); ("speechiness", 0.1)]%Q |};
        books := ["courage"; "self help"; "motivational"; "overcoming fear"; "empowerment"] |})
  ].

Definition mkRec (id title description image link : string) (rating : Q)
    : Recommendation :=
  {| Card.id := id; Card.title := title; Card.description := description;
     Card.image := image; Card.link := link; Card.rating := Some rating;
     Card.preview_url := None |}.

Definition fallbackMovies_table : JSObject (list Recommendation) :=
  [ ("happy",
     [ mkRec "1" "The Grand Budapest Hotel"
         "A whimsical comedy-drama that will keep your spirits high with its colorful visuals and witty dialogue."
         "https://image.tmdb.org/t/p/w300/eWdyYQreja6JGCzqHWXpWHDrrPo.jpg"
         "https://www.themoviedb.org/movie/120467" 8.1%Q
     ; mkRec "2" "Paddington 2"
         "Heartwarming family film that spreads joy and positivity with every scene."
         "https://image.tmdb.org/t/p/w300/2Hd6rNaSBT5Hf3wqQz47p9PipGh.jpg"
         "https://www.themoviedb.org/movie/346648" 8.2%Q
     ; mkRec "3" "The Princess Bride"
         "A timeless adventure filled with romance, humor, and unforgettable characters."
         "https://image.tmdb.org/t/p/w300/gpxjoP0yvRiCNHLbJukbEZnJmJv.jpg"
         "https://www.themoviedb.org/movie/2493" 8.0%Q
     ])
  ; ("sad",
     [ mkRec "1" "Inside Out"
         "Pixar masterpiece that helps understand and process complex emotions with empathy and wisdom."
         "https://image.tmdb.org/t/p/w300/aAmfIX3TT40zUHGcCKrlOZRKC7u.jpg"
         "https://www.themoviedb.org/movie/150540" 8.1%Q
     ; mkRec "2" "A Monster Calls"
         "Beautiful story about dealing with grief and finding strength in difficult times."
         "https://image.tmdb.org/t/p/w300/2DJvLTApaNMnAdZRFH4DWlhf3S5.jpg"
         "https://www.themoviedb.org/movie/258230" 7.5%Q
     ; mkRec "3" "Good Will Hunting"
         "Inspiring drama about healing, friendship, and discovering your potential."
         "https://image.tmdb.org/t/p/w300/bABCBKYBK7A5G1x0FzoeoNfuj2.jpg"
         "https://www.themoviedb.org/movie/2268" 8.3%Q
     ])
  ; ("neutral",
     [ mkRec "1" "The Shawshank Redemption"
         "Timeless drama about hope, friendship, and the resilience of the human spirit."
         "https://image.tmdb.org/t/p/w300/lyQBXzOQSuE59IsHyhrp0qIiPAz.jpg"
         "https://www.themoviedb.org/movie/278" 9.3%Q
     ; mkRec "2" "Forrest Gump"
         "Heartwarming story of an extraordinary life lived with simplicity and kindness."
         "https://image.tmdb.org/t/p/w300/arw2vcBveWOVZr6pxd9XTd1TdQa.jpg"
         "https://www.themoviedb.org/movie/13" 8.8%Q
     ; mkRec "3" "The Pursuit of Happyness"
         "Inspiring true story about perseverance and the pursuit of the American Dream."
         "https://image.tmdb.org/t/p/w300/acaFriusFRGJ7riCamTh2mrjJdq.jpg"
         "https://www.themoviedb.org/movie/1402" 8.0%Q
     ])
  ; ("angry",
     [ mkRec "1" "The Karate Kid"
         "Classic film about channeling anger into discipline and finding inner strength through martial arts."
         "https://image.tmdb.org/t/p/w300/9mG4BMqk9gQMpJoNjF0cHTAdPDK.jpg"
         "https://www.themoviedb.org/movie/1885" 7.2%Q
     ; mkRec "2" "Rocky"
         "Inspiring underdog story about determination, hard work, and never giving up."
         "https://image.tmdb.org/t/p/w300/i5xiwqQIjX8RM20Tf4UB4gcXGNk.jpg"
         "https://www.themoviedb.org/movie/1366" 8.1%Q
     ; mkRec "3" "Peaceful Warrior"
         "Philosophical drama about finding inner peace and transforming anger into wisdom."
         "https://image.tmdb.org/t/p/w300/9eQ4wKW2LzOVuubQVFdJhgxXGo.jpg"
         "https://www.themoviedb.org/movie/13155" 7.2%Q
     ])
  ; ("surprised",
     [ mkRec "1" "Inception"
         "Mind-bending sci-fi masterpiece that will keep you guessing and surprised until the very end."
         "https://image.tmdb.org/t/p/w300/8IB2e4r4oVhHnANbnm7O3Tj6tF8.jpg"
         "https://www.themoviedb.org/movie/27205" 8.8%Q
     ; mkRec "2" "The Sixth Sense"
         "Supernatural thriller with one of cinema's most shocking and memorable plot twists."
         "https://image.tmdb.org/t/p/w300/fIssD3w3SvIhPPmVo4WMgZDVLID.jpg"
         "https://www.themoviedb.org/movie/745" 8.1%Q
     ; mkRec "3" "Shutter Island"
         "Psychological thriller that will leave you questioning reality until the final revelation."
         "https://image.tmdb.org/t/p/w300/4GDy0PHYX3VRXUtwK5ysFbg3kEx.jpg"
         "https://www.themoviedb.org/movie/11324" 8.2%Q
     ])
  ; ("disgust",
     [ mkRec "1" "WALL-E"
         "Beautiful Pixar film about environmental consciousness and finding beauty in unexpected places."
         "/placeholder.svg?height=200&width=150&text=üé¨"
         "https://www.themoviedb.org/movie/10681" 8.4%Q
     ; mkRec "2" "My Neighbor Totoro"
         "Wholesome Studio Ghibli film that celebrates nature, family, and childhood wonder."
         "/placeholder.svg?height=200&width=150&text=üé¨"
         "https://www.themoviedb.org/movie/8392" 8.2%Q
     ; mkRec "3" "The Secret Garden"
         "Uplifting story about healing, growth, and the transformative power of nature."
         "/placeholder.svg?height=200&width=150&text=üé¨"
         "https://www.themoviedb.org/movie/3078" 7.3%Q
     ])
  ; ("fear",
     [ mkRec "1" "Finding Nemo"
         "Inspiring Pixar film about overcoming fears, anxiety, and finding courage in the face of danger."
         "/placeholder.svg?height=200&width=150&text=üé¨"
         "https://www.themoviedb.org/movie/12" 8.2%Q
     ; mkRec "2" "The Lion King"
         "Epic tale about facing your fears, accepting responsibility, and finding your courage."
         "/placeholder.svg?height=200&width=150&text=üé¨"
         "https://www.themoviedb.org/movie/8587" 8.5%Q
     ; mkRec "3" "Brave"
         "Pixar adventure about a young princess who must overcome her fears to save her kingdom."
         "/placeholder.svg?height=200&width=150&text=üé¨"
         "https://www.themoviedb.org/movie/62177" 7.1%Q
     ])
  ].

Definition fallbackSongs_table : JSObject (list Recommendation) :=
  [ ("happy",
     [ mkRec "1" "Happy - Pharrell Williams"
         "Upbeat anthem that spreads pure joy and infectious positivity ‚Ä¢ 3:53"
         "https://i.scdn.co/image/ab67616d0000b273e0c8c2de09d1d134c6783b18"
         "https://open.spotify.com/search/happy%20pharrell" 4.8%Q
     ; mkRec "2" "Good as Hell - Lizzo"
         "Empowering pop hit that boosts confidence and self-love ‚Ä¢ 2:39"
         "https://i.scdn.co/image/ab67616d0000b273c9b6a4b8aba734b8b2f7afc6"
         "https://open.spotify.com/search/good%20as%20hell%20lizzo" 4.7%Q
     ; mkRec "3" "Walking on Sunshine - Katrina and the Waves"
         "Classic feel-good song that never gets old and always lifts spirits ‚Ä¢ 3:58"
         "https://i.scdn.co/image/ab67616d0000b273ecb9b3c4f5e1ba15a38fb667"
         "https://open.spotify.com/search/walking%20on%20sunshine" 4.6%Q
     ])
  ; ("sad",
     [ mkRec "1" "Here Comes the Sun - The Beatles"
         "Gentle reminder that difficult times will pass and brighter days are ahead ‚Ä¢ 3:05"
         "https://i.scdn.co/image/ab67616d0000b273dc30583ba717007b00cceb25"
         "https://open.spotify.com/search/here%20comes%20the%20sun%20beatles" 4.9%Q
     ; mkRec "2" "Three Little Birds - Bob Marley"
         "Soothing reggae song about not worrying and trusting that everything will be alright ‚Ä¢ 3:00"
         "https://i.scdn.co/image/ab67616d0000b273e4e3c3b3b85c6b2b4b2bc2b1"
         "https://open.spotify.com/search/three%20little%20birds%20marley" 4.8%Q
     ; mkRec "3" "Lean on Me - Bill Withers"
         "Comforting song about friendship, support, and being there for each other ‚Ä¢ 4:17"
         "https://i.scdn.co/image/ab67616d0000b2734bb80f29cf4b72ef7c4c6b7e"
         "https://open.spotify.com/search/lean%20on%20me%20withers" 4.7%Q
     ])
  ; ("neutral",
     [ mkRec "1" "Hotel California - Eagles"
         "Iconic rock song with mysterious lyrics and timeless appeal ‚Ä¢ 6:30"
         "https://i.scdn.co/image/ab67616d0000b2734637341b9f507521afa9a778"
         "https://open.spotify.com/search/hotel%20california%20eagles" 4.8%Q
     ; mkRec "2" "Bohemian Rhapsody - Queen"
         "Epic masterpiece with unexpected musical journey and dramatic changes ‚Ä¢ 5:55"
         "https://i.scdn.co/image/ab67616d0000b273e319baafd16e84f0408c5153"
         "https://open.spotify.com/search/bohemian%20rhapsody%20queen" 4.9%Q
     ; mkRec "3" "Imagine - John Lennon"
         "Timeless anthem of peace and hope that resonates across generations ‚Ä¢ 3:07"
         "https://i.scdn.co/image/ab67616d0000b2738b662db62ee3d5b85d394ebb"
         "https://open.spotify.com/search/imagine%20john%20lennon" 4.8%Q
     ])
  ; ("angry",
     [ mkRec "1" "Eye of the Tiger - Survivor"
         "Powerful rock anthem for channeling anger into determination and strength ‚Ä¢ 4:04"
         "/placeholder.svg?height=200&width=200&text=üéµ"
         "https://open.spotify.com/search/eye%20of%20the%20tiger%20survivor" 4.6%Q
     ; mkRec "2" "Breathe Me - Sia"
         "Emotional song for processing anger and finding inner peace ‚Ä¢ 4:31"
         "/placeholder.svg?height=200&width=200&text=üéµ"
         "https://open.spotify.com/search/breathe%20me%20sia" 4.5%Q
     ; mkRec "3" "Stronger - Kelly Clarkson"
         "Empowering anthem about resilience and turning pain into strength ‚Ä¢ 3:42"
         "/placeholder.svg?height=200&width=200&text=üéµ"
         "https://open.spotify.com/search/stronger%20kelly%20clarkson" 4.4%Q
     ])
  ; ("surprised",
     [ mkRec "1" "Bohemian Rhapsody - Queen"
         "Epic song with unexpected musical journey and dramatic changes ‚Ä¢ 5:55"
         "/placeholder.svg?height=200&width=200&text=üéµ"
         "https://open.spotify.com/search/bohemian%20rhapsody%20queen" 4.9%Q
     ; mkRec "2" "Thunderstruck - AC/DC"
         "High-energy rock anthem with electrifying surprises and powerful vocals ‚Ä¢ 4:52"
         "/placeholder.svg?height=200&width=200&text=üéµ"
         "https://open.spotify.com/search/thunderstruck%20acdc" 4.7%Q
     ; mkRec "3" "Mr. Blue Sky - Electric Light Orchestra"
         "Uplifting orchestral pop with unexpected arrangements and joyful surprises ‚Ä¢ 5:03"
         "/placeholder.svg?height=200&width=200&text=üéµ"
         "https://open.spotify.com/search/mr%20blue%20sky%20elo" 4.6%Q
     ])
  ; ("disgust",
     [ mkRec "1" "What a Wonderful World - Louis Armstrong"
         "Beautiful song that restores faith in goodness and beauty ‚Ä¢ 2:21"
         "/placeholder.svg?height=200&width=200&text=üéµ"
         "https://open.spotify.com/search/wonderful%20world%20armstrong" 4.8%Q
     ; mkRec "2" "Over the Rainbow - Judy Garland"
         "Timeless classic about hope, dreams, and finding beauty beyond troubles ‚Ä¢ 2:42"
         "/placeholder.svg?height=200&width=200&text=üéµ"
         "https://open.spotify.com/search/over%20the%20rainbow%20judy%20garland" 4.7%Q
     ; mkRec "3" "Pure Imagination - Gene Wilder"
         "Whimsical song that celebrates creativity and the power of positive thinking ‚Ä¢ 3:15"
         "/placeholder.svg?height=200&width=200&text=üéµ"
         "https://open.spotify.com/search/pure%20imagination%20gene%20wilder" 4.5%Q
     ])
  ; ("fear",
     [ mkRec "1" "Brave - Sara Bareilles"
         "Empowering anthem about finding courage and speaking your truth ‚Ä¢ 4:20"
         "/placeholder.svg?height=200&width=200&text=üéµ"
         "https://open.spotify.com/search/brave%20sara%20bareilles" 4.6%Q
     ; mkRec "2" "Fight Song - Rachel Platten"
         "Inspiring anthem about inner strength and overcoming fear with determination ‚Ä¢ 3:23"
         "/placeholder.svg?height=200&width=200&text=üéµ"
         "https://open.spotify.com/search/fight%20song%20rachel%20platten" 4.4%Q
     ; mkRec "3" "Roar - Katy Perry"
         "Uplifting pop anthem about finding your voice and conquering your fears ‚Ä¢ 3:43"
         "/placeholder.svg?height=200&width=200&text=üéµ"
         "https://open.spotify.com/search/roar%20katy%20perry" 4.3%Q
     ])
  ].

Definition goodreadsBooks_table : JSObject (list Recommendation) :=
  [ ("happy",
     [ mkRec "1" "The Seven Husbands of Evelyn Hugo"
         "A reclusive Hollywood icon finally tells her story - filled with ambition, love, and secrets that will captivate you until the very last page."
         "https://images-na.ssl-images-amazon.com/images/S/compressed.photo.goodreads.com/books/1618329605i/32620332.jpg"
         "https://www.goodreads.com/book/show/32620332-the-seven-husbands-of-evelyn-hugo" 4.4%Q
     ; mkRec "2" "Beach Read"
         "Two rival writers who end up stuck next to each other in beach houses challenge each other to write outside their comfort zones."
         "https://images-na.ssl-images-amazon.com/images/S/compressed.photo.goodreads.com/books/1577910950i/52867387.jpg"
         "https://www.goodreads.com/book/show/52867387-beach-read" 4.1%Q
     ; mkRec "3" "The House in the Cerulean Sea"
         "A magical and uplifting story about found family, second chances, and the power of choosing love over fear."
         "https://images-na.ssl-images-amazon.com/images/S/compressed.photo.goodreads.com/books/1575927555i/45047384.jpg"
         "https://www.goodreads.com/book/show/45047384-the-house-in-the-cerulean-sea" 4.3%Q
     ])
  ; ("sad",
     [ mkRec "1" "A Man Called Ove"
         "A heartbreaking and hilarious story about grief, love, and the importance of human connection that will restore your faith in humanity."
         "https://images-na.ssl-images-amazon.com/images/S/compressed.photo.goodreads.com/books/1405259930i/18774964.jpg"
         "https://www.goodreads.com/book/show/18774964-a-man-called-ove" 4.4%Q
     ; mkRec "2" "The Book Thief"
         "A devastating, beautiful story about the power of words and books to sustain us through the darkest times."
         "https://images-na.ssl-images-amazon.com/images/S/compressed.photo.goodreads.com/books/1522157426i/19063.jpg"
         "https://www.goodreads.com/book/show/19063.The_Book_Thief" 4.4%Q
     ; mkRec "3" "Me Before You"
         "A heart-wrenching love story that will make you laugh, cry, and think about what it means to truly live."
         "https://images-na.ssl-images-amazon.com/images/S/compressed.photo.goodreads.com/books/1396366690i/15507958.jpg"
         "https://www.goodreads.com/book/show/15507958-me-before-you" 4.3%Q
     ])
  ; ("neutral",
     [ mkRec "1" "Educated"
         "A powerful memoir about education, family, and the fierce power of knowledge to transform a life."
         "https://images-na.ssl-images-amazon.com/images/S/compressed.photo.goodreads.com/books/1506026635i/35133922.jpg"
         "https://www.goodreads.com/book/show/35133922-educated" 4.4%Q
     ; mkRec "2" "Atomic Habits"
         "A practical guide to building good habits and breaking bad ones, with actionable strategies for lasting change."
         "https://images-na.ssl-images-amazon.com/images/S/compressed.photo.goodreads.com/books/1535115320i/40121378.jpg"
         "https://www.goodreads.com/book/show/40121378-atomic-habits" 4.4%Q
     ; mkRec "3" "Where the Crawdads Sing"
         "A mystery and coming-of-age story set in the atmospheric North Carolina marshlands."
         "https://images-na.ssl-images-amazon.com/images/S/compressed.photo.goodreads.com/books/1582135294i/36809135.jpg"
         "https://www.goodreads.com/book/show/36809135-where-the-crawdads-sing" 4.4%Q
     ])
  ; ("angry",
     [ mkRec "1" "The Power"
         "A provocative exploration of power, gender, and society that will challenge your perspective on the world."
         "https://images-na.ssl-images-amazon.com/images/S/compressed.photo.goodreads.com/books/1465761687i/29751398.jpg"
         "https://www.goodreads.com/book/show/29751398-the-power" 3.9%Q
     ; mkRec "2" "The Rage of Dragons"
         "Epic fantasy filled with intense action, political intrigue, and a protagonist driven by the need for revenge."
         "https://images-na.ssl-images-amazon.com/images/S/compressed.photo.goodreads.com/books/1548356842i/41952489.jpg"
         "https://www.goodreads.com/book/show/41952489-the-rage-of-dragons" 4.3%Q
     ; mkRec "3" "The Power of Now"
         "A spiritual guide to finding peace and presence, perfect for channeling intense emotions into mindfulness."
         "https://images-na.ssl-images-amazon.com/images/S/compressed.photo.goodreads.com/books/1386925471i/6708.jpg"
         "https://www.goodreads.com/book/show/6708.The_Power_of_Now" 4.1%Q
     ])
  ; ("surprised",
     [ mkRec "1" "The Silent Patient"
         "A shocking psychological thriller with a twist ending that will leave you speechless and questioning everything."
         "https://images-na.ssl-images-amazon.com/images/S/compressed.photo.goodreads.com/books/1547731548i/40097951.jpg"
         "https://www.goodreads.com/book/show/40097951-the-silent-patient" 4.1%Q
     ; mkRec "2" "Gone Girl"
         "A twisted psychological thriller that will keep you guessing until the very last page with shocking revelations."
         "https://images-na.ssl-images-amazon.com/images/S/compressed.photo.goodreads.com/books/1554086139i/19288043.jpg"
         "https://www.goodreads.com/book/show/19288043-gone-girl" 4.0%Q
     ; mkRec "3" "The Midnight Library"
         "A thought-provoking exploration of life's infinite possibilities that will surprise you with its depth and wisdom."
         "https://images-na.ssl-images-amazon.com/images/S/compressed.photo.goodreads.com/books/1602190253i/52578297.jpg"
         "https://www.goodreads.com/book/show/52578297-the-midnight-library" 4.1%Q
     ])
  ; ("disgust",
     [ mkRec "1" "The Alchemist"
         "A beautiful, inspiring tale about following your dreams and listening to your heart that will restore your faith in goodness."
         "https://images-na.ssl-images-amazon.com/images/S/compressed.photo.goodreads.com/books/1654371463i/18144590.jpg"
         "https://www.goodreads.com/book/show/18144590-the-alchemist" 3.9%Q
     ; mkRec "2" "A Good Girl's Guide to Murder"
         "A gripping mystery that will cleanse your palate with its engaging plot and likeable characters."
         "https://images-na.ssl-images-amazon.com/images/S/compressed.photo.goodreads.com/books/1556134336i/43306540.jpg"
         "https://www.goodreads.com/book/show/43306540-a-good-girl-s-guide-to-murder" 4.4%Q
     ; mkRec "3" "The Thursday Murder Club"
         "A delightful cozy mystery with charming characters that will restore your faith in humanity and justice."
         "https://images-na.ssl-images-amazon.com/images/S/compressed.photo.goodreads.com/books/1585242967i/46000520.jpg"
         "https://www.goodreads.com/book/show/46000520-the-thursday-murder-club" 4.2%Q
     ])
  ; ("fear",
     [ mkRec "1" "Anxious People"
         "A heartwarming story about human connection and understanding that will help you feel less alone in your fears."
         "https://images-na.ssl-images-amazon.com/images/S/compressed.photo.goodreads.com/books/1597937463i/49127718.jpg"
         "https://www.goodreads.com/book/show/49127718-anxious-people" 4.2%Q
     ; mkRec "2" "The Cozy Life"
         "A gentle guide to finding comfort and contentment in life's simple pleasures, perfect for anxious moments."
         "https://images-na.ssl-images-amazon.com/images/S/compressed.photo.goodreads.com/books/1569258914i/46819737.jpg"
         "https://www.goodreads.com/book/show/46819737-the-cozy-life" 4.0%Q
     ; mkRec "3" "Maybe You Should Talk to Someone"
         "A therapist's own journey through therapy - honest, funny, and deeply reassuring about facing our fears."
         "https://images-na.ssl-images-amazon.com/images/S/compressed.photo.goodreads.com/books/1549042097i/37570546.jpg"
         "https://www.goodreads.com/book/show/37570546-maybe-you-should-talk-to-someone" 4.4%Q
     ])
  ].

Definition fallbackBooks_table : JSObject (list Recommendation) :=
  [ ("happy",
     [ mkRec "1" "The Alchemist"
         "Inspiring tale about following your dreams and listening to your heart"
         "/placeholder.svg?height=250&width=180&text=üìö"
         "https://www.goodreads.com/book/show/865.The_Alchemist" 4.2%Q
     ; mkRec "2" "The Happiness Project"
         "Practical guide to finding joy and contentment in everyday life"
         "/placeholder.svg?height=250&width=180&text=üìö"
         "https://www.goodreads.com/book/show/6398634" 3.9%Q
     ; mkRec "3" "Yes Please"
         "Amy Poehler's hilarious and heartfelt memoir about life, love, and laughter"
         "/placeholder.svg?height=250&width=180&text=üìö"
         "https://www.goodreads.com/book/show/20910157" 4.1%Q
     ])
  ; ("sad",
     [ mkRec "1" "The Book Thief"
         "Beautiful story about finding hope in dark times through the power of words"
         "/placeholder.svg?height=250&width=180&text=üìö"
         "https://www.goodreads.com/book/show/19063.The_Book_Thief" 4.4%Q
     ; mkRec "2" "A Man Called Ove"
         "Heartwarming story about grief, love, and the importance of human connection"
         "/placeholder.svg?height=250&width=180&text=ÔøΩÔøΩÔøΩ"
         "https://www.goodreads.com/book/show/18774964" 4.4%Q
     ; mkRec "3" "The Light We Lost"
         "Moving story about love, loss, and the choices that shape our lives"
         "/placeholder.svg?height=250&width=180&text=üìö"
         "https://www.goodreads.com/book/show/29430584" 4.0%Q
     ])
  ; ("neutral",
     [ mkRec "1" "To Kill a Mockingbird"
         "Classic novel about justice, morality, and growing up in the American South"
         "/placeholder.svg?height=250&width=180&text=üìö"
         "https://www.goodreads.com/book/show/2657.To_Kill_a_Mockingbird" 4.3%Q
     ; mkRec "2" "The Great Gatsby"
         "Timeless American classic about dreams, wealth, and the pursuit of happiness"
         "/placeholder.svg?height=250&width=180&text=üìö"
         "https://www.goodreads.com/book/show/4671.The_Great_Gatsby" 3.9%Q
     ; mkRec "3" "1984"
         "Dystopian masterpiece about freedom, truth, and the power of independent thought"
         "/placeholder.svg?height=250&width=180&text=üìö"
         "https://www.goodreads.com/book/show/5470.1984" 4.2%Q
     ])
  ; ("angry",
     [ mkRec "1" "The Power of Now"
         "Guide to mindfulness and emotional control for managing anger and frustration"
         "/placeholder.svg?height=250&width=180&text=üìö"
         "https://www.goodreads.com/book/show/6708.The_Power_of_Now" 4.1%Q
     ; mkRec "2" "Anger: Wisdom for Cooling the Flames"
         "Buddhist approach to understanding and transforming anger into compassion"
         "/placeholder.svg?height=250&width=180&text=üìö"
         "https://www.goodreads.com/book/show/95747.Anger" 4.3%Q
     ; mkRec "3" "The Gifts of Imperfection"
         "Bren√© Brown's guide to letting go of perfectionism and embracing authenticity"
         "/placeholder.svg?height=250&width=180&text=üìö"
         "https://www.goodreads.com/book/show/7015403" 4.2%Q
     ])
  ; ("surprised",
     [ mkRec "1" "Gone Girl"
         "Psychological thriller with shocking plot twists that will keep you surprised"
         "/placeholder.svg?height=250&width=180&text=üìö"
         "https://www.goodreads.com/book/show/19288043" 4.0%Q
     ; mkRec "2" "The Girl with the Dragon Tattoo"
         "Gripping mystery with unexpected revelations and complex characters"
         "/placeholder.svg?height=250&width=180&text=üìö"
         "https://www.goodreads.com/book/show/2429135" 4.1%Q
     ; mkRec "3" "Big Little Lies"
         "Domestic drama with surprising twists about secrets, lies, and friendship"
         "/placeholder.svg?height=250&width=180&text=üìö"
         "https://www.goodreads.com/book/show/19486412" 4.3%Q
     ])
  ; ("disgust",
     [ mkRec "1" "The Little Prince"
         "Innocent tale that restores wonder and purity to the world"
         "/placeholder.svg?height=250&width=180&text=üìö"
         "https://www.goodreads.com/book/show/157993.The_Little_Prince" 4.3%Q
     ; mkRec "2" "Charlotte's Web"
         "Timeless story of friendship, loyalty, and the beauty of simple kindness"
         "/placeholder.svg?height=250&width=180&text=üìö"
         "https://www.goodreads.com/book/show/24178.Charlotte_s_Web" 4.2%Q
     ; mkRec "3" "The Secret Garden"
         "Classic tale about healing, growth, and the transformative power of nature"
         "/placeholder.svg?height=250&width=180&text=üìö"
         "https://www.goodreads.com/book/show/2998.The_Secret_Garden" 4.1%Q
     ])
  ; ("fear",
     [ mkRec "1" "Feel the Fear and Do It Anyway"
         "Self-help guide to overcoming anxiety and fear with practical strategies"
         "/placeholder.svg?height=250&width=180&text=üìö"
         "https://www.goodreads.com/book/show/9457.Feel_the_Fear_and_Do_It_Anyway" 4.0%Q
     ; mkRec "2" "The Confidence Code"
         "Research-based guide to building confidence and overcoming self-doubt"
         "/placeholder.svg?height=250&width=180&text=üìö"
         "https://www.goodreads.com/book/show/18693653" 3.9%Q
     ; mkRec "3" "Daring Greatly"
         "Bren√© Brown's powerful book about vulnerability, courage, and overcoming fear"
         "/placeholder.svg?height=250&width=180&text=üìö"
         "https://www.goodreads.com/book/show/13588356" 4.3%Q
     ])
  ].

(** The four static getters: [table[emotion] || table.neutral]. *)
Definition getFallbackMovies (emotion : string) : JSProp (list Recommendation) :=
  js_or (js_get fallbackMovies_table emotion) (js_get fallbackMovies_table "neutral").

Definition getFallbackSongs (emotion : string) : JSProp (list Recommendation) :=
  js_or (js_get fallbackSongs_table emotion) (js_get fallbackSongs_table "neutral").

Definition getGoodreadsStyleBooks (emotion : string) : JSProp (list Recommendation) :=
  js_or (js_get goodreadsBooks_table emotion) (js_get goodreadsBooks_table "neutral").

Definition getFallbackBooks (emotion : string) : JSProp (list Recommendation) :=
  js_or (js_get fallbackBooks_table emotion) (js_get fallbackBooks_table "neutral").

Module CR := ContentRecommender.

Record World : Type := {
  recommender : CR.World;
  spotify : SpotifyClient.World;
  encodeURIComponent : string -> option string;       (* [None]: URIError *)
  (* [Math.random().toString(36).substr(2, 9)] and [Math.random() * 5], by
     position in the list *)
  song_id : nat -> string;
  song_rating : nat -> Q;
  book_id : nat -> string;
  book_rating : nat -> Q;
  (* [Math.random()] scaled to an index, in the three fetchers *)
  pick_movie_query : nat;
  pick_song_query : nat;
  pick_book_query : nat;
  (* the OMDB requests of [fetchMovies], by query term and by imdbID *)
  movie_search : string -> Fetch (option (list CR.OMDBMovie));
  movie_detail : string -> Fetch CR.OMDBDetail
}.

(** The state of the two imported singletons. *)
Record State : Type := {
  recommender_state : CR.State;
  client_state : SpotifyClient.State
}.

(** [process.env.OMDB_API_KEY || process.env.NEXT_PUBLIC_OMDB_API_KEY]. *)
Definition omdbApiKey (w : World) : option string :=
  or_str (CR.OMDB_API_KEY (recommender w)) (CR.NEXT_PUBLIC_OMDB_API_KEY (recommender w)).

Definition movie_placeholder : string := "/placeholder.svg?height=200&width=150&text=Movie".
Definition song_placeholder : string := "/placeholder.svg?height=200&width=200&text=Song".
Definition book_placeholder : string := "/placeholder.svg?height=250&width=180&text=Book".

Definition or_placeholder (v : option string) (placeholder : string) : string :=
  match or_str v None with
  | Some s => s
  | None => placeholder
  end.

(** [text?.substring(0, 100) + "..."]. *)
Definition summary (text : option string) : string :=
  match text with
  | Some t => substring 0 100 t ++ "..."
  | None => "undefined..."
  end.

(** ** The fetchers of the original logic *)

Definition basic_movie (movie : CR.OMDBMovie) : Recommendation :=
  {| Card.id := CR.imdbID movie;
     Card.title := CR.Title movie;
     Card.description := "No description available";
     Card.image := if String.eqb (CR.Poster movie) "N/A"
                   then movie_placeholder else CR.Poster movie;
     Card.link := "https://www.imdb.com/title/" ++ CR.imdbID movie;
     Card.rating := Some 0%Q;
     Card.preview_url := None |}.

Definition detailed_movie (w : World) (movie : CR.OMDBMovie) : Recommendation :=
  match movie_detail w (CR.imdbID movie) with
  | Responded st (Some detail) =>
      if status_ok st && String.eqb (CR.d_Response detail) "True"
      then
        {| Card.id := CR.d_imdbID detail;
           Card.title := CR.d_Title detail;
           Card.description := match CR.d_Plot detail with
                               | Some "N/A" => "No description available"
                               | plot => summary plot
                               end;
           Card.image := if String.eqb (CR.d_Poster detail) "N/A"
                         then movie_placeholder else CR.d_Poster detail;
           Card.link := "https://www.imdb.com/title/" ++ CR.d_imdbID detail;
           Card.rating := match CR.d_imdbRating detail with
                          | Some "N/A" => Some 0%Q
                          | Some r => CR.parseFloat (recommender w) r
                          | None => None
                          end;
           Card.preview_url := None |}
      else basic_movie movie
  | _ => basic_movie movie
  end.

Definition placeholder_key (apiKey : option string) : bool :=
  match or_str apiKey None with
  | None => true
  | Some k => String.eqb k "demo" || String.eqb k "your_omdb_api_key"
              || String.eqb k "your_actual_omdb_api_key_here"
  end.

Definition fetchMovies (w : World) (emotion : string) : JSProp (list Recommendation) :=
  match js_get emotionConfig emotion with
  | Own config =>
      let randomQuery := match random_element (pick_movie_query w) (movies config) with
                         | Some q => q
                         | None => "undefined"
                         end in
      if placeholder_key (omdbApiKey w) then getFallbackMovies emotion
      else
        match movie_search w randomQuery with
        | Responded st (Some (Some (hit :: hits))) =>
            if status_ok st
            then Own (map (detailed_movie w) (slice0 3 (hit :: hits)))
            else getFallbackMovies emotion
        | _ => getFallbackMovies emotion
        end
  | _ => getFallbackMovies emotion     (* reading [.length] of undefined throws *)
  end.

Definition fetchSpotifySongs (fuel : nat) (w : World) (emotion : string)
    (s : SpotifyClient.State)
    : Outcome (JSProp (list Recommendation)) SpotifyClient.State :=
  let config := match js_get emotionConfig emotion with
                | Own config => Some (songs config)
                | _ => None
                end in
  if negb (SpotifyClient.isSpotifyAvailable s)
  then Finished (getFallbackSongs emotion) s
  else
    (* recommendations first *)
    let first :=
      match config with
      | None => Finished [] s                        (* TypeError, caught *)
      | Some c =>
          match SpotifyClient.getRecommendations fuel (spotify w) (genres c) 5 s with
          | Running s1 => Running s1
          | Finished spotifyTracks s1 =>
              Finished (map SpotifyClient.formatTrackForRecommendation
                            (slice0 3 spotifyTracks)) s1
          end
      end in
    match first with
    | Running s1 => Running s1
    | Finished songs1 s1 =>
        (* then a keyword search when fewer than three *)
        let second :=
          if (List.length songs1 <? 3)%nat
          then
            match config with
            | None => Finished songs1 s1                 (* TypeError, caught *)
            | Some c =>
                let randomQuery :=
                  match random_element (pick_song_query w) (queries c) with
                  | Some q => q
                  | None => "undefined"
                  end in
                match SpotifyClient.searchTracks fuel (spotify w) randomQuery 5 s1 with
                | Running s2 => Running s2
                | Finished searchTracks s2 =>
                    Finished (songs1 ++ map SpotifyClient.formatTrackForRecommendation
                                            (slice0 (3 - List.length songs1) searchTracks))%list
                             s2
                end
            end
          else Finished songs1 s1 in
        match second with
        | Running s2 => Running s2
        | Finished [] s2 => Finished (getFallbackSongs emotion) s2
        | Finished songs2 s2 => Finished (Own songs2) s2
        end
    end.

Definition fetchBooks (w : World) (emotion : string) : JSProp (list Recommendation) :=
  match js_get emotionConfig emotion with
  | Own config => getGoodreadsStyleBooks emotion
  | _ => getFallbackBooks emotion       (* reading [.length] of undefined throws *)
  end.

(** ** The handler *)

Inductive Request : Type :=
| Malformed                               (* [request.json()] rejects *)
| Payload (emotion : option string).

Record RecommendationSet : Type := {
  r_movies : JSProp (list Recommendation);
  r_songs : JSProp (list Recommendation);
  r_books : JSProp (list Recommendation);
  spotify_available : bool;
  omdb_configured : bool;
  enhanced_backend : bool;
  error : option string
}.

Inductive Body : Type :=
| ErrorBody (error : string)
| Recs (set : RecommendationSet).

Record Response : Type := {
  status : nat;
  body : Body
}.

Definition transformMovie (movie : CR.Movie) : Recommendation :=
  {| Card.id := CR.id movie;
     Card.title := CR.title movie;
     Card.description := summary (CR.overview movie);
     Card.image := or_placeholder (CR.poster_url movie) movie_placeholder;
     Card.link := if truthy (CR.imdb_url movie) then CR.imdb_url movie
                  else "https://www.imdb.com/title/" ++ CR.id movie;
     Card.rating := Some (CR.rating movie);
     Card.preview_url := None |}.

Definition transformSong (w : World) (i : nat) (song : CR.Song) : option Recommendation :=
  let link :=
    match or_str (CR.external_url song) None with
    | Some u => Some u
    | None =>
        match encodeURIComponent w (CR.name song ++ " " ++ CR.artist song) with
        | Some q => Some ("https://open.spotify.com/search/" ++ q)
        | None => None
        end
    end in
  match link with
  | None => None
  | Some link =>
      Some {| Card.id := song_id w i;
              Card.title := CR.name song ++ " - " ++ CR.artist song;
              Card.description := CR.album song ++ " ‚Ä¢ " ++ CR.duration song;
              Card.image := or_placeholder (CR.image_url song) song_placeholder;
              Card.link := link;
              Card.rating := Some (song_rating w i);
              Card.preview_url := CR.preview_url song |}
  end.

Definition transformBook (w : World) (i : nat) (book : CR.Book) : option Recommendation :=
  match encodeURIComponent w (CR.b_title book ++ " book") with
  | None => None
  | Some q =>
      Some {| Card.id := book_id w i;
              Card.title := CR.b_title book;
              Card.description := summary (Some (CR.b_description book));
              Card.image := or_placeholder (CR.b_thumbnail book) book_placeholder;
              Card.link := "https://www.google.com/search?q=" ++ q;
              Card.rating := match CR.b_rating book with
                             | Some r => if Qeq_bool r 0 then Some (book_rating w i)
                                         else Some r
                             | None => Some (book_rating w i)
                             end;
              Card.preview_url := None |}
  end.

(** [transformed.length > 0 ? transformed : fallback]. *)
Definition or_fallback (transformed : list Recommendation)
    (fallback : JSProp (list Recommendation)) : JSProp (list Recommendation) :=
  match transformed with
  | [] => fallback
  | _ => Own transformed
  end.

(** The inner [try] block: [None] when it throws, or when it reaches its end
    without returning; the handler then goes on with the original logic. *)
Definition enhanced (w : World) (emotion : string) (s : State)
    : option Response * State :=
  let '(recommendations, rs) :=
    CR.getRecommendations (recommender w) emotion (recommender_state s) in
  let s1 := {| recommender_state := rs; client_state := client_state s |} in
  let transformedMovies := map transformMovie (CR.movies recommendations) in
  match mapi_exc (transformSong w) 0 (CR.music recommendations) with
  | None => (None, s1)
  | Some transformedSongs =>
      match mapi_exc (transformBook w) 0 (CR.books recommendations) with
      | None => (None, s1)
      | Some transformedBooks =>
          let moviesToReturn := or_fallback transformedMovies (getFallbackMovies emotion) in
          let songsToReturn := or_fallback transformedSongs (getFallbackSongs emotion) in
          let booksToReturn := or_fallback transformedBooks (getGoodreadsStyleBooks emotion) in
          if length_positive moviesToReturn || length_positive songsToReturn
             || length_positive booksToReturn
          then
            (Some {| status := 200;
                     body := Recs {| r_movies := moviesToReturn;
                                     r_songs := songsToReturn;
                                     r_books := booksToReturn;
                                     spotify_available :=
                                       SpotifyClient.isSpotifyAvailable (client_state s1);
                                     omdb_configured := truthy_opt (omdbApiKey w);
                                     enhanced_backend := true;
                                     error := None |} |}, s1)
          else (None, s1)
      end
  end.

(** The original logic: [Promise.allSettled] over three fetchers that catch
    their own errors, so every promise is fulfilled. *)
Definition original (fuel : nat) (w : World) (emotion : string) (s : State)
    : Outcome Response State :=
  match fetchSpotifySongs fuel w emotion (client_state s) with
  | Running cs =>
      Running {| recommender_state := recommender_state s; client_state := cs |}
  | Finished songsResult cs =>
      Finished {| status := 200;
                  body := Recs {| r_movies := fetchMovies w emotion;
                                  r_songs := songsResult;
                                  r_books := fetchBooks w emotion;
                                  spotify_available := SpotifyClient.isSpotifyAvailable cs;
                                  omdb_configured := truthy_opt (omdbApiKey w);
                                  enhanced_backend := false;
                                  error := None |} |}
               {| recommender_state := recommender_state s; client_state := cs |}
  end.

Definition POST (fuel : nat) (w : World) (s : State) (request : Request)
    : Outcome Response State :=
  match request with
  | Malformed =>
      Finished {| status := 200;
                  body := Recs {| r_movies := getFallbackMovies "neutral";
                                  r_songs := getFallbackSongs "neutral";
                                  r_books := getFallbackBooks "neutral";
                                  spotify_available := false;
                                  omdb_configured := false;
                                  enhanced_backend := false;
                                  error := Some "Using fallback recommendations" |} |}
               s
  | Payload emotion =>
      match or_str emotion None with
      | None =>
          Finished {| status := 400; body := ErrorBody "Invalid emotion provided" |} s
      | Some emotion =>
          match js_get emotionConfig emotion with
          | Undefined =>
              Finished {| status := 400; body := ErrorBody "Invalid emotion provided" |} s
          | _ =>
              match enhanced w emotion s with
              | (Some response, s1) => Finished response s1
              | (None, s1) => original fuel w emotion s1
              end
          end
      end
  end.

(** ** Worlds in which the providers do not deliver *)

(** Every request the route, the recommender or the client can send fails. *)
Record every_request_fails (w : World) : Prop := {
  omdb_search_fails : forall q, failed (CR.omdb_search (recommender w) q);
  omdb_detail_fails : forall i, failed (CR.omdb_detail (recommender w) i);
  token_fetch_fails : failed (CR.token_fetch (recommender w));
  track_search_fails : forall t g, failed (CR.track_search (recommender w) t g);
  volume_search_fails : forall q k, failed (CR.volume_search (recommender w) q k);
  movie_search_fails : forall q, failed (movie_search w q);
  movie_detail_fails : forall i, failed (movie_detail w i);
  auth_fetch_fails : forall n, failed (SpotifyClient.auth_fetch (spotify w) n);
  search_fetch_fails :
    forall n t q l, failed (SpotifyClient.search_fetch (spotify w) n t q l);
  recommendations_fetch_fails :
    forall n t g l, failed (SpotifyClient.recommendations_fetch (spotify w) n t g l)
}.


(** The live movie fetch fails or comes back empty: no OMDB key, or no
    search that delivers a hit. *)
Definition movies_unavailable (w : World) : Prop :=
  truthy_opt (omdbApiKey w) = false
  \/ ((forall q, no_items (CR.omdb_search (recommender w) q))
      /\ (forall q, no_items (movie_search w q))).

(** The live song fetch fails or comes back empty: the recommender has no
    credentials or no search that delivers a track, and the client gets no
    track either. *)
Definition songs_unavailable (w : World) : Prop :=
  (truthy (CR.spotifyClientId (recommender w))
   && truthy (CR.spotifyClientSecret (recommender w)) = false
   \/ forall t g, no_items (CR.track_search (recommender w) t g))
  /\ (forall n t q l, no_tracks (SpotifyClient.search_fetch (spotify w) n t q l))
  /\ (forall n t g l, no_tracks (SpotifyClient.recommendations_fetch (spotify w) n t g l)).

(** The live book fetch fails or comes back empty. *)
Definition books_unavailable (w : World) : Prop :=
  forall q k, no_items (CR.volume_search (recommender w) q k).


(** Every list of the response has at most [n] items. *)
Definition capped_at (movies_cap songs_cap books_cap : nat) (r : Response) : Prop :=
  exists set ms ss bs,
    body r = Recs set
    /\ r_movies set = Own ms /\ (List.length ms <= movies_cap)%nat
    /\ r_songs set = Own ss /\ (List.length ss <= songs_cap)%nat
    /\ r_books set = Own bs /\ (List.length bs <= books_cap)%nat.

End Recommendations.

(* ================================================================== *)
(** * The emotion detection route (POST /api/emotion-detection) *)
(* ================================================================== *)

Module EmotionDetection.

Open Scope Q_scope.

Record AnalysisDetails : Type := {
  time_context : string;
  image_analyzed : bool;
  confidence_level : string
}.

(** [interface EmotionDetectionResponse], with the extra fields the
    functions attach.  A field the object literal does not give is [None]. *)
Record EmotionDetectionResponse : Type := {
  success : bool;
  emotion : option string;
  confidence : option Q;
  all_emotions : option (JSObject Q);
  face_detected : option bool;
  error : option string;
  face_quality : option Q;
  service_used : option string;
  analysis_details : option AnalysisDetails
}.

(** [{ success: false, error } as EmotionDetectionResponse]. *)
Definition failure (error : option string) : EmotionDetectionResponse :=
  {| success := false; emotion := None; confidence := None; all_emotions := None;
     face_detected := None; error := error; face_quality := None;
     service_used := None; analysis_details := None |}.

(** The distribution used when no face is found. *)
Definition default_distribution : JSObject Q :=
  [ ("happy", 0.1); ("sad", 0.1); ("angry", 0.1); ("surprised", 0.1);
    ("neutral", 0.5); ("disgust", 0.05); ("fear", 0.05) ].

Definition no_face (confidence : Q) (service_used : option string)
    : EmotionDetectionResponse :=
  {| success := true; emotion := Some "neutral"; confidence := Some confidence;
     all_emotions := Some default_distribution; face_detected := Some false;
     error := None; face_quality := None; service_used := service_used;
     analysis_details := None |}.

(** ** Provider payloads *)

Record FaceppFace : Type := {
  fp_emotion : JSObject Q;               (* [face.attributes.emotion] *)
  fp_quality_threshold : option Q        (* [face.attributes.facequality.threshold] *)
}.

Inductive FaceppFetch : Type :=
| FpAbort                                 (* rejection named AbortError *)
| FpRejected (message : string)           (* any other rejection *)
(* a response that is not ok: its text, and [errorData.error_message] when
   the text parses ([None]: it does not parse) *)
| FpHttpError (status : nat) (responseText : string)
              (error_message : option (option string))
(* an ok response: [result.faces], or the message of the parse error *)
| FpOk (faces : option (list FaceppFace))
| FpInvalid (message : string).

Record AzureFace : Type := {
  az_emotion : JSObject Q                 (* [face.faceAttributes.emotion] *)
}.

(** The likelihood enumeration of the Vision API; [OTHER] is any value
    outside the table [likelihoodToConfidence], or none. *)
Inductive Likelihood : Type :=
| VERY_UNLIKELY | UNLIKELY | POSSIBLE | LIKELY | VERY_LIKELY | OTHER.

Record FaceAnnotation : Type := {
  joyLikelihood : Likelihood;
  sorrowLikelihood : Likelihood;
  angerLikelihood : Likelihood;
  surpriseLikelihood : Likelihood
}.

(** [result.responses], and [faceAnnotations] of each response. *)
Definition GoogleResult : Type := option (list (option (list FaceAnnotation))).

Record World : Type := {
  FACEPLUS_API_KEY : option string;
  NEXT_PUBLIC_FACEPLUS_API_KEY : option string;
  FACEPLUS_API_SECRET : option string;
  NEXT_PUBLIC_FACEPLUS_API_SECRET : option string;
  AZURE_FACE_API_KEY : option string;
  AZURE_FACE_ENDPOINT : option string;
  GOOGLE_VISION_API_KEY : option string;
  decoded_length : string -> N;          (* [Buffer.from(s, "base64").length] *)
  health_fetch : Fetch unit;
  deepface_fetch : Fetch EmotionDetectionResponse;
  facepp_fetch : nat -> FaceppFetch;     (* n-th request to Face++ *)
  azure_fetch : Fetch (list AzureFace);
  google_fetch : Fetch GoogleResult;
  timeOfDay : nat;                       (* [new Date().getHours()] *)
  dayOfWeek : nat;                       (* [new Date().getDay()] *)
  random : nat -> Q                      (* n-th [Math.random()] *)
}.

(** ** Face++ *)

Record ProcessedImage : Type := {
  base64Data : string;
  isValid : bool;
  image_error : option string
}.

Definition processImageForFacePlusPlus (w : World) (imageData : string) : ProcessedImage :=
  let base64Data := if includes imageData ","
                    then nth 1 (split_comma imageData) ""
                    else imageData in
  if negb (truthy base64Data)
  then {| base64Data := ""; isValid := false; image_error := Some "Empty image data" |}
  else if (2 * 1024 * 1024 <? decoded_length w base64Data)%N
  then {| base64Data := ""; isValid := false;
          image_error := Some "Image too large (maximum 2MB)" |}
  else {| base64Data := base64Data; isValid := true; image_error := None |}.

Definition facepp_emotionMapping : JSObject string :=
  [ ("happiness", "happy"); ("sadness", "sad"); ("anger", "angry");
    ("surprise", "surprised"); ("neutral", "neutral"); ("disgust", "disgust");
    ("fear", "fear") ]%string.

(** [emotionMapping[emotion] || emotion], as a property key. *)
Definition facepp_mapped (emotion : string) : string :=
  match js_get facepp_emotionMapping emotion with
  | Own mapped => mapped
  | Inherited name => inherited_as_key name
  | Undefined => emotion
  end.

(** The state of the scoring loops: the distribution, the dominant label
    and the highest score so far. *)
Record Scores : Type := {
  allEmotions : JSObject Q;
  dominantEmotion : string;
  maxConfidence : Q
}.

Definition record_score (acc : Scores) (label : string) (score : Q) : Scores :=
  {| allEmotions := js_set (allEmotions acc) label score;
     dominantEmotion := if Qgtb score (maxConfidence acc) then label
                        else dominantEmotion acc;
     maxConfidence := if Qgtb score (maxConfidence acc) then score
                      else maxConfidence acc |}.

(** The body of the scoring loops, over (label, score) pairs. *)
Definition record_scores (entries : list (string * Q)) (init : Scores) : Scores :=
  fold_left (fun acc entry => record_score acc (fst entry) (snd entry)) entries init.

(** [Object.entries(emotions)] with the label mapped and the score divided
    by 100. *)
Definition facepp_entries (emotions : JSObject Q) : list (string * Q) :=
  map (fun entry => (facepp_mapped (fst entry), snd entry / 100)) emotions.

Definition facepp_scores (emotions : JSObject Q) : Scores :=
  record_scores (facepp_entries emotions)
    {| allEmotions := [ ("happy", 0); ("sad", 0); ("angry", 0); ("surprised", 0);
                        ("neutral", 0); ("disgust", 0); ("fear", 0) ];
       dominantEmotion := "neutral";
       maxConfidence := 0 |}.

Definition facepp_error_text (errorMessage : string) : string :=
  if includes errorMessage "INVALID_IMAGE_SIZE"
  then "Image dimensions invalid - Face++ requires images between 48x48 and 4096x4096 pixels"
  else if includes errorMessage "INVALID_IMAGE_FORMAT"
  then "Invalid image format - Face++ supports JPEG, PNG, and BMP"
  else if includes errorMessage "IMAGE_FILE_TOO_LARGE"
  then "Image file too large - Face++ requires images under 2MB"
  else if includes errorMessage "INVALID_API_KEY"
  then "Invalid Face++ API key - check your credentials"
  else if includes errorMessage "INSUFFICIENT_BALANCE"
  then "Face++ account balance insufficient"
  else if includes errorMessage "RATE_LIMIT_EXCEEDED"
  then "Face++ rate limit exceeded - try again later"
  else if includes errorMessage "IMAGE_ERROR_UNSUPPORTED_FORMAT"
  then "Unsupported image format - try capturing a new image"
  else errorMessage.

Definition show_status (status : nat) : string := show_N (N.of_nat status).

Definition faceplus_key (w : World) : option string :=
  or_str (FACEPLUS_API_KEY w) (NEXT_PUBLIC_FACEPLUS_API_KEY w).

Definition faceplus_secret (w : World) : option string :=
  or_str (FACEPLUS_API_SECRET w) (NEXT_PUBLIC_FACEPLUS_API_SECRET w).

(** [n] is the number of requests sent to Face++ before this call. *)
Definition detectWithFacePlusPlus (w : World) (n : nat) (imageData : string)
    : EmotionDetectionResponse :=
  if negb (truthy_opt (faceplus_key w)) || negb (truthy_opt (faceplus_secret w))
  then failure None
  else
    let image := processImageForFacePlusPlus w imageData in
    if negb (isValid image)
    then failure (Some ("Image validation failed: "
                        ++ match image_error image with
                           | Some e => e
                           | None => "undefined"
                           end)%string)
    else
      match facepp_fetch w n with
      | FpAbort => failure (Some "Face++ API timeout - try again"%string)
      | FpRejected message =>
          failure (Some (if includes message "fetch"
                         then "Face++ API network error"%string else message))
      | FpInvalid message =>
          failure (Some (if includes message "fetch"
                         then "Face++ API network error"%string else message))
      | FpHttpError status responseText (Some error_message) =>
          failure (Some (facepp_error_text
                           match or_str error_message None with
                           | Some m => m
                           | None => ("HTTP " ++ show_status status)%string
                           end))
      | FpHttpError status responseText None =>
          failure (Some ("Face++ API error: " ++ show_status status ++ " - "
                         ++ substring 0 200 responseText)%string)
      | FpOk (Some (face :: _)) =>
          let scores := facepp_scores (fp_emotion face) in
          {| success := true;
             emotion := Some (dominantEmotion scores);
             confidence := Some (maxConfidence scores);
             all_emotions := Some (allEmotions scores);
             face_detected := Some true;
             error := None;
             face_quality :=
               Some ((match fp_quality_threshold face with
                      | Some t => if Qeq_bool t 0 then 70 else t
                      | None => 70
                      end) / 100);
             service_used := Some "faceplus"%string;
             analysis_details := None |}
      | FpOk _ => no_face 0.3 (Some "faceplus"%string)
      end.

(** ** Azure Face *)

Definition azure_mapped (emotion : string) : string :=
  if String.eqb emotion "happiness" then "happy"%string
  else if String.eqb emotion "sadness" then "sad"%string
  else emotion.

Definition azure_entries (emotions : JSObject Q) : list (string * Q) :=
  map (fun entry => (azure_mapped (fst entry), snd entry)) emotions.

Definition azure_scores (emotions : JSObject Q) : Scores :=
  record_scores (azure_entries emotions)
    {| allEmotions := []; dominantEmotion := "neutral"; maxConfidence := 0 |}.

Definition detectWithAzureFace (w : World) (imageData : string)
    : EmotionDetectionResponse :=
  if negb (truthy_opt (AZURE_FACE_API_KEY w)) || negb (truthy_opt (AZURE_FACE_ENDPOINT w))
  then failure None
  else
    match nth_error (split_comma imageData) 1 with
    | None => failure None                  (* [Buffer.from(undefined)] throws *)
    | Some base64Data =>
        match azure_fetch w with
        | Responded st (Some result) =>
            if status_ok st
            then
              match result with
              | face :: _ =>
                  let scores := azure_scores (az_emotion face) in
                  {| success := true;
                     emotion := Some (dominantEmotion scores);
                     confidence := Some (maxConfidence scores);
                     all_emotions := Some (allEmotions scores);
                     face_detected := Some true;
                     error := None; face_quality := None; service_used := None;
                     analysis_details := None |}
              | [] => no_face 0.4 None
              end
            else failure None
        | _ => failure None
        end
    end.

(** ** Google Vision *)

Definition likelihoodToConfidence (likelihood : Likelihood) : Q :=
  match likelihood with
  | VERY_UNLIKELY => 0.1
  | UNLIKELY => 0.2
  | POSSIBLE => 0.4
  | LIKELY => 0.7
  | VERY_LIKELY => 0.9
  | OTHER => 0.1
  end.

(** [Object.entries(emotionMapping)], each Vision field with our label. *)
Definition google_emotionMapping : list ((FaceAnnotation -> Likelihood) * string) :=
  [ (joyLikelihood, "happy"); (sorrowLikelihood, "sad");
    (angerLikelihood, "angry"); (surpriseLikelihood, "surprised") ]%string.

Definition google_entries (face : FaceAnnotation) : list (string * Q) :=
  map (fun entry => (snd entry, likelihoodToConfidence (fst entry face)))
      google_emotionMapping.

Definition google_scores (face : FaceAnnotation) : Scores :=
  record_scores (google_entries face)
    {| allEmotions := default_distribution;
       dominantEmotion := "neutral";
       maxConfidence := 0.5 |}.

Definition detectWithGoogleVision (w : World) (imageData : string)
    : EmotionDetectionResponse :=
  if negb (truthy_opt (GOOGLE_VISION_API_KEY w))
  then failure None
  else
    match google_fetch w with
    | Responded st (Some result) =>
        if status_ok st
        then
          match result with
          | Some (Some (face :: _) :: _) =>
              let scores := google_scores face in
              {| success := true;
                 emotion := Some (dominantEmotion scores);
                 confidence := Some (maxConfidence scores);
                 all_emotions := Some (allEmotions scores);
                 face_detected := Some true;
                 error := None; face_quality := None; service_used := None;
                 analysis_details := None |}
          | Some [] => failure None          (* [responses[0]] is undefined: throws *)
          | _ => no_face 0.4 None
          end
        else failure None
    | _ => failure None
    end.

Definition with_service (r : EmotionDetectionResponse) (service : string)
    : EmotionDetectionResponse :=
  {| success := success r; emotion := emotion r; confidence := confidence r;
     all_emotions := all_emotions r; face_detected := face_detected r;
     error := error r; face_quality := face_quality r;
     service_used := Some service; analysis_details := analysis_details r |}.

(** [n] is the number of requests sent to Face++ before this call. *)
Definition detectEmotionWithAI (w : World) (n : nat) (imageData : string)
    : EmotionDetectionResponse :=
  let facePlusResult := detectWithFacePlusPlus w n imageData in
  if success facePlusResult then with_service facePlusResult "faceplus"
  else
    let azureResult := detectWithAzureFace w imageData in
    if success azureResult then with_service azureResult "azure"
    else
      let googleResult := detectWithGoogleVision w imageData in
      if success googleResult then with_service googleResult "google"
      else
        {| success := false; emotion := Some "neutral"%string; confidence := Some 0.3;
           all_emotions := Some default_distribution; face_detected := Some false;
           error := match or_str (error facePlusResult) None with
                    | Some e => Some e
                    | None => Some "All AI face detection services unavailable"%string
                    end;
           face_quality := None; service_used := Some "none"%string;
           analysis_details := None |}.

(** ** The simulator *)

(** [charCounts.set(char, (charCounts.get(char) || 0) + 1)], a [Map] in
    insertion order.  Characters are bytes here. *)
Fixpoint count_char (counts : list (ascii * nat)) (c : ascii) : list (ascii * nat) :=
  match counts with
  | [] => [(c, 1%nat)]
  | (c', n) :: rest =>
      if Ascii.eqb c c' then (c', S n) :: rest else (c', n) :: count_char rest c
  end.

Definition charCounts (sample : string) : list (ascii * nat) :=
  fold_left count_char (list_ascii_of_string sample) [].

Definition nat_Q (n : nat) : Q := inject_Z (Z.of_nat n).

(** The part of the function that reads the image: the variance and the
    provisional confidence. *)
Definition image_analysis (imageData : option string) : Q * Q :=
  match or_str imageData None with
  | None => (0.5, 0.75)
  | Some imageData =>
      let base64Part := match nth_error (split_comma imageData) 1 with
                        | Some part => if truthy part then part else imageData
                        | None => imageData
                        end in
      if (1000 <? String.length base64Part)%nat
      then
        let sampleSize := Nat.min 1000 (String.length base64Part) in
        let sample := substring 0 sampleSize base64Part in
        let counts := charCounts sample in
        let totalChars := fold_left (fun t entry => (t + snd entry)%nat) counts 0%nat in
        let brightCharCount :=
          fold_left (fun b entry =>
                       if (nat_of_ascii "m" <? nat_of_ascii (fst entry))%nat
                       then (b + snd entry)%nat else b) counts 0%nat in
        let brightnessIndicator := nat_Q brightCharCount / nat_Q totalChars in
        let complexityIndicator := nat_Q (List.length counts) / nat_Q (String.length sample) in
        (if Qgtb brightnessIndicator 0.6 then 0.5 + 0.2
         else if Qgtb 0.4 brightnessIndicator then 0.5 - 0.1
         else 0.5,
         if Qgtb complexityIndicator 0.15 then 0.75 + 0.1 else 0.75)
      else (0.5, 0.75)
  end.

Definition base_probabilities : JSObject Q :=
  [ ("happy", 0.25); ("neutral", 0.20); ("surprised", 0.15); ("sad", 0.12);
    ("angry", 0.10); ("fear", 0.10); ("disgust", 0.08) ].

(** [Object.keys(emotionProbabilities)]. *)
Definition labels : list string :=
  [ "happy"; "neutral"; "surprised"; "sad"; "angry"; "fear"; "disgust" ]%string.

(** [o[k] += d] and [o[k] *= f]. *)
Definition add_to (o : JSObject Q) (k : string) (d : Q) : JSObject Q :=
  js_set o k (num_get o k + d).

Definition scale (o : JSObject Q) (k : string) (f : Q) : JSObject Q :=
  js_set o k (num_get o k * f).

Definition time_adjusted (timeOfDay : nat) (o : JSObject Q) : JSObject Q :=
  if ((6 <=? timeOfDay) && (timeOfDay <=? 10))%nat
  then add_to (add_to (add_to o "neutral" 0.1) "surprised" 0.05) "happy" (- 0.05)
  else if ((18 <=? timeOfDay) && (timeOfDay <=? 22))%nat
  then add_to (add_to (add_to o "happy" 0.1) "neutral" 0.05) "angry" (- 0.05)
  else if ((22 <=? timeOfDay) || (timeOfDay <=? 5))%nat
  then add_to (add_to (add_to o "neutral" 0.15) "sad" 0.05) "happy" (- 0.1)
  else o.

Definition is_weekend (dayOfWeek : nat) : bool :=
  ((dayOfWeek =? 0) || (dayOfWeek =? 6))%nat.

Definition day_adjusted (dayOfWeek : nat) (o : JSObject Q) : JSObject Q :=
  if is_weekend dayOfWeek
  then add_to (add_to (add_to o "happy" 0.08) "angry" (- 0.03)) "sad" (- 0.02)
  else o.

Definition variance_applied (imageVariance : Q) (o : JSObject Q) : JSObject Q :=
  fold_left (fun acc emotion =>
               if String.eqb emotion "happy" || String.eqb emotion "surprised"
               then scale acc emotion (1 + imageVariance * 0.3)
               else if String.eqb emotion "sad" || String.eqb emotion "angry"
               then scale acc emotion (1 - imageVariance * 0.2)
               else acc)
            (keys o) o.

(** [Object.values(o).reduce((sum, v) => sum + v, 0)]. *)
Definition total (o : JSObject Q) : Q :=
  fold_left Qplus (values o) 0.

(** [o[k] /= total] for every key. *)
Definition normalized (o : JSObject Q) : JSObject Q :=
  let t := total o in
  fold_left (fun acc emotion => js_set acc emotion (num_get acc emotion / t)) (keys o) o.

(** The weighted choice: the first entry at which the running value drops
    to zero or below; ['neutral'] when there is none. *)
Fixpoint select (entries : JSObject Q) (randomValue : Q) : string :=
  match entries with
  | [] => "neutral"
  | (emotion, probability) :: rest =>
      if Qle_bool (randomValue - probability) 0 then emotion
      else select rest (randomValue - probability)
  end.

Definition baseConfidence : JSObject (Q * Q) :=
  [ ("happy", (0.7, 0.95)); ("sad", (0.65, 0.88)); ("angry", (0.72, 0.92));
    ("surprised", (0.68, 0.91)); ("neutral", (0.60, 0.85)); ("fear", (0.63, 0.87));
    ("disgust", (0.66, 0.89)) ].

Definition coexisting (primaryEmotion emotion : string) (maxAllowed : Q) : Q :=
  let m1 := if String.eqb primaryEmotion "happy" && String.eqb emotion "surprised"
            then maxAllowed * 1.5 else maxAllowed in
  let m2 := if String.eqb primaryEmotion "sad" && String.eqb emotion "fear"
            then m1 * 1.3 else m1 in
  if String.eqb primaryEmotion "angry" && String.eqb emotion "disgust"
  then m2 * 1.4 else m2.

(** The [forEach] over the other emotions; [i] is the next draw of
    [Math.random]. *)
Fixpoint distribute (primaryEmotion : string) (random : nat -> Q) (i : nat)
    (otherEmotions : list string) (remainingToDistribute : Q)
    (allEmotions : JSObject Q) : JSObject Q :=
  match otherEmotions with
  | [] => allEmotions
  | [emotion] => js_set allEmotions emotion (Qmax 0.01 remainingToDistribute)
  | emotion :: rest =>
      let maxAllowed := coexisting primaryEmotion emotion (remainingToDistribute * 0.6) in
      let minAllowed := 0.01 in
      let emotionScore := random i * (maxAllowed - minAllowed) + minAllowed in
      let score := Qmin emotionScore (remainingToDistribute - 0.01) in
      distribute primaryEmotion random (S i) rest (remainingToDistribute - score)
                 (js_set allEmotions emotion score)
  end.

Definition emotionProbabilities (w : World) (imageVariance : Q) : JSObject Q :=
  normalized
    (variance_applied imageVariance
       (day_adjusted (dayOfWeek w) (time_adjusted (timeOfDay w) base_probabilities))).

Definition generateRealisticEmotion (w : World) (imageData : option string)
    : EmotionDetectionResponse :=
  let imageVariance := fst (image_analysis imageData) in
  let probabilities := emotionProbabilities w imageVariance in
  let primaryEmotion := select probabilities (random w 0) in
  let emotionConfig := match own_get baseConfidence primaryEmotion with
                       | Some c => c
                       | None => (0, 0)
                       end in
  let confidence := random w 1 * (snd emotionConfig - fst emotionConfig)
                    + fst emotionConfig in
  let remainingConfidence := 1 - confidence in
  let otherEmotions :=
    filter (fun e => negb (String.eqb e primaryEmotion)) (keys probabilities) in
  let allEmotions :=
    js_set (distribute primaryEmotion (random w) 2 otherEmotions remainingConfidence [])
           primaryEmotion confidence in
  let allEmotions := normalized allEmotions in
  {| success := true;
     emotion := Some primaryEmotion;
     confidence := Some (num_get allEmotions primaryEmotion);
     all_emotions := Some allEmotions;
     face_detected := Some true;
     error := None;
     face_quality := None;
     service_used := Some "enhanced_simulation"%string;
     analysis_details :=
       Some {| time_context :=
                 (show_N (N.of_nat (timeOfDay w)) ++ ":00 "
                  ++ (if is_weekend (dayOfWeek w) then "weekend" else "weekday"))%string;
               image_analyzed := truthy_opt imageData;
               confidence_level := if Qgtb confidence 0.8 then "high"%string
                                   else if Qgtb confidence 0.6 then "medium"%string
                                   else "low"%string |} |}.

(** ** The handler *)

Inductive Request : Type :=
| Malformed (message : string)            (* [request.json()] rejects *)
| Payload (image : option string) (forceRealDetection : bool).

Inductive Body : Type :=
| ErrorOnly (error : string)
| Failure (error : string) (service_mode : string)
| Detection (result : EmotionDetectionResponse) (service_mode : string)
            (note : option string).

Record Response : Type := {
  status : nat;
  body : Body
}.

Definition hasFacePlusCredentials (w : World) : bool :=
  truthy_opt (faceplus_key w) && truthy_opt (faceplus_secret w)
  && negb (match faceplus_key w with
           | Some k => String.eqb k "your_faceplus_api_key_here"
           | None => false
           end)
  && negb (match faceplus_secret w with
           | Some k => String.eqb k "your_faceplus_api_secret_here"
           | None => false
           end).

(** The health check and, when it passes, the request to the local service:
    the answer the handler returns at once, if any. *)
Definition deepface (w : World) : option EmotionDetectionResponse :=
  match health_fetch w with
  | Responded st _ =>
      if status_ok st
      then
        match deepface_fetch w with
        | Responded st' (Some result) => if status_ok st' then Some result else None
        | _ => None
        end
      else None
  | Rejected => None
  end.

(** The last stage: the other cloud services, then an error or the
    simulator.  [n] is the number of requests already sent to Face++. *)
Definition cloud_or_simulation (w : World) (n : nat) (image : string)
    (forceRealDetection : bool) : Response :=
  let aiResult := detectEmotionWithAI w n image in
  if success aiResult
     && negb (match service_used aiResult with
              | Some service => String.eqb service "none"
              | None => false
              end)
  then {| status := 200; body := Detection aiResult "cloud_ai" None |}
  else if forceRealDetection
  then {| status := 503;
          body := Failure "All real emotion detection services are unavailable. Please configure Face++ API or other cloud AI services."
                          "no_real_service" |}
  else {| status := 200;
          body := Detection (generateRealisticEmotion w (Some image)) "simulation"
                    (Some "Using advanced emotion simulation - enable real detection by configuring Face++ API"%string) |}.

Definition POST (w : World) (request : Request) : Response :=
  match request with
  | Malformed message =>
      {| status := 500; body := Failure message "error" |}
  | Payload image forceRealDetection =>
      match or_str image None with
      | None => {| status := 400; body := ErrorOnly "No image data provided" |}
      | Some image =>
          if forceRealDetection && negb (hasFacePlusCredentials w)
          then {| status := 400;
                  body := Failure "Real emotion detection requested but Face++ API credentials not configured. Please set FACEPLUS_API_KEY and FACEPLUS_API_SECRET environment variables."
                                  "error" |}
          else
            match deepface w with
            | Some result =>
                {| status := 200; body := Detection result "deepface_ai" None |}
            | None =>
                if hasFacePlusCredentials w
                then
                  let facePlusResult := detectWithFacePlusPlus w 0 image in
                  if success facePlusResult
                  then {| status := 200;
                          body := Detection facePlusResult "faceplus_direct" None |}
                  else if forceRealDetection
                  then {| status := 400;
                          body := Failure ("Face++ API error: "
                                           ++ match error facePlusResult with
                                              | Some e => e
                                              | None => "undefined"
                                              end)%string
                                          "faceplus_error" |}
                  else cloud_or_simulation w 1 image forceRealDetection
                else cloud_or_simulation w 0 image forceRealDetection
            end
      end
  end.

(** ** Statements about responses and worlds *)

(** An error response: a client or server error status and a message, no
    detection result. *)
Definition is_error (r : Response) : Prop :=
  (400 <= status r)%nat
  /\ exists message,
       body r = ErrorOnly message \/ exists mode, body r = Failure message mode.

(** A response made by the simulator. *)
Definition simulated (r : Response) : Prop :=
  exists result note, body r = Detection result "simulation" note.

Definition facepp_failed (f : FaceppFetch) : Prop :=
  match f with
  | FpOk _ => False
  | _ => True
  end.

(** Every real provider is unreachable or not configured. *)
Record no_real_provider (w : World) : Prop := {
  deepface_down : failed (health_fetch w) \/ failed (deepface_fetch w);
  facepp_down :
    truthy_opt (faceplus_key w) && truthy_opt (faceplus_secret w) = false
    \/ forall n, facepp_failed (facepp_fetch w n);
  azure_down :
    truthy_opt (AZURE_FACE_API_KEY w) && truthy_opt (AZURE_FACE_ENDPOINT w) = false
    \/ failed (azure_fetch w);
  google_down :
    truthy_opt (GOOGLE_VISION_API_KEY w) = false \/ failed (google_fetch w)
}.

(** The scores of a provider, as (label, score) pairs: every label once,
    none of them [__proto__], no negative score. *)
Definition scores_wf (entries : list (string * Q)) : Prop :=
  NoDup (map fst entries)
  /\ Forall (fun entry => fst entry <> "__proto__"%string /\ 0 <= snd entry) entries.




(** A likelihood that [likelihoodToConfidence] rates above the 0.5 the
    scoring loop of Google Vision starts from. *)
Definition pronounced (likelihood : Likelihood) : bool :=
  match likelihood with
  | LIKELY | VERY_LIKELY => true
  | _ => false
  end.

(** [Math.random()] is in [0, 1). *)
Definition random_unit (w : World) : Prop :=
  forall n, 0 <= random w n /\ random w n < 1.

(** The distribution sums to 1 within the tolerance. *)
Definition sums_to_one (result : EmotionDetectionResponse) : Prop :=
  exists distribution,
    all_emotions result = Some distribution
    /\ Qabs (total distribution - 1) <= 0.000001.

End EmotionDetection.

(* ================================================================== *)
(** * The analytics route (POST /api/emotion-analytics) *)
(* ================================================================== *)

Module EmotionAnalytics.

(** [interface EmotionData]. *)
Record EmotionData : Type := {
  emotion : string;
  confidence : Q;
  timestamp : Z
}.

(** A value of [emotionCounts]: a count, or the text that [+ 1] makes of a
    property inherited from [Object.prototype]. *)
Inductive Count : Type :=
| Num (n : nat)
| Text (t : string).

(** [(emotionCounts[k] || 0) + 1]: an inherited function or object is
    truthy, and adding 1 to it appends to its text. *)
Definition incremented (v : JSProp Count) : Count :=
  match v with
  | Own (Num n) => Num (S n)
  | Own (Text t) => if truthy t then Text (t ++ "1") else Num 1
  | Inherited name => Text (inherited_as_key name ++ "1")
  | Undefined => Num 1
  end.

(** The body of the first [forEach], on the counts. *)
Definition count_detection (emotionCounts : JSObject Count) (detection : EmotionData)
    : JSObject Count :=
  js_set emotionCounts (emotion detection)
         (incremented (js_get emotionCounts (emotion detection))).

Definition counted (history : list EmotionData) : JSObject Count :=
  fold_left count_detection history [].

(** The same loop, on [totalConfidence].  The sum is taken in exact
    rationals: the rounding of the doubles the source adds is not
    modelled, and no statement below rests on the value of the sum. *)
Definition summed (history : list EmotionData) : Q :=
  fold_left (fun totalConfidence detection => (totalConfidence + confidence detection)%Q)
            history 0%Q.

(** [(emotionCounts[emotion] / history.length) * 100], in exact rationals
    (the rounding of doubles is not modelled: the statements below compare
    an entry with this formula, or two entries of one history, never a sum
    of entries with a constant); [None] is NaN: the
    texts that occur ([function ...1], [[object Object]1]) are no numbers,
    and neither is a function or [undefined]. *)
Definition percentage (v : JSProp Count) (n : nat) : option Q :=
  match v with
  | Own (Num k) => Some ((EmotionDetection.nat_Q k / EmotionDetection.nat_Q n) * 100)%Q
  | _ => None
  end.

(** The second [forEach], over [Object.keys(emotionCounts)]. *)
Definition percentages (emotionCounts : JSObject Count) (n : nat) : JSObject (option Q) :=
  fold_left (fun emotionDistribution emotion =>
               js_set emotionDistribution emotion
                      (percentage (js_get emotionCounts emotion) n))
            (keys emotionCounts) [].

Definition positiveEmotions : list string := ["happy"; "surprised"].
Definition negativeEmotions : list string := ["sad"; "angry"; "fear"; "disgust"].

(** [a.includes(e)] on an array of strings. *)
Definition array_includes (a : list string) (e : string) : bool :=
  existsb (String.eqb e) a.

Definition determineMoodTrend (recentEmotions : list string) : string :=
  let positiveCount := List.length (filter (array_includes positiveEmotions) recentEmotions) in
  let negativeCount := List.length (filter (array_includes negativeEmotions) recentEmotions) in
  if (negativeCount <? positiveCount)%nat then "improving"
  else if (positiveCount <? negativeCount)%nat then "declining"
  else "stable".

(** [a.reduce(f)] without an initial value; on an empty array it throws a
    TypeError ([None]). *)
Definition reduce {A} (f : A -> A -> A) (a : list A) : option A :=
  match a with
  | [] => None
  | x :: rest => Some (fold_left f rest x)
  end.

(** [distribution[a] > distribution[b]]; a comparison with NaN, a function
    or [undefined] is false. *)
Definition greater (distribution : JSObject (option Q)) (a b : string) : bool :=
  match js_get distribution a, js_get distribution b with
  | Own (Some x), Own (Some y) => Qgtb x y
  | _, _ => false
  end.

Definition emotionRecommendations : JSObject string :=
  [ ("happy", "Keep up the positive energy! Consider sharing your joy with others.");
    ("sad", "It's okay to feel down sometimes. Consider talking to someone or engaging in self-care.");
    ("angry", "Try some breathing exercises or physical activity to manage frustration.");
    ("surprised", "Embrace the unexpected! New experiences can lead to growth.");
    ("neutral", "A balanced emotional state is healthy. Consider exploring new activities.");
    ("disgust", "Focus on positive experiences and environments that make you feel good.");
    ("fear", "Acknowledge your fears and consider gradual exposure to build confidence.") ].

Definition trendRecommendations : JSObject string :=
  [ ("improving", "Your mood seems to be getting better! Keep doing what's working.");
    ("declining", "Consider reaching out for support or trying mood-boosting activities.");
    ("stable", "Your emotions are well-balanced. Maintain your current routine.") ].

(** The array holds what the two lookups give: a text of the table, a
    property inherited from [Object.prototype], or [undefined] (the trend
    lookup is pushed unguarded). *)
Definition generateRecommendations (distribution : JSObject (option Q)) (trend : string)
    : Exc (list (JSProp string)) :=
  match reduce (fun a b => if greater distribution a b then a else b)
               (keys distribution) with
  | None => Throw "Reduce of empty array with no initial value"
  | Some dominantEmotion =>
      let advice := js_get emotionRecommendations dominantEmotion in
      Ret ((match advice with
            | Own text => if truthy text then [advice] else []
            | Inherited _ => [advice]
            | Undefined => []
            end) ++ [js_get trendRecommendations trend])%list
  end.

Record EmotionAnalytics : Type := {
  totalDetections : nat;
  averageConfidence : Q;
  emotionDistribution : JSObject (option Q);
  moodTrend : string;
  recommendations : list (JSProp string)
}.

(** [a.slice(-3)]: the last three elements, or all of them. *)
Definition slice_last3 {A} (a : list A) : list A :=
  skipn (List.length a - 3) a.

Definition analyzeEmotionHistory (history : list EmotionData) : Exc EmotionAnalytics :=
  match history with
  | [] =>
      Ret {| totalDetections := 0; averageConfidence := 0; emotionDistribution := [];
             moodTrend := "neutral"; recommendations := [] |}
  | _ :: _ =>
      let emotionCounts := counted history in
      let totalConfidence := summed history in
      let emotionDistribution := percentages emotionCounts (List.length history) in
      let recentEmotions := map emotion (slice_last3 history) in
      let moodTrend := determineMoodTrend recentEmotions in
      match generateRecommendations emotionDistribution moodTrend with
      | Throw message => Throw message
      | Ret recommendations =>
          Ret {| totalDetections := List.length history;
                 averageConfidence :=
                   (totalConfidence / EmotionDetection.nat_Q (List.length history))%Q;
                 emotionDistribution := emotionDistribution;
                 moodTrend := moodTrend;
                 recommendations := recommendations |}
      end
  end.

(** The body of the request: [history] is [None] when the field is absent,
    falsy or not an array; its elements are typed as [EmotionData]. *)
Inductive Request : Type :=
| Malformed                        (* [request.json()] rejects *)
| Payload (history : option (list EmotionData)).

Inductive Body : Type :=
| ErrorBody (error : string)
| Analytics (analytics : EmotionAnalytics).

Record Response : Type := {
  status : nat;
  body : Body
}.

Definition POST (request : Request) : Response :=
  match request with
  | Malformed => {| status := 500; body := ErrorBody "Failed to analyze emotions" |}
  | Payload None => {| status := 400; body := ErrorBody "Invalid history data" |}
  | Payload (Some history) =>
      match analyzeEmotionHistory history with
      | Ret analytics => {| status := 200; body := Analytics analytics |}
      | Throw _ => {| status := 500; body := ErrorBody "Failed to analyze emotions" |}
      end
  end.

(** ** Statements about histories *)

(** The number of detections of the history that carry the label. *)
Definition occurrences (label : string) (history : list EmotionData) : nat :=
  List.length (filter (fun detection => String.eqb (emotion detection) label) history).

(** No detection is labelled with the name of a property that objects
    inherit. *)
Definition plain_labels (history : list EmotionData) : Prop :=
  Forall (fun detection => is_inherited (emotion detection) = false) history.

(** The number a count stands for. *)
Definition count_value (c : Count) : nat :=
  match c with
  | Num n => n
  | Text _ => 0%nat
  end.

(** The share of a label in a history, in percent. *)
Definition share_of (label : string) (history : list EmotionData) : Q :=
  ((EmotionDetection.nat_Q (occurrences label history)
    / EmotionDetection.nat_Q (List.length history)) * 100)%Q.

End EmotionAnalytics.

(* ================================================================== *)
(** * Concrete worlds *)
(* ================================================================== *)

(** A world for the token route: configured credentials, a clock that
    advances one millisecond per read, and a provider that grants a token
    valid for one hour. *)
Definition token_world : SpotifyAuth.World :=
  {| SpotifyAuth.SPOTIFY_CLIENT_ID := Some "id";
     SpotifyAuth.SPOTIFY_CLIENT_SECRET := Some "secret";
     SpotifyAuth.clock := fun n => Z.of_nat n;
     SpotifyAuth.token_fetch := fun _ =>
       Responded 200 (Some {| SpotifyAuth.tr_access_token := "T";
                              SpotifyAuth.tr_token_type := "Bearer";
                              SpotifyAuth.tr_expires_in := 3600 |}) |}.

Definition token_state0 : SpotifyAuth.State :=
  {| SpotifyAuth.cachedToken := None; SpotifyAuth.ticks := 0;
     SpotifyAuth.auth_requests := 0 |}.

(** The same world with a provider whose tokens live two minutes. *)
Definition brief_token_world : SpotifyAuth.World :=
  {| SpotifyAuth.SPOTIFY_CLIENT_ID := Some "id";
     SpotifyAuth.SPOTIFY_CLIENT_SECRET := Some "secret";
     SpotifyAuth.clock := fun n => Z.of_nat n;
     SpotifyAuth.token_fetch := fun _ =>
       Responded 200 (Some {| SpotifyAuth.tr_access_token := "T";
                              SpotifyAuth.tr_token_type := "Bearer";
                              SpotifyAuth.tr_expires_in := 120 |}) |}.

(** The token route without credentials. *)
Definition unconfigured_token_world : SpotifyAuth.World :=
  {| SpotifyAuth.SPOTIFY_CLIENT_ID := None;
     SpotifyAuth.SPOTIFY_CLIENT_SECRET := None;
     SpotifyAuth.clock := fun n => Z.of_nat n;
     SpotifyAuth.token_fetch := fun _ => Rejected |}.

(** A world for the client in which the authentication endpoint always
    hands out a token and the provider answers every request with 401. *)
Definition always_401 : SpotifyClient.World :=
  {| SpotifyClient.clock := fun n => Z.of_nat n;
     SpotifyClient.auth_fetch := fun _ =>
       Responded 200 (Some {| SpotifyClient.access_token := Some "T";
                              SpotifyClient.error := None;
                              SpotifyClient.fallback := false;
                              SpotifyClient.cached := true |});
     SpotifyClient.search_fetch := fun _ _ _ _ => Responded 401 None;
     SpotifyClient.recommendations_fetch := fun _ _ _ _ => Responded 401 None;
     SpotifyClient.genres_fetch := fun _ _ => Responded 401 None |}.

(** A world without network and without credentials. *)
Definition offline_recommender : ContentRecommender.World :=
  {| ContentRecommender.OMDB_API_KEY := None;
     ContentRecommender.NEXT_PUBLIC_OMDB_API_KEY := None;
     ContentRecommender.SPOTIFY_CLIENT_ID := None;
     ContentRecommender.SPOTIFY_CLIENT_SECRET := None;
     ContentRecommender.GOOGLE_BOOKS_API_KEY := None;
     ContentRecommender.omdb_search := fun _ => Rejected;
     ContentRecommender.omdb_detail := fun _ => Rejected;
     ContentRecommender.token_fetch := Rejected;
     ContentRecommender.track_search := fun _ _ => Rejected;
     ContentRecommender.volume_search := fun _ _ => Rejected;
     ContentRecommender.parseFloat := fun _ => None;
     ContentRecommender.pick_movie := fun _ => 0%nat;
     ContentRecommender.pick_song := fun _ => 0%nat;
     ContentRecommender.pick_book := fun _ => 0%nat |}.

Definition offline_client : SpotifyClient.World :=
  {| SpotifyClient.clock := fun n => Z.of_nat n;
     SpotifyClient.auth_fetch := fun _ => Rejected;
     SpotifyClient.search_fetch := fun _ _ _ _ => Rejected;
     SpotifyClient.recommendations_fetch := fun _ _ _ _ => Rejected;
     SpotifyClient.genres_fetch := fun _ _ => Rejected |}.

Definition offline_world : Recommendations.World :=
  {| Recommendations.recommender := offline_recommender;
     Recommendations.spotify := offline_client;
     Recommendations.encodeURIComponent := fun x => Some x;
     Recommendations.song_id := fun _ => "s";
     Recommendations.song_rating := fun _ => 0%Q;
     Recommendations.book_id := fun _ => "b";
     Recommendations.book_rating := fun _ => 0%Q;
     Recommendations.pick_movie_query := 0;
     Recommendations.pick_song_query := 0;
     Recommendations.pick_book_query := 0;
     Recommendations.movie_search := fun _ => Rejected;
     Recommendations.movie_detail := fun _ => Rejected |}.

Definition fresh_state : Recommendations.State :=
  {| Recommendations.recommender_state := None;
     Recommendations.client_state := SpotifyClient.initial |}.



(** A world in which only the movie provider works: every search has four
    hits of its own, and every detail request succeeds. *)
Definition cinema_hit (q n : string) : ContentRecommender.OMDBMovie :=
  {| ContentRecommender.Title := q ++ " " ++ n;
     ContentRecommender.Year := "2000";
     ContentRecommender.imdbID := q ++ n;
     ContentRecommender.Poster := "N/A" |}.

Definition cinema_recommender : ContentRecommender.World :=
  {| ContentRecommender.OMDB_API_KEY := Some "key";
     ContentRecommender.NEXT_PUBLIC_OMDB_API_KEY := None;
     ContentRecommender.SPOTIFY_CLIENT_ID := None;
     ContentRecommender.SPOTIFY_CLIENT_SECRET := None;
     ContentRecommender.GOOGLE_BOOKS_API_KEY := None;
     ContentRecommender.omdb_search := fun q =>
       Responded 200 (Some (Some [cinema_hit q "1"; cinema_hit q "2";
                                  cinema_hit q "3"; cinema_hit q "4"]));
     ContentRecommender.omdb_detail := fun i =>
       Responded 200
         (Some {| ContentRecommender.d_Response := "True";
                  ContentRecommender.d_imdbID := i;
                  ContentRecommender.d_Title := i;
                  ContentRecommender.d_Year := "2000";
                  ContentRecommender.d_Poster := "N/A";
                  ContentRecommender.d_Plot := Some "A plot.";
                  ContentRecommender.d_imdbRating := Some "N/A";
                  ContentRecommender.d_Genre := Some "Comedy";
                  ContentRecommender.d_Director := Some "N/A";
                  ContentRecommender.d_Actors := Some "N/A" |});
     ContentRecommender.token_fetch := Rejected;
     ContentRecommender.track_search := fun _ _ => Rejected;
     ContentRecommender.volume_search := fun _ _ => Rejected;
     ContentRecommender.parseFloat := fun _ => None;
     ContentRecommender.pick_movie := fun _ => 0%nat;
     ContentRecommender.pick_song := fun _ => 0%nat;
     ContentRecommender.pick_book := fun _ => 0%nat |}.

Definition cinema_world : Recommendations.World :=
  {| Recommendations.recommender := cinema_recommender;
     Recommendations.spotify := offline_client;
     Recommendations.encodeURIComponent := fun x => Some x;
     Recommendations.song_id := fun _ => "s";
     Recommendations.song_rating := fun _ => 0%Q;
     Recommendations.book_id := fun _ => "b";
     Recommendations.book_rating := fun _ => 0%Q;
     Recommendations.pick_movie_query := 0;
     Recommendations.pick_song_query := 0;
     Recommendations.pick_book_query := 0;
     Recommendations.movie_search := fun _ => Rejected;
     Recommendations.movie_detail := fun _ => Rejected |}.

(** A track of three minutes and five seconds. *)
Definition anthem : SpotifyClient.SpotifyTrack :=
  {| SpotifyClient.id := "t1";
     SpotifyClient.name := "Anthem";
     SpotifyClient.artists := [ {| SpotifyClient.artist_name := "Band" |} ];
     SpotifyClient.album_name := "Album";
     SpotifyClient.album_images := [];
     SpotifyClient.external_url_spotify := "https://open.spotify.com/track/t1";
     SpotifyClient.preview_url := None;
     SpotifyClient.popularity := 80;
     SpotifyClient.duration_ms := 185000 |}.

(** A client world in which authentication and search deliver. *)
Definition jukebox : SpotifyClient.World :=
  {| SpotifyClient.clock := fun n => Z.of_nat n;
     SpotifyClient.auth_fetch := fun _ =>
       Responded 200 (Some {| SpotifyClient.access_token := Some "T";
                              SpotifyClient.error := None;
                              SpotifyClient.fallback := false;
                              SpotifyClient.cached := false |});
     SpotifyClient.search_fetch := fun _ _ _ _ => Responded 200 (Some [anthem]);
     SpotifyClient.recommendations_fetch := fun _ _ _ _ => Responded 200 (Some [anthem]);
     SpotifyClient.genres_fetch := fun _ _ => Responded 200 (Some ["pop"; "rock"]) |}.

(** A client world whose provider recommends for one list of seed genres
    only. *)
Definition seeded_jukebox : SpotifyClient.World :=
  {| SpotifyClient.clock := fun n => Z.of_nat n;
     SpotifyClient.auth_fetch := fun _ =>
       Responded 200 (Some {| SpotifyClient.access_token := Some "T";
                              SpotifyClient.error := None;
                              SpotifyClient.fallback := false;
                              SpotifyClient.cached := false |});
     SpotifyClient.search_fetch := fun _ _ _ _ => Rejected;
     SpotifyClient.recommendations_fetch := fun _ _ genres _ =>
       if String.eqb genres "pop,rock,indie,folk,jazz"
       then Responded 200 (Some [anthem])
       else Responded 400 None;
     SpotifyClient.genres_fetch := fun _ _ => Rejected |}.

(** A state of the token route whose cached token has expired. *)
Definition stale_state : SpotifyAuth.State :=
  {| SpotifyAuth.cachedToken :=
       Some {| SpotifyAuth.access_token := "old"; SpotifyAuth.expires_at := 0 |};
     SpotifyAuth.ticks := 5;
     SpotifyAuth.auth_requests := 1 |}.

(** Five seed genres, the number the provider accepts. *)
Definition five_seeds : list string := ["pop"; "rock"; "indie"; "folk"; "jazz"].

(** A history for the analytics route. *)
Definition detection (emotion : string) (confidence : Q)
    : EmotionAnalytics.EmotionData :=
  {| EmotionAnalytics.emotion := emotion;
     EmotionAnalytics.confidence := confidence;
     EmotionAnalytics.timestamp := 0 |}.

Definition week_history : list EmotionAnalytics.EmotionData :=
  [ detection "sad" 0.8%Q; detection "happy" 0.9%Q; detection "happy" 0.7%Q;
    detection "surprised" 0.6%Q ].

(** A history with a label that every object inherits as a property. *)
Definition odd_history : list EmotionAnalytics.EmotionData :=
  [ detection "constructor" 0.5%Q; detection "happy" 0.9%Q ].

(** Worlds for the emotion route.  In [dark_world] nothing is configured
    and nothing answers. *)
Definition dark_world : EmotionDetection.World :=
  {| EmotionDetection.FACEPLUS_API_KEY := None;
     EmotionDetection.NEXT_PUBLIC_FACEPLUS_API_KEY := None;
     EmotionDetection.FACEPLUS_API_SECRET := None;
     EmotionDetection.NEXT_PUBLIC_FACEPLUS_API_SECRET := None;
     EmotionDetection.AZURE_FACE_API_KEY := None;
     EmotionDetection.AZURE_FACE_ENDPOINT := None;
     EmotionDetection.GOOGLE_VISION_API_KEY := None;
     EmotionDetection.decoded_length := fun s => N.of_nat (String.length s);
     EmotionDetection.health_fetch := Rejected;
     EmotionDetection.deepface_fetch := Rejected;
     EmotionDetection.facepp_fetch := fun _ => EmotionDetection.FpAbort;
     EmotionDetection.azure_fetch := Rejected;
     EmotionDetection.google_fetch := Rejected;
     EmotionDetection.timeOfDay := 12;
     EmotionDetection.dayOfWeek := 3;
     EmotionDetection.random := fun _ => 0.5%Q |}.



(** The same world with a configured Face++ that answers with [answer]. *)
Definition facepp_world (answer : EmotionDetection.FaceppFetch) : EmotionDetection.World :=
  {| EmotionDetection.FACEPLUS_API_KEY := Some "key";
     EmotionDetection.NEXT_PUBLIC_FACEPLUS_API_KEY := None;
     EmotionDetection.FACEPLUS_API_SECRET := Some "secret";
     EmotionDetection.NEXT_PUBLIC_FACEPLUS_API_SECRET := None;
     EmotionDetection.AZURE_FACE_API_KEY := None;
     EmotionDetection.AZURE_FACE_ENDPOINT := None;
     EmotionDetection.GOOGLE_VISION_API_KEY := None;
     EmotionDetection.decoded_length := fun s => N.of_nat (String.length s);
     EmotionDetection.health_fetch := Rejected;
     EmotionDetection.deepface_fetch := Rejected;
     EmotionDetection.facepp_fetch := fun _ => answer;
     EmotionDetection.azure_fetch := Rejected;
     EmotionDetection.google_fetch := Rejected;
     EmotionDetection.timeOfDay := 12;
     EmotionDetection.dayOfWeek := 3;
     EmotionDetection.random := fun _ => 0.5%Q |}.

(** A world in which only Google Vision is configured; it finds a face that
    is very likely joyful. *)
Definition vision_world : EmotionDetection.World :=
  {| EmotionDetection.FACEPLUS_API_KEY := None;
     EmotionDetection.NEXT_PUBLIC_FACEPLUS_API_KEY := None;
     EmotionDetection.FACEPLUS_API_SECRET := None;
     EmotionDetection.NEXT_PUBLIC_FACEPLUS_API_SECRET := None;
     EmotionDetection.AZURE_FACE_API_KEY := None;
     EmotionDetection.AZURE_FACE_ENDPOINT := None;
     EmotionDetection.GOOGLE_VISION_API_KEY := Some "key";
     EmotionDetection.decoded_length := fun s => N.of_nat (String.length s);
     EmotionDetection.health_fetch := Rejected;
     EmotionDetection.deepface_fetch := Rejected;
     EmotionDetection.facepp_fetch := fun _ => EmotionDetection.FpAbort;
     EmotionDetection.azure_fetch := Rejected;
     EmotionDetection.google_fetch :=
       Responded 200
         (Some (Some [Some [ {| EmotionDetection.joyLikelihood := EmotionDetection.VERY_LIKELY;
                                EmotionDetection.sorrowLikelihood := EmotionDetection.VERY_UNLIKELY;
                                EmotionDetection.angerLikelihood := EmotionDetection.VERY_UNLIKELY;
                                EmotionDetection.surpriseLikelihood := EmotionDetection.VERY_UNLIKELY |} ]]));
     EmotionDetection.timeOfDay := 12;
     EmotionDetection.dayOfWeek := 3;
     EmotionDetection.random := fun _ => 0.5%Q |}.

Definition selfie : string := "data:image/jpeg;base64,/9j/4AAQSkZJRgABAQAAAQABAAD".

(** A Face++ face scored with the seven labels of the provider. *)
Definition joyful_face : EmotionDetection.FaceppFace :=
  {| EmotionDetection.fp_emotion :=
       [ ("anger", 0.5); ("disgust", 0.5); ("fear", 1); ("happiness", 90);
         ("neutral", 5); ("sadness", 1); ("surprise", 2) ]%Q;
     EmotionDetection.fp_quality_threshold := Some 70.1%Q |}.

(* ================================================================== *)
(** * Properties of the token route *)
(* ================================================================== *)

Section TokenRoute.

Import SpotifyAuth.

Variable w : World.

(** A request that finds an unexpired token answers from the cache and
    sends nothing. *)
Lemma POST_cache_hit (s : State) (c : CachedToken) :
  cachedToken s = Some c ->
  (clock w (ticks s) < expires_at c)%Z ->
  POST w s =
    ({| status := 200; body := Cached (access_token c) |},
     {| cachedToken := Some c; ticks := S (ticks s);
        auth_requests := auth_requests s |}).
Proof.
  intros Hc Hlt. unfold POST, tick. rewrite Hc.
  apply Z.ltb_lt in Hlt. rewrite Hlt. reflexivity.
Qed.

Lemma authenticate_at_most_one_request (s : State) :
  (auth_requests (snd (authenticate w s)) <= S (auth_requests s))%nat.
Proof.
  unfold authenticate.
  destruct (negb _ || negb _); simpl; [lia|].
  destruct (token_fetch w (auth_requests s)) as [|st [d|]]; simpl; try lia;
    destruct (negb (status_ok st)); simpl; lia.
Qed.

(** A request sends at most one token request. *)
Lemma POST_at_most_one_request (s : State) :
  (auth_requests (snd (POST w s)) <= S (auth_requests s))%nat.
Proof.
  unfold POST.
  destruct (cachedToken s) as [c|]; [|apply authenticate_at_most_one_request].
  destruct (Z.ltb (clock w (ticks s)) (expires_at c)); simpl; [lia|].
  apply (authenticate_at_most_one_request (tick s)).
Qed.

Lemma authenticate_fresh_expiry (s : State) (token : string) (expires_in : Z) :
  body (fst (authenticate w s)) = Fresh token expires_in ->
  cachedToken (snd (authenticate w s))
  = Some {| access_token := token;
            expires_at := clock w (ticks s) + (expires_in - 300) * 1000 |}.
Proof.
  unfold authenticate.
  destruct (negb _ || negb _); simpl; [discriminate|].
  destruct (token_fetch w (auth_requests s)) as [|st [d|]]; simpl;
    try discriminate; destruct (negb (status_ok st)); simpl; try discriminate.
  intros H. inversion H; subst. reflexivity.
Qed.

(** The token stored by a fresh authentication expires 300 seconds before
    the lifetime the provider reports, counted from the clock read at the
    store, which is the last read of the request. *)
Lemma POST_fresh_expiry (s : State) (token : string) (expires_in : Z) :
  body (fst (POST w s)) = Fresh token expires_in ->
  exists n,
    ticks (snd (POST w s)) = S n
    /\ cachedToken (snd (POST w s))
       = Some {| access_token := token;
                 expires_at := clock w n + (expires_in - 300) * 1000 |}.
Proof.
  assert (Hauth : forall s0,
             body (fst (authenticate w s0)) = Fresh token expires_in ->
             ticks (snd (authenticate w s0)) = S (ticks s0)).
  { intros s0. unfold authenticate.
    destruct (negb _ || negb _); simpl; [discriminate|].
    destruct (token_fetch w (auth_requests s0)) as [|st [d|]]; simpl;
      try discriminate; destruct (negb (status_ok st)); simpl; try discriminate.
    reflexivity. }
  unfold POST.
  destruct (cachedToken s) as [c|].
  - destruct (Z.ltb (clock w (ticks s)) (expires_at c)); simpl; [discriminate|].
    intros H. exists (ticks (tick s)). split; [now apply Hauth|].
    now apply authenticate_fresh_expiry.
  - intros H. exists (ticks s). split; [now apply Hauth|].
    now apply authenticate_fresh_expiry.
Qed.

(** Any number of requests made before the cached token expires are all
    answered from the cache. *)
Lemma POST_n_within_lifetime (n : nat) :
  forall (s : State) (c : CachedToken),
    cachedToken s = Some c ->
    (forall k, (k < n)%nat -> (clock w (ticks s + k) < expires_at c)%Z) ->
    Forall (fun r => r = {| status := 200; body := Cached (access_token c) |})
           (fst (POST_n n w s))
    /\ List.length (fst (POST_n n w s)) = n
    /\ auth_requests (snd (POST_n n w s)) = auth_requests s
    /\ cachedToken (snd (POST_n n w s)) = Some c.
Proof.
  induction n as [|n IH]; intros s c Hc Hlt.
  - simpl. repeat split; auto.
  - simpl.
    assert (H0 : (clock w (ticks s) < expires_at c)%Z).
    { specialize (Hlt 0%nat). rewrite Nat.add_0_r in Hlt. apply Hlt. lia. }
    rewrite (POST_cache_hit s c Hc H0).
    set (s1 := {| cachedToken := Some c; ticks := S (ticks s);
                  auth_requests := auth_requests s |}).
    destruct (IH s1 c eq_refl) as (Hall & Hlen & Hauth & Hcache).
    { intros k Hk. simpl. replace (S (ticks s + k)) with (ticks s + S k)%nat by lia.
      apply Hlt. lia. }
    destruct (POST_n n w s1) as [rs sn] eqn:E. simpl in *.
    repeat split; auto.
Qed.

End TokenRoute.

(** C6.  After any request to the token route, if a token is cached then
    every later request made before that token's expiry timestamp returns
    the cached token and sends no request to the provider; the request that
    cached it sent at most one; and a freshly obtained token is stored with
    the expiry [Date.now() + (expires_in - 300) * 1000], five minutes short
    of the reported lifetime, where [Date.now()] is the last clock read of
    the request that stored it. *)
Theorem token_cache_single_authentication
    (w : SpotifyAuth.World) (s : SpotifyAuth.State)
    (c : SpotifyAuth.CachedToken) (n : nat) :
  let r1 := fst (SpotifyAuth.POST w s) in
  let s1 := snd (SpotifyAuth.POST w s) in
  SpotifyAuth.cachedToken s1 = Some c ->
  (forall k, (k < n)%nat ->
             (SpotifyAuth.clock w (SpotifyAuth.ticks s1 + k) < SpotifyAuth.expires_at c)%Z) ->
  Forall (fun r => r = {| SpotifyAuth.status := 200;
                          SpotifyAuth.body := SpotifyAuth.Cached (SpotifyAuth.access_token c) |})
         (fst (SpotifyAuth.POST_n n w s1))
  /\ List.length (fst (SpotifyAuth.POST_n n w s1)) = n
  /\ SpotifyAuth.auth_requests (snd (SpotifyAuth.POST_n n w s1))
     = SpotifyAuth.auth_requests s1
  /\ (SpotifyAuth.auth_requests s1 <= S (SpotifyAuth.auth_requests s))%nat
  /\ (forall token expires_in,
        SpotifyAuth.body r1 = SpotifyAuth.Fresh token expires_in ->
        exists read,
          SpotifyAuth.ticks s1 = S read
          /\ c = {| SpotifyAuth.access_token := token;
                    SpotifyAuth.expires_at :=
                      SpotifyAuth.clock w read + (expires_in - 300) * 1000 |}).
Proof.
  intros r1 s1 Hc Hlt.
  destruct (POST_n_within_lifetime w n s1 c Hc Hlt) as (Hall & Hlen & Hauth & _).
  repeat split; auto.
  - apply POST_at_most_one_request.
  - intros token expires_in Hfresh.
    destruct (POST_fresh_expiry w s token expires_in Hfresh) as (read & Hticks & Hnow).
    exists read. split; [exact Hticks|].
    unfold s1 in Hc. rewrite Hnow in Hc. congruence.
Qed.

Lemma token_cache_single_authentication_witness :
  Forall (fun r => r = {| SpotifyAuth.status := 200;
                          SpotifyAuth.body := SpotifyAuth.Cached "T" |})
         (fst (SpotifyAuth.POST_n 3 token_world
                 (snd (SpotifyAuth.POST token_world token_state0))))
  /\ SpotifyAuth.auth_requests
       (snd (SpotifyAuth.POST_n 3 token_world
               (snd (SpotifyAuth.POST token_world token_state0)))) = 1%nat
  /\ exists read,
       SpotifyAuth.ticks (snd (SpotifyAuth.POST token_world token_state0)) = S read
       /\ {| SpotifyAuth.access_token := "T"; SpotifyAuth.expires_at := 3300000 |}
          = {| SpotifyAuth.access_token := "T";
               SpotifyAuth.expires_at :=
                 SpotifyAuth.clock token_world read + (3600 - 300) * 1000 |}.
Proof.
  pose proof (token_cache_single_authentication token_world token_state0
                {| SpotifyAuth.access_token := "T";
                   SpotifyAuth.expires_at := 3300000 |} 3) as H.
  cbv zeta in H.
  destruct H as (Hall & _ & Hauth & _ & Hexp).
  - reflexivity.
  - intros k Hk. simpl. lia.
  - split; [exact Hall|]. split; [exact Hauth|].
    exact (Hexp "T" 3600%Z eq_refl).
Defined.

(* ================================================================== *)
(** * Properties of the client *)
(* ================================================================== *)

Section Client.

Import SpotifyClient.

(** With no token and the service marked available, a call under
    [always_401] authenticates, is refused, clears the token and calls
    itself again, for as long as there is fuel. *)
Lemma searchTracks_always_401 (fuel : nat) (query : string) (limit : nat) :
  forall s : State,
    accessToken s = None -> isAvailable s = true ->
    exists s',
      searchTracks fuel always_401 query limit s = Running s'
      /\ auth_requests s' = (auth_requests s + fuel)%nat
      /\ api_requests s' = (api_requests s + fuel)%nat.
Proof.
  induction fuel as [|fuel IH]; intros s Htok Hav.
  - exists s. simpl. repeat split; lia.
  - simpl. unfold getAccessToken. rewrite Htok, Hav. simpl.
    match goal with
    | |- exists s', searchTracks fuel _ _ _ ?s1 = _ /\ _ =>
        destruct (IH s1 eq_refl eq_refl) as (s' & Hrun & Ha & Hp)
    end.
    exists s'. simpl in Ha, Hp. repeat split; auto; lia.
Qed.

Lemma getRecommendations_always_401 (fuel : nat) (seedGenres : list string)
    (limit : nat) :
  forall s : State,
    accessToken s = None -> isAvailable s = true ->
    exists s',
      getRecommendations fuel always_401 seedGenres limit s = Running s'
      /\ auth_requests s' = (auth_requests s + fuel)%nat
      /\ api_requests s' = (api_requests s + fuel)%nat.
Proof.
  induction fuel as [|fuel IH]; intros s Htok Hav.
  - exists s. simpl. repeat split; lia.
  - simpl. unfold getAccessToken. rewrite Htok, Hav. simpl.
    match goal with
    | |- exists s', getRecommendations fuel _ _ _ ?s1 = _ /\ _ =>
        destruct (IH s1 eq_refl eq_refl) as (s' & Hrun & Ha & Hp)
    end.
    exists s'. simpl in Ha, Hp. repeat split; auto; lia.
Qed.

(** A single 401 is recovered from with one re-authentication: the token is
    cleared, a new one is fetched, and the second request delivers. *)
Lemma searchTracks_recovers (w : World) (fuel : nat) (query : string) (limit : nat)
    (s : State) (token token' : string) (refusal : option (list SpotifyTrack))
    (answer : SpotifyAuthResponse) (items : list SpotifyTrack) :
  accessToken s = Some token -> truthy token = true -> isAvailable s = true ->
  search_fetch w (api_requests s) token query limit = Responded 401 refusal ->
  auth_fetch w (auth_requests s) = Responded 200 (Some answer) ->
  fallback answer = false ->
  access_token answer = Some token' -> truthy token' = true ->
  search_fetch w (S (api_requests s)) token' query limit = Responded 200 (Some items) ->
  exists s',
    searchTracks (S (S fuel)) w query limit s = Finished items s'
    /\ auth_requests s' = S (auth_requests s)
    /\ api_requests s' = S (S (api_requests s))
    /\ accessToken s' = Some token'.
Proof.
  intros Htok Htruthy Hav H401 Hauth Hfb Hnew Htruthy' Hok.
  cbn [searchTracks]. unfold getAccessToken at 1.
  rewrite Htok, Hav. simpl truthy_opt. rewrite Htruthy. simpl.
  rewrite H401. simpl.
  unfold getAccessToken. simpl. rewrite Hav. simpl.
  rewrite Hauth, Hfb, Hnew. simpl. rewrite Htruthy'. simpl.
  rewrite Hok. simpl.
  eexists. split; [reflexivity|]. simpl. auto.
Qed.

End Client.

(** C5 (the code departs from the claim).  When the provider keeps
    answering 401 and the authentication endpoint keeps handing out a token,
    [searchTracks] and [getRecommendations] never return: after any number
    [fuel] of invocations the call is still running and has authenticated
    [fuel] times, not once. *)
Theorem retry_on_401_is_unbounded (fuel : nat) (query : string)
    (seedGenres : list string) (limit : nat) :
  (exists s,
     SpotifyClient.searchTracks fuel always_401 query limit SpotifyClient.initial
     = Running s
     /\ SpotifyClient.auth_requests s = fuel
     /\ SpotifyClient.api_requests s = fuel)
  /\
  (exists s,
     SpotifyClient.getRecommendations fuel always_401 seedGenres limit
       SpotifyClient.initial
     = Running s
     /\ SpotifyClient.auth_requests s = fuel
     /\ SpotifyClient.api_requests s = fuel).
Proof.
  split.
  - destruct (searchTracks_always_401 fuel query limit SpotifyClient.initial
                eq_refl eq_refl) as (s & H & Ha & Hp).
    exists s. simpl in Ha, Hp. auto.
  - destruct (getRecommendations_always_401 fuel seedGenres limit
                SpotifyClient.initial eq_refl eq_refl) as (s & H & Ha & Hp).
    exists s. simpl in Ha, Hp. auto.
Qed.

(* ================================================================== *)
(** * Properties of the recommendation route *)
(* ================================================================== *)

Section ListFacts.

Context {A B : Type}.

Lemma flat_map_all_nil (f : A -> list B) (l : list A) :
  (forall x, f x = []) -> flat_map f l = [].
Proof.
  intros H. induction l as [|x l IH]; simpl; [reflexivity|].
  rewrite H. exact IH.
Qed.

Lemma set_nth_length (l : list A) (i : nat) (x : A) :
  List.length (set_nth l i x) = List.length l.
Proof.
  revert i. induction l as [|y l IH]; intros [|i]; simpl; auto.
Qed.

Lemma swap_length (l : list A) (i j : nat) :
  List.length (swap l i j) = List.length l.
Proof.
  unfold swap. destruct (nth_error l i), (nth_error l j); auto.
  now rewrite !set_nth_length.
Qed.

Lemma shuffle_from_length (i : nat) (pick : nat -> nat) :
  forall l : list A, List.length (shuffle_from i pick l) = List.length l.
Proof.
  induction i as [|i IH]; intros l; simpl; [reflexivity|].
  rewrite IH. apply swap_length.
Qed.

Lemma shuffle_length (pick : nat -> nat) (l : list A) :
  List.length (shuffle pick l) = List.length l.
Proof. apply shuffle_from_length. Qed.

Lemma slice0_length (n : nat) (l : list A) :
  (List.length (slice0 n l) <= n)%nat.
Proof. apply firstn_le_length. Qed.

Lemma mapi_exc_length (f : nat -> A -> option B) :
  forall (l : list A) (i : nat) (l' : list B),
    mapi_exc f i l = Some l' -> List.length l' = List.length l.
Proof.
  induction l as [|x l IH]; intros i l' H; simpl in H.
  - inversion H. reflexivity.
  - destruct (f i x); [|discriminate].
    destruct (mapi_exc f (S i) l) eqn:E; [|discriminate].
    inversion H. simpl. f_equal. eapply IH. exact E.
Qed.

End ListFacts.

Lemma own_get_absent {A} (o : JSObject A) (k : string) :
  (forall k', In k' (keys o) -> String.eqb k k' = false) -> own_get o k = None.
Proof.
  induction o as [|[k' v] o IH]; intros H; simpl; [reflexivity|].
  rewrite (H k') by (simpl; auto).
  apply IH. intros k'' Hin. apply H. simpl. auto.
Qed.

Section StaticLists.

Import Recommendations.

(** For each of the seven labels every static getter returns three cards
    with a title and a link. *)
Lemma static_lists_of_label (e : Emotion) :
  forall getter,
    In getter [getFallbackMovies; getFallbackSongs; getGoodreadsStyleBooks;
               getFallbackBooks] ->
    exists a b c,
      getter (label e) = Own [a; b; c]
      /\ Card.card_ok a = true /\ Card.card_ok b = true /\ Card.card_ok c = true.
Proof.
  intros getter Hin. simpl in Hin.
  destruct Hin as [<-|[<-|[<-|[<-|[]]]]]; destruct e;
    (eexists; eexists; eexists; split; [vm_compute; reflexivity|]);
    repeat split; vm_compute; reflexivity.
Qed.

(** An argument that is neither a label nor a name inherited from
    [Object.prototype] gets the list of [neutral]. *)
Lemma static_lists_default (emotion : string) :
  own_get emotionConfig emotion = None ->
  is_inherited emotion = false ->
  getFallbackMovies emotion = getFallbackMovies "neutral"
  /\ getFallbackSongs emotion = getFallbackSongs "neutral"
  /\ getGoodreadsStyleBooks emotion = getGoodreadsStyleBooks "neutral"
  /\ getFallbackBooks emotion = getFallbackBooks "neutral".
Proof.
  intros Hown Hinh.
  assert (Hk : forall k, In k ["happy"; "sad"; "angry"; "surprised"; "neutral";
                               "disgust"; "fear"] -> String.eqb emotion k = false).
  { intros k Hk. simpl in Hk. unfold emotionConfig in Hown. simpl in Hown.
    repeat match type of Hown with
           | (if String.eqb emotion ?x then _ else _) = None =>
               destruct (String.eqb emotion x) eqn:?; [discriminate|]
           end.
    repeat (destruct Hk as [<-|Hk]; [assumption|]). destruct Hk. }
  assert (Hget : forall (t : JSObject (list Recommendation)),
             keys t = ["happy"; "sad"; "neutral"; "angry"; "surprised";
                       "disgust"; "fear"] ->
             js_get t emotion = Undefined).
  { intros t Ht. unfold js_get.
    rewrite (own_get_absent t emotion), Hinh; [reflexivity|].
    intros k Hin. rewrite Ht in Hin. apply Hk. simpl in Hin |- *. tauto. }
  unfold getFallbackMovies, getFallbackSongs, getGoodreadsStyleBooks, getFallbackBooks.
  rewrite !Hget by (vm_compute; reflexivity).
  repeat split; reflexivity.
Qed.

End StaticLists.

(** C10 (the code departs from the claim).  The argument ["constructor"]
    is outside the seven-label table, yet none of the static getters
    returns the list of [neutral] for it: the table lookup finds the
    property every object inherits, which is truthy, so the default is not
    taken.  The handler passes this argument on: its validation reads
    [emotionConfig] the same way, and the response it builds holds the
    inherited value where the movie list should be. *)
Theorem static_getters_inherited_key :
  Recommendations.getFallbackMovies "constructor" = Inherited "constructor"
  /\ Recommendations.getFallbackSongs "constructor" = Inherited "constructor"
  /\ Recommendations.getGoodreadsStyleBooks "constructor" = Inherited "constructor"
  /\ Recommendations.getFallbackMovies "constructor"
     <> Recommendations.getFallbackMovies "neutral"
  /\ exists s' set,
       Recommendations.POST 0 offline_world fresh_state
         (Recommendations.Payload (Some "constructor"))
       = Finished {| Recommendations.status := 200;
                     Recommendations.body := Recommendations.Recs set |} s'
       /\ Recommendations.r_movies set = Inherited "constructor".
Proof.
  split; [vm_compute; reflexivity|].
  split; [vm_compute; reflexivity|].
  split; [vm_compute; reflexivity|].
  split; [vm_compute; discriminate|].
  do 2 eexists. split; vm_compute; reflexivity.
Qed.

Section Recommender.

Import ContentRecommender.

Variable w : World.

Lemma movies_of_query_nil (q : string) :
  no_items (omdb_search w q) -> movies_of_query w q = [].
Proof.
  unfold movies_of_query, no_items.
  destruct (omdb_search w q) as [|st [[[|h t]|]|]]; auto;
    try (destruct (status_ok st); reflexivity).
  intros ->. reflexivity.
Qed.

Lemma songs_of_genre_nil (token genre : string) :
  no_items (track_search w token genre) -> songs_of_genre w token genre = [].
Proof.
  unfold songs_of_genre, no_items.
  destruct (track_search w token genre) as [|st [[[|h t]|]|]]; auto;
    try (destruct (status_ok st); reflexivity).
  intros ->. reflexivity.
Qed.

Lemma books_of_query_nil (q : string) :
  (forall k, no_items (volume_search w q k)) -> books_of_query w q = [].
Proof.
  unfold books_of_query, no_items. intros H.
  match goal with |- context [volume_search w q ?k] => specialize (H k);
    destruct (volume_search w q k) as [|st [[[|h t]|]|]] end; auto;
    try (destruct (status_ok st); reflexivity).
  rewrite H. reflexivity.
Qed.

Lemma movies_or_nil_unavailable (emotion : string) :
  truthy (omdbApiKey w) = false \/ (forall q, no_items (omdb_search w q)) ->
  movies_or_nil w emotion = [].
Proof.
  unfold movies_or_nil, getMovieRecommendations. intros [Hkey|Hfail].
  - rewrite Hkey. reflexivity.
  - destruct (negb (truthy (omdbApiKey w)) || _); [reflexivity|].
    destruct (mapping_of emotion); [|reflexivity].
    rewrite flat_map_all_nil by (intros q; apply movies_of_query_nil, Hfail).
    reflexivity.
Qed.

Lemma music_unavailable (emotion : string) (s : State) :
  truthy (spotifyClientId w) && truthy (spotifyClientSecret w) = false
  \/ (forall t g, no_items (track_search w t g)) ->
  fst (getMusicRecommendations w emotion s) = [].
Proof.
  unfold getMusicRecommendations, getSpotifyToken. intros [Hcred|Hfail].
  - apply andb_false_iff in Hcred.
    assert (H : negb (truthy (spotifyClientId w))
                || negb (truthy (spotifyClientSecret w)) = true).
    { destruct Hcred as [-> | ->]; simpl; auto using orb_true_r. }
    rewrite H. reflexivity.
  - match goal with
    | |- fst (let (token, s1) := ?t in _) = _ => destruct t as [token s1]
    end.
    destruct (if truthy_opt token then token else None); [|reflexivity].
    destruct (mapping_of emotion); [|reflexivity].
    rewrite flat_map_all_nil by (intros g; apply songs_of_genre_nil, Hfail).
    reflexivity.
Qed.

Lemma books_unavailable_nil (emotion : string) :
  (forall q k, no_items (volume_search w q k)) ->
  getBookRecommendations w emotion = [].
Proof.
  unfold getBookRecommendations. intros Hfail.
  destruct (mapping_of emotion); [|reflexivity].
  rewrite flat_map_all_nil by (intros q; apply books_of_query_nil, Hfail).
  reflexivity.
Qed.

(** The caps of the three methods: 10 movies, 15 songs, 10 books. *)
Lemma recommender_caps (emotion : string) (s : State) :
  (List.length (movies (fst (getRecommendations w emotion s))) <= 10)%nat
  /\ (List.length (music (fst (getRecommendations w emotion s))) <= 15)%nat
  /\ (List.length (books (fst (getRecommendations w emotion s))) <= 10)%nat.
Proof.
  unfold getRecommendations.
  destruct (getMusicRecommendations w emotion s) as [songs s1] eqn:E. simpl.
  repeat split.
  - unfold movies_or_nil, getMovieRecommendations.
    destruct (negb (truthy (omdbApiKey w)) || _); simpl; [lia|].
    destruct (mapping_of emotion); simpl; [apply slice0_length | lia].
  - assert (H : songs = fst (getMusicRecommendations w emotion s)) by now rewrite E.
    rewrite H. unfold getMusicRecommendations.
    destruct (getSpotifyToken w s) as [token s2].
    destruct (if truthy_opt token then token else None); simpl; [|lia].
    destruct (mapping_of emotion); simpl; [apply slice0_length | lia].
  - unfold getBookRecommendations.
    destruct (mapping_of emotion); simpl; [apply slice0_length | lia].
Qed.

Lemma getRecommendations_fields (emotion : string) (s : State) :
  movies (fst (getRecommendations w emotion s)) = movies_or_nil w emotion
  /\ music (fst (getRecommendations w emotion s))
     = fst (getMusicRecommendations w emotion s)
  /\ books (fst (getRecommendations w emotion s)) = getBookRecommendations w emotion.
Proof.
  unfold getRecommendations.
  destruct (getMusicRecommendations w emotion s); simpl. auto.
Qed.

End Recommender.

Section ClientNoTracks.

Import SpotifyClient.

Variable w : World.

(** When no search of the client delivers a track, a call that returns
    returns the empty list. *)
Lemma searchTracks_no_tracks (fuel : nat) (query : string) (limit : nat) :
  (forall n t q l, no_tracks (search_fetch w n t q l)) ->
  forall s tracks s',
    searchTracks fuel w query limit s = Finished tracks s' -> tracks = [].
Proof.
  intros Hno. induction fuel as [|fuel IH]; intros s tracks s' H; simpl in H.
  - discriminate.
  - destruct (getAccessToken w s) as [[token|msg] s1].
    + specialize (Hno (api_requests s1) token query limit).
      destruct (search_fetch w (api_requests s1) token query limit)
        as [|st [[|t ts]|]]; simpl in Hno.
      * now inversion H.
      * destruct (negb (status_ok st)); [destruct (st =? 401)%nat|];
          try (now inversion H). eapply IH. exact H.
      * rewrite Hno in H. simpl in H.
        destruct (st =? 401)%nat; [eapply IH; exact H | now inversion H].
      * destruct (negb (status_ok st)); [destruct (st =? 401)%nat|];
          try (now inversion H). eapply IH. exact H.
    + now inversion H.
Qed.

Lemma getRecommendations_no_tracks (fuel : nat) (seedGenres : list string)
    (limit : nat) :
  (forall n t g l, no_tracks (recommendations_fetch w n t g l)) ->
  forall s tracks s',
    getRecommendations fuel w seedGenres limit s = Finished tracks s' -> tracks = [].
Proof.
  intros Hno. induction fuel as [|fuel IH]; intros s tracks s' H; simpl in H.
  - discriminate.
  - destruct (getAccessToken w s) as [[token|msg] s1].
    + specialize (Hno (api_requests s1) token (join_genres seedGenres) limit).
      destruct (recommendations_fetch w (api_requests s1) token
                  (join_genres seedGenres) limit)
        as [|st [[|t ts]|]]; simpl in Hno.
      * now inversion H.
      * destruct (negb (status_ok st)); [destruct (st =? 401)%nat|];
          try (now inversion H). eapply IH. exact H.
      * rewrite Hno in H. simpl in H.
        destruct (st =? 401)%nat; [eapply IH; exact H | now inversion H].
      * destruct (negb (status_ok st)); [destruct (st =? 401)%nat|];
          try (now inversion H). eapply IH. exact H.
    + now inversion H.
Qed.

End ClientNoTracks.

Section Route.

Import Recommendations.

Variable w : World.

Lemma config_of_label (e : Emotion) :
  exists config, js_get emotionConfig (label e) = Own config.
Proof. destruct e; eexists; vm_compute; reflexivity. Qed.

Lemma or_fallback_label (e : Emotion) (transformed : list Recommendation) getter :
  In getter [getFallbackMovies; getFallbackSongs; getGoodreadsStyleBooks;
             getFallbackBooks] ->
  exists l, or_fallback transformed (getter (label e)) = Own l
            /\ l <> []
            /\ (transformed = [] -> List.length l = 3%nat)
            /\ (transformed <> [] -> l = transformed).
Proof.
  intros Hin.
  destruct (static_lists_of_label e getter Hin) as (a & b & c & Hg & _).
  destruct transformed as [|x xs]; simpl.
  - rewrite Hg. exists [a; b; c]. repeat split; auto; try discriminate.
    intros H. now contradiction H.
  - exists (x :: xs). repeat split; auto; discriminate.
Qed.

(** What the inner block returns, when it returns. *)
Lemma enhanced_returns (emotion : string) (s : State) (r : Response) (s1 : State) :
  enhanced w emotion s = (Some r, s1) ->
  let recs := fst (CR.getRecommendations (recommender w) emotion (recommender_state s)) in
  exists ts tb set,
    mapi_exc (transformSong w) 0 (CR.music recs) = Some ts
    /\ mapi_exc (transformBook w) 0 (CR.books recs) = Some tb
    /\ r = {| status := 200; body := Recs set |}
    /\ r_movies set
       = or_fallback (map transformMovie (CR.movies recs)) (getFallbackMovies emotion)
    /\ r_songs set = or_fallback ts (getFallbackSongs emotion)
    /\ r_books set = or_fallback tb (getGoodreadsStyleBooks emotion)
    /\ enhanced_backend set = true.
Proof.
  unfold enhanced.
  destruct (CR.getRecommendations (recommender w) emotion (recommender_state s))
    as [recs rs]. simpl.
  destruct (mapi_exc (transformSong w) 0 (CR.music recs)) as [ts|]; [|discriminate].
  destruct (mapi_exc (transformBook w) 0 (CR.books recs)) as [tb|]; [|discriminate].
  destruct (length_positive _ || length_positive _ || length_positive _);
    [|discriminate].
  intros H. inversion H; subst. do 3 eexists. repeat split; reflexivity.
Qed.




(** ** The original logic *)

Lemma placeholder_key_unset (k : option string) :
  truthy_opt k = false -> placeholder_key k = true.
Proof.
  unfold placeholder_key, or_str. intros ->. reflexivity.
Qed.

Lemma fetchMovies_label (e : Emotion) :
  exists l, fetchMovies w (label e) = Own l /\ l <> []
            /\ (List.length l <= 3)%nat
            /\ (movies_unavailable w ->
                fetchMovies w (label e) = getFallbackMovies (label e)).
Proof.
  destruct (static_lists_of_label e getFallbackMovies) as (a & b & c & Hg & _);
    [simpl; auto|].
  destruct (config_of_label e) as [config Hc].
  unfold fetchMovies. rewrite Hc.
  destruct (placeholder_key (omdbApiKey w)) eqn:Hk.
  { rewrite Hg. exists [a; b; c]. repeat split; auto; discriminate. }
  set (q := match random_element _ _ with Some q => q | None => _ end).
  destruct (movie_search w q) as [|st [[[|hit hits]|]|]] eqn:Hs;
    try (rewrite Hg; exists [a; b; c]; repeat split; auto; discriminate).
  destruct (status_ok st) eqn:Hok;
    [|rewrite Hg; exists [a; b; c]; repeat split; auto; discriminate].
  eexists. split; [reflexivity|]. repeat split.
  - unfold slice0. simpl. discriminate.
  - rewrite length_map. apply slice0_length.
  - intros [Hunset|[_ Hno]].
    + rewrite placeholder_key_unset in Hk by exact Hunset. discriminate.
    + specialize (Hno q). rewrite Hs in Hno. simpl in Hno. congruence.
Qed.

Lemma fetchBooks_label (e : Emotion) :
  fetchBooks w (label e) = getGoodreadsStyleBooks (label e).
Proof.
  destruct (config_of_label e) as [config Hc].
  unfold fetchBooks. now rewrite Hc.
Qed.

Lemma fetchSpotifySongs_label (fuel : nat) (e : Emotion)
    (cs cs' : SpotifyClient.State) (r : JSProp (list Recommendation)) :
  fetchSpotifySongs fuel w (label e) cs = Finished r cs' ->
  exists l, r = Own l /\ l <> [] /\ (List.length l <= 3)%nat
            /\ ((forall n t q l,
                    no_tracks (SpotifyClient.search_fetch (spotify w) n t q l)) ->
                (forall n t g l,
                    no_tracks (SpotifyClient.recommendations_fetch (spotify w) n t g l)) ->
                r = getFallbackSongs (label e)).
Proof.
  destruct (static_lists_of_label e getFallbackSongs) as (a & b & c & Hg & _);
    [simpl; auto|].
  assert (Hfb : exists l, getFallbackSongs (label e) = Own l /\ l <> []
                          /\ (List.length l <= 3)%nat).
  { rewrite Hg. exists [a; b; c]. repeat split; [discriminate | simpl; lia]. }
  destruct (config_of_label e) as [config Hc].
  unfold fetchSpotifySongs. rewrite Hc.
  destruct (negb (SpotifyClient.isSpotifyAvailable cs)).
  { intros H. inversion H; subst.
    destruct Hfb as (l & Hl & Hne & Hlen). exists l. repeat split; auto. }
  destruct (SpotifyClient.getRecommendations fuel (spotify w) (genres (songs config)) 5 cs)
    as [tracks1 s1|s1] eqn:E1; [|discriminate].
  set (songs1 := map SpotifyClient.formatTrackForRecommendation (slice0 3 tracks1)).
  assert (Hlen1 : (List.length songs1 <= 3)%nat).
  { unfold songs1. rewrite length_map. apply slice0_length. }
  destruct (List.length songs1 <? 3)%nat eqn:Hlt.
  - set (q := match random_element _ _ with Some q => q | None => _ end).
    destruct (SpotifyClient.searchTracks fuel (spotify w) q 5 s1)
      as [tracks2 s2|s2] eqn:E2; [|discriminate].
    set (songs2 := (songs1 ++ map SpotifyClient.formatTrackForRecommendation
                                  (slice0 (3 - List.length songs1) tracks2))%list).
    assert (Hlen2 : (List.length songs2 <= 3)%nat).
    { unfold songs2. rewrite length_app, length_map.
      pose proof (slice0_length (3 - List.length songs1) tracks2). lia. }
    destruct songs2 as [|x xs] eqn:E; intros H; inversion H; subst.
    + destruct Hfb as (l & Hl & Hne & Hlen). exists l. repeat split; auto.
    + exists (x :: xs). repeat split; auto; [discriminate|].
      intros Hs Hr.
      apply (getRecommendations_no_tracks (spotify w) _ _ _ Hr) in E1.
      apply (searchTracks_no_tracks (spotify w) _ _ _ Hs) in E2.
      subst. unfold songs2, songs1 in E. discriminate.
  - destruct songs1 as [|x xs] eqn:E; intros H; inversion H; subst.
    + destruct Hfb as (l & Hl & Hne & Hlen). exists l. repeat split; auto.
    + exists (x :: xs). repeat split; auto; [discriminate|].
      intros Hs Hr.
      apply (getRecommendations_no_tracks (spotify w) _ _ _ Hr) in E1.
      subst. unfold songs1 in E. discriminate.
Qed.

End Route.

Section ClientReturns.

Import SpotifyClient.

Variable w : World.
Variable K : nat.




End ClientReturns.

Section Handler.

Import Recommendations.

Variable w : World.

Lemma failed_no_items {A} (f : Fetch (option (list A))) : failed f -> no_items f.
Proof. destruct f as [|st [[[|x l]|]|]]; simpl; auto. Qed.

Lemma failed_no_tracks {A} (f : Fetch (list A)) : failed f -> no_tracks f.
Proof. destruct f as [|st [[|x l]|]]; simpl; auto. Qed.

(** A world in which every request fails has no live content of any kind. *)
Lemma offline_unavailable :
  every_request_fails w ->
  movies_unavailable w /\ songs_unavailable w /\ books_unavailable w.
Proof.
  intros H. repeat split.
  - right. split; intros q; apply failed_no_items, H.
  - right. intros t g. apply failed_no_items, H.
  - intros n t q l. apply failed_no_tracks, H.
  - intros n t g l. apply failed_no_tracks, H.
  - intros q k. apply failed_no_items, H.
Qed.

Lemma POST_label (fuel : nat) (e : Emotion) (s : State) :
  POST fuel w s (Payload (Some (label e))) =
    match enhanced w (label e) s with
    | (Some response, s1) => Finished response s1
    | (None, s1) => original fuel w (label e) s1
    end.
Proof.
  destruct (config_of_label e) as [config Hc].
  unfold POST.
  replace (or_str (Some (label e)) None) with (Some (label e))
    by (destruct e; reflexivity).
  rewrite Hc. reflexivity.
Qed.

Lemma omdb_key_unset :
  truthy_opt (omdbApiKey w) = false -> truthy (CR.omdbApiKey (recommender w)) = false.
Proof.
  unfold omdbApiKey, CR.omdbApiKey.
  destruct (or_str _ _) as [k|]; simpl; auto.
Qed.

(** The lists of the recommender under the three kinds of unavailability. *)
Lemma recommender_unavailable (emotion : string) (s : State) :
  let recs := fst (CR.getRecommendations (recommender w) emotion (recommender_state s)) in
  (movies_unavailable w -> CR.movies recs = [])
  /\ (songs_unavailable w -> CR.music recs = [])
  /\ (books_unavailable w -> CR.books recs = []).
Proof.
  destruct (getRecommendations_fields (recommender w) emotion (recommender_state s))
    as (Hm & Hs & Hb).
  simpl. rewrite Hm, Hs, Hb. repeat split.
  - intros [Hkey|[Hno _]]; apply movies_or_nil_unavailable;
      [left; now apply omdb_key_unset | right; exact Hno].
  - intros [Hrec _]. now apply music_unavailable.
  - intros Hno. now apply books_unavailable_nil.
Qed.




(** With every request failing, the inner block returns at once, with the
    three static lists. *)
Lemma POST_label_offline (fuel : nat) (e : Emotion) (s : State) :
  every_request_fails w ->
  exists s' set,
    POST fuel w s (Payload (Some (label e)))
    = Finished {| status := 200; body := Recs set |} s'
    /\ r_movies set = getFallbackMovies (label e)
    /\ r_songs set = getFallbackSongs (label e)
    /\ r_books set = getGoodreadsStyleBooks (label e).
Proof.
  intros Hfail.
  destruct (offline_unavailable Hfail) as (Um & Us & Ub).
  destruct (recommender_unavailable (label e) s) as (Hm & Hs & Hb).
  specialize (Hm Um). specialize (Hs Us). specialize (Hb Ub).
  rewrite POST_label.
  destruct (static_lists_of_label e getFallbackMovies) as (a & b & c & Hg & _);
    [simpl; auto|].
  unfold enhanced.
  destruct (CR.getRecommendations (recommender w) (label e) (recommender_state s))
    as [recs rs]. simpl in Hm, Hs, Hb. rewrite Hm, Hs, Hb. simpl.
  rewrite Hg. simpl.
  do 2 eexists. split; [reflexivity|]. simpl. auto.
Qed.



End Handler.


Lemma offline_world_fails : Recommendations.every_request_fails offline_world.
Proof. constructor; intros; exact I. Qed.


(** C7.  For the label [happy], when every request fails, the handler
    returns the three static lists of [happy]: the three fallback movies
    starting with The Grand Budapest Hotel, the three fallback songs
    starting with Happy - Pharrell Williams, and the three curated books
    starting with The Seven Husbands of Evelyn Hugo. *)
Theorem happy_offline_lists
    (w : Recommendations.World) (s : Recommendations.State) (fuel : nat) :
  Recommendations.every_request_fails w ->
  exists s' set ms ss bs,
    Recommendations.POST fuel w s (Recommendations.Payload (Some "happy"))
    = Finished {| Recommendations.status := 200;
                  Recommendations.body := Recommendations.Recs set |} s'
    /\ Recommendations.r_movies set = Own ms
    /\ Recommendations.r_songs set = Own ss
    /\ Recommendations.r_books set = Own bs
    /\ Own ms = Recommendations.getFallbackMovies "happy"
    /\ Own ss = Recommendations.getFallbackSongs "happy"
    /\ Own bs = Recommendations.getGoodreadsStyleBooks "happy"
    /\ map Card.title ms
       = ["The Grand Budapest Hotel"; "Paddington 2"; "The Princess Bride"]
    /\ map Card.title ss
       = ["Happy - Pharrell Williams"; "Good as Hell - Lizzo";
          "Walking on Sunshine - Katrina and the Waves"]
    /\ map Card.title bs
       = ["The Seven Husbands of Evelyn Hugo"; "Beach Read";
          "The House in the Cerulean Sea"].
Proof.
  intros Hfail.
  destruct (POST_label_offline w fuel Recommendations.happy s Hfail)
    as (s' & set & Hpost & Hm & Hs & Hb).
  simpl in Hpost, Hm, Hs, Hb.
  exists s', set. do 3 eexists.
  split; [exact Hpost|].
  split; [rewrite Hm; vm_compute; reflexivity|].
  split; [rewrite Hs; vm_compute; reflexivity|].
  split; [rewrite Hb; vm_compute; reflexivity|].
  repeat split; vm_compute; reflexivity.
Qed.

Lemma happy_offline_lists_witness :
  exists s' set ms,
    Recommendations.POST 0 offline_world fresh_state
      (Recommendations.Payload (Some "happy"))
    = Finished {| Recommendations.status := 200;
                  Recommendations.body := Recommendations.Recs set |} s'
    /\ Recommendations.r_movies set = Own ms
    /\ map Card.title ms
       = ["The Grand Budapest Hotel"; "Paddington 2"; "The Princess Bride"].
Proof.
  destruct (happy_offline_lists offline_world fresh_state 0 offline_world_fails)
    as (s' & set & ms & ss & bs & Hpost & Hm & _ & _ & _ & _ & _ & Ht & _).
  exists s', set, ms. auto.
Defined.

Section Caps.

Import Recommendations.

Variable w : World.

Lemma POST_label_caps (fuel : nat) (e : Emotion) (s s' : State) (r : Response) :
  POST fuel w s (Payload (Some (label e))) = Finished r s' ->
  capped_at 10 15 10 r
  /\ forall set, body r = Recs set -> enhanced_backend set = false -> capped_at 3 3 3 r.
Proof.
  rewrite POST_label.
  destruct (enhanced w (label e) s) as [[r0|] s1] eqn:E.
  - intros H. inversion H; subst. clear H.
    destruct (enhanced_returns w _ _ _ _ E)
      as (ts & tb & set & Hts & Htb & -> & Hm & Hs & Hb & Hen).
    destruct (recommender_caps (recommender w) (label e) (recommender_state s))
      as (Cm & Cs & Cb).
    apply mapi_exc_length in Hts. apply mapi_exc_length in Htb.
    split.
    + set (tm := map transformMovie _) in Hm.
      assert (Hlm : List.length tm = List.length
                (CR.movies (fst (CR.getRecommendations (recommender w) (label e)
                                   (recommender_state s)))))
        by apply length_map.
      destruct (or_fallback_label e tm getFallbackMovies) as (ms & Hms & _ & Hm0 & Hm1);
        [simpl; auto|].
      destruct (or_fallback_label e ts getFallbackSongs) as (ss & Hss & _ & Hs0 & Hs1);
        [simpl; auto|].
      destruct (or_fallback_label e tb getGoodreadsStyleBooks)
        as (bs & Hbs & _ & Hb0 & Hb1); [simpl; auto|].
      exists set, ms, ss, bs. simpl. rewrite Hm, Hs, Hb.
      repeat split; auto.
      * destruct tm; [rewrite Hm0 by reflexivity; lia|].
        rewrite Hm1 by discriminate. lia.
      * destruct ts; [rewrite Hs0 by reflexivity; lia|].
        rewrite Hs1 by discriminate. lia.
      * destruct tb; [rewrite Hb0 by reflexivity; lia|].
        rewrite Hb1 by discriminate. lia.
    + intros set' Hset. simpl in Hset. inversion Hset; subst set'. congruence.
  - unfold original.
    destruct (fetchSpotifySongs fuel w (label e) (client_state s1))
      as [songsResult cs|cs] eqn:Es; [|discriminate].
    intros H. inversion H; subst. clear H.
    destruct (fetchMovies_label w e) as (ms & Hms & _ & Hml & _).
    destruct (fetchSpotifySongs_label w _ _ _ _ _ Es) as (ss & Hss & _ & Hsl & _).
    destruct (static_lists_of_label e getGoodreadsStyleBooks) as (a & b & c & Hg & _);
      [simpl; auto|].
    assert (C3 : capped_at 3 3 3
                   {| status := 200;
                      body := Recs {| r_movies := fetchMovies w (label e);
                                      r_songs := songsResult;
                                      r_books := fetchBooks w (label e);
                                      spotify_available := SpotifyClient.isSpotifyAvailable cs;
                                      omdb_configured := truthy_opt (omdbApiKey w);
                                      enhanced_backend := false;
                                      error := None |} |}).
    { eexists. exists ms, ss, [a; b; c]. simpl.
      rewrite fetchBooks_label, Hg. repeat split; auto. }
    split; [|intros; exact C3].
    destruct C3 as (set & ms' & ss' & bs' & H1 & H2 & H3 & H4 & H5 & H6 & H7).
    exists set, ms', ss', bs'. repeat split; auto; lia.
Qed.

End Caps.

(** C8, as the code has it.  The lists of a response for one of the seven
    labels are capped, at 10 movies, 15 songs and 10 books; a response of
    the original logic (not the enhanced recommender) has at most 3 items
    in each list. *)
Theorem recommendation_lists_capped
    (e : Recommendations.Emotion) (w : Recommendations.World)
    (s s' : Recommendations.State) (fuel : nat) (r : Recommendations.Response) :
  Recommendations.POST fuel w s
    (Recommendations.Payload (Some (Recommendations.label e))) = Finished r s' ->
  Recommendations.capped_at 10 15 10 r
  /\ forall set,
       Recommendations.body r = Recommendations.Recs set ->
       Recommendations.enhanced_backend set = false ->
       Recommendations.capped_at 3 3 3 r.
Proof. apply POST_label_caps. Qed.

(** The response of the handler in [cinema_world]. *)
Lemma cinema_response :
  exists set ms s',
    Recommendations.POST 0 cinema_world fresh_state
      (Recommendations.Payload (Some "happy"))
    = Finished {| Recommendations.status := 200;
                  Recommendations.body := Recommendations.Recs set |} s'
    /\ Recommendations.r_movies set = Own ms
    /\ List.length ms = 10%nat.
Proof.
  do 3 eexists. split; [vm_compute; reflexivity|].
  split; vm_compute; reflexivity.
Qed.

Lemma recommendation_lists_capped_witness :
  exists r s',
    Recommendations.POST 0 cinema_world fresh_state
      (Recommendations.Payload (Some "happy")) = Finished r s'
    /\ Recommendations.capped_at 10 15 10 r.
Proof.
  destruct cinema_response as (set & ms & s' & Hpost & _).
  do 2 eexists. split; [exact Hpost|].
  exact (proj1 (recommendation_lists_capped Recommendations.happy cinema_world
                  fresh_state s' 0 _ Hpost)).
Defined.

(** C8, as stated, fails: with a working movie provider the handler returns
    ten movies for [happy], more than a display size of three. *)
Lemma display_cap_counterexample :
  exists r s',
    Recommendations.POST 0 cinema_world fresh_state
      (Recommendations.Payload (Some "happy")) = Finished r s'
    /\ ~ Recommendations.capped_at 3 3 3 r.
Proof.
  destruct cinema_response as (set & ms & s' & Hpost & Hm & Hlen).
  do 2 eexists. split; [exact Hpost|].
  intros (set' & ms' & ss & bs & Hbody & Hm' & Hcap & _).
  simpl in Hbody. inversion Hbody; subst set'.
  rewrite Hm in Hm'. inversion Hm'; subst ms'. lia.
Qed.

(* ================================================================== *)
(** * Properties of the emotion detection route *)
(* ================================================================== *)

Section Detection.

Import EmotionDetection.

Variable w : World.

Lemma deepface_unreachable :
  failed (health_fetch w) \/ failed (deepface_fetch w) -> deepface w = None.
Proof.
  unfold deepface. intros [H|H].
  - destruct (health_fetch w) as [|st b]; simpl in H; [reflexivity|].
    now rewrite H.
  - destruct (health_fetch w) as [|st b]; [reflexivity|].
    destruct (status_ok st); [|reflexivity].
    destruct (deepface_fetch w) as [|st' [r|]]; simpl in H; try reflexivity.
    now rewrite H.
Qed.

Lemma facepp_unreachable (n : nat) (image : string) :
  truthy_opt (faceplus_key w) && truthy_opt (faceplus_secret w) = false
  \/ facepp_failed (facepp_fetch w n) ->
  success (detectWithFacePlusPlus w n image) = false.
Proof.
  unfold detectWithFacePlusPlus. intros [H|H].
  - apply andb_false_iff in H.
    destruct H as [-> | ->]; simpl; rewrite ?orb_true_r; reflexivity.
  - destruct (negb _ || negb _); [reflexivity|].
    destruct (negb (isValid _)); [reflexivity|].
    destruct (facepp_fetch w n) as [| | ? ? [?|] | |]; simpl in H;
      try reflexivity; contradiction.
Qed.

Lemma credentials_have_keys :
  hasFacePlusCredentials w = true ->
  truthy_opt (faceplus_key w) && truthy_opt (faceplus_secret w) = true.
Proof.
  unfold hasFacePlusCredentials. intros H.
  apply andb_true_iff in H. destruct H as [H _].
  apply andb_true_iff in H. destruct H as [H _]. exact H.
Qed.

(** With real detection required, the handler answers with an error
    whenever the local service and Face++ do not deliver. *)
Lemma forced_detection_error (image : option string) :
  failed (health_fetch w) \/ failed (deepface_fetch w) ->
  (truthy_opt (faceplus_key w) && truthy_opt (faceplus_secret w) = false
   \/ forall n, facepp_failed (facepp_fetch w n)) ->
  is_error (POST w (Payload image true)).
Proof.
  intros Hdeep Hfp. unfold POST.
  destruct (or_str image None) as [img|].
  2:{ split; [simpl; lia|]. eexists. left. reflexivity. }
  simpl.
  destruct (hasFacePlusCredentials w) eqn:Hcred; simpl.
  2:{ split; [simpl; lia|]. eexists. right. eexists. reflexivity. }
  rewrite (deepface_unreachable Hdeep).
  rewrite (facepp_unreachable 0 img).
  - split; [simpl; lia|]. eexists. right. eexists. reflexivity.
  - destruct Hfp as [H|H]; [left; exact H | right; apply H].
Qed.

(** The simulator answers only a request that does not require real
    detection. *)
Lemma simulation_not_forced (request : Request) :
  simulated (POST w request) ->
  exists image, request = Payload image false.
Proof.
  intros (result & note & H).
  destruct request as [message|image force]; simpl in H; [discriminate|].
  destruct force; [|eauto].
  exfalso. revert H.
  destruct (or_str image None) as [img|]; [|discriminate].
  simpl.
  destruct (hasFacePlusCredentials w); simpl; [|discriminate].
  destruct (deepface w); [discriminate|].
  destruct (success (detectWithFacePlusPlus w 0 img)); discriminate.
Qed.

End Detection.

(** C2.  When real detection is required and every real provider is
    unreachable or not configured, the response is an error: a status of
    400 or more with a message, and no detection result.  A response of the
    simulator answers only a request that does not require real
    detection. *)
Theorem forced_real_detection_never_simulated (w : EmotionDetection.World) :
  (forall image,
     EmotionDetection.no_real_provider w ->
     EmotionDetection.is_error
       (EmotionDetection.POST w (EmotionDetection.Payload image true)))
  /\ (forall request,
        EmotionDetection.simulated (EmotionDetection.POST w request) ->
        exists image, request = EmotionDetection.Payload image false).
Proof.
  split.
  - intros image H. apply forced_detection_error; apply H.
  - apply simulation_not_forced.
Qed.

Lemma dark_world_no_real_provider : EmotionDetection.no_real_provider dark_world.
Proof. constructor; simpl; auto. Qed.

Lemma forced_real_detection_never_simulated_witness :
  EmotionDetection.is_error
    (EmotionDetection.POST dark_world (EmotionDetection.Payload (Some selfie) true)).
Proof.
  exact (proj1 (forced_real_detection_never_simulated dark_world)
               (Some selfie) dark_world_no_real_provider).
Defined.

(** C9.  When the local service does not answer and Face++, called with
    configured keys on a valid image, answers successfully without a face,
    the handler returns a 200 response with a successful result:
    [face_detected] is false, the emotion is [neutral], and the
    distribution is the fixed default. *)
Theorem no_face_is_neutral_default
    (w : EmotionDetection.World) (image : string) (force : bool)
    (faces : option (list EmotionDetection.FaceppFace)) :
  EmotionDetection.deepface w = None ->
  truthy image = true ->
  truthy_opt (EmotionDetection.faceplus_key w) = true ->
  truthy_opt (EmotionDetection.faceplus_secret w) = true ->
  EmotionDetection.hasFacePlusCredentials w = true \/ force = false ->
  EmotionDetection.isValid (EmotionDetection.processImageForFacePlusPlus w image) = true ->
  EmotionDetection.facepp_fetch w 0 = EmotionDetection.FpOk faces ->
  faces = None \/ faces = Some [] ->
  exists result mode,
    EmotionDetection.POST w (EmotionDetection.Payload (Some image) force)
    = {| EmotionDetection.status := 200;
         EmotionDetection.body := EmotionDetection.Detection result mode None |}
    /\ EmotionDetection.success result = true
    /\ EmotionDetection.face_detected result = Some false
    /\ EmotionDetection.emotion result = Some "neutral"
    /\ EmotionDetection.all_emotions result
       = Some [ ("happy", 0.1); ("sad", 0.1); ("angry", 0.1); ("surprised", 0.1);
                ("neutral", 0.5); ("disgust", 0.05); ("fear", 0.05) ]%Q
    /\ EmotionDetection.service_used result = Some "faceplus".
Proof.
  intros Hdeep Himg Hkey Hsec Hcred Hvalid Hfetch Hfaces.
  assert (Hres : EmotionDetection.detectWithFacePlusPlus w 0 image
                 = EmotionDetection.no_face 0.3 (Some "faceplus")).
  { unfold EmotionDetection.detectWithFacePlusPlus.
    rewrite Hkey, Hsec, Hvalid, Hfetch. simpl.
    destruct Hfaces as [-> | ->]; reflexivity. }
  unfold EmotionDetection.POST.
  replace (or_str (Some image) None) with (Some image)
    by (unfold or_str; simpl; now rewrite Himg).
  destruct (EmotionDetection.hasFacePlusCredentials w) eqn:Hc.
  - rewrite andb_false_r. rewrite Hdeep, Hres. simpl.
    do 2 eexists. split; [reflexivity|]. repeat split; reflexivity.
  - destruct Hcred as [Hcred | ->]; [discriminate|]. simpl.
    rewrite Hdeep. unfold EmotionDetection.cloud_or_simulation,
      EmotionDetection.detectEmotionWithAI.
    rewrite Hres. simpl.
    do 2 eexists. split; [reflexivity|]. repeat split; reflexivity.
Qed.

Lemma no_face_is_neutral_default_witness :
  exists result mode,
    EmotionDetection.POST (facepp_world (EmotionDetection.FpOk (Some [])))
      (EmotionDetection.Payload (Some selfie) false)
    = {| EmotionDetection.status := 200;
         EmotionDetection.body := EmotionDetection.Detection result mode None |}
    /\ EmotionDetection.face_detected result = Some false
    /\ EmotionDetection.emotion result = Some "neutral".
Proof.
  destruct (no_face_is_neutral_default
              (facepp_world (EmotionDetection.FpOk (Some []))) selfie false (Some []))
    as (result & mode & Hpost & _ & Hface & Hemotion & _);
    try reflexivity; auto.
  exists result, mode. auto.
Defined.

(** C3 (the code departs from the claim).  When Google Vision is the
    provider that answers and it finds joy very likely, the handler returns
    a successful result whose distribution sums to 1.8: the four likelihoods
    overwrite entries of the default distribution and nothing is
    renormalized. *)
Theorem vision_distribution_not_normalized :
  exists result distribution,
    EmotionDetection.POST vision_world (EmotionDetection.Payload (Some selfie) false)
    = {| EmotionDetection.status := 200;
         EmotionDetection.body := EmotionDetection.Detection result "cloud_ai" None |}
    /\ EmotionDetection.success result = true
    /\ EmotionDetection.all_emotions result = Some distribution
    /\ EmotionDetection.total distribution == 1.8
    /\ ~ EmotionDetection.sums_to_one result.
Proof.
  do 2 eexists. split; [vm_compute; reflexivity|].
  split; [reflexivity|]. split; [reflexivity|]. split.
  - vm_compute. reflexivity.
  - intros (d & Hd & Habs). simpl in Hd. inversion Hd; subst d. clear Hd.
    apply Qle_bool_iff in Habs. vm_compute in Habs. discriminate.
Qed.

Section Objects.

Context {A : Type}.

Lemma own_get_own_set_same (o : JSObject A) (k : string) (v : A) :
  own_get (own_set o k v) k = Some v.
Proof.
  induction o as [|[k' v'] o IH]; simpl.
  - now rewrite String.eqb_refl.
  - destruct (String.eqb k k') eqn:E; simpl; rewrite E; auto.
Qed.

Lemma own_get_own_set_other (o : JSObject A) (k k' : string) (v : A) :
  k' <> k -> own_get (own_set o k v) k' = own_get o k'.
Proof.
  intros Hne. induction o as [|[k0 v0] o IH]; simpl.
  - apply String.eqb_neq in Hne. now rewrite Hne.
  - destruct (String.eqb k k0) eqn:E; simpl.
    + apply String.eqb_eq in E. subst k0.
      apply String.eqb_neq in Hne. now rewrite Hne.
    + destruct (String.eqb k' k0); auto.
Qed.

Lemma js_set_own_set (o : JSObject A) (k : string) (v : A) :
  k <> "__proto__" -> js_set o k v = own_set o k v.
Proof.
  intros Hne. unfold js_set. apply String.eqb_neq in Hne. now rewrite Hne.
Qed.


End Objects.

Section ScoringLoop.

Import EmotionDetection.

Lemma Qgtb_true (a b : Q) : Qgtb a b = true -> b < a.
Proof.
  unfold Qgtb. intros H. apply negb_true_iff in H.
  apply Qnot_le_lt. intros Hle. apply Qle_bool_iff in Hle. congruence.
Qed.

Lemma Qgtb_false (a b : Q) : Qgtb a b = false -> a <= b.
Proof.
  unfold Qgtb. intros H. apply negb_false_iff in H. now apply Qle_bool_iff.
Qed.




End ScoringLoop.

Section Providers.

Import EmotionDetection.

Variable w : World.










End Providers.

Section ObjectShape.

Context {A : Type}.

Lemma keys_own_set_in (o : JSObject A) (k : string) (v : A) :
  In k (keys o) -> keys (own_set o k v) = keys o.
Proof.
  induction o as [|[k' v'] o IH]; simpl; [contradiction|].
  intros Hin. destruct (String.eqb k k') eqn:E; simpl; [reflexivity|].
  f_equal. apply IH. destruct Hin as [Heq|Hin]; [|exact Hin].
  apply String.eqb_neq in E. congruence.
Qed.

Lemma keys_own_set_new (o : JSObject A) (k : string) (v : A) :
  ~ In k (keys o) -> keys (own_set o k v) = (keys o ++ [k])%list.
Proof.
  induction o as [|[k' v'] o IH]; simpl; [reflexivity|].
  intros Hnin. destruct (String.eqb k k') eqn:E; simpl.
  - apply String.eqb_eq in E. subst. contradiction Hnin. auto.
  - f_equal. apply IH. intros H. apply Hnin. auto.
Qed.

Lemma keys_js_set_in (o : JSObject A) (k : string) (v : A) :
  In k (keys o) -> keys (js_set o k v) = keys o.
Proof.
  intros Hin. unfold js_set. destruct (String.eqb k "__proto__"); [reflexivity|].
  now apply keys_own_set_in.
Qed.

Lemma js_set_wf (o : JSObject A) (k : string) (v : A) :
  obj_wf o -> obj_wf (js_set o k v).
Proof.
  intros [Hnd Hp]. unfold js_set.
  destruct (String.eqb k "__proto__") eqn:E; [split; assumption|].
  apply String.eqb_neq in E.
  destruct (in_dec string_dec k (keys o)) as [Hin|Hnin].
  - unfold obj_wf. rewrite keys_own_set_in by exact Hin. split; assumption.
  - unfold obj_wf. rewrite keys_own_set_new by exact Hnin. split.
    + apply NoDup_app; [exact Hnd | repeat constructor; simpl; tauto |].
      intros x Hx [<-|[]]. contradiction.
    + intros H. apply in_app_or in H. destruct H as [H|[H|[]]]; [contradiction|].
      congruence.
Qed.

Lemma own_get_app_new (done rest : JSObject A) (k : string) (v : A) :
  ~ In k (keys done) -> own_get (done ++ (k, v) :: rest)%list k = Some v.
Proof.
  induction done as [|[k' v'] done IH]; simpl; intros Hnin.
  - now rewrite String.eqb_refl.
  - destruct (String.eqb k k') eqn:E.
    + apply String.eqb_eq in E. subst. contradiction Hnin. auto.
    + apply IH. intros H. apply Hnin. auto.
Qed.

Lemma own_set_app_new (done rest : JSObject A) (k : string) (v x : A) :
  ~ In k (keys done) ->
  own_set (done ++ (k, v) :: rest)%list k x = (done ++ (k, x) :: rest)%list.
Proof.
  induction done as [|[k' v'] done IH]; simpl; intros Hnin.
  - now rewrite String.eqb_refl.
  - destruct (String.eqb k k') eqn:E.
    + apply String.eqb_eq in E. subst. contradiction Hnin. auto.
    + f_equal. apply IH. intros H. apply Hnin. auto.
Qed.


Lemma In_own_get (o : JSObject A) (k : string) (v : A) :
  NoDup (keys o) -> In (k, v) o -> own_get o k = Some v.
Proof.
  induction o as [|[k' v'] o IH]; simpl; [contradiction|].
  intros Hnd [Heq|Hin].
  - inversion Heq; subst. now rewrite String.eqb_refl.
  - inversion Hnd as [|? ? Hnin Hnd']; subst.
    destruct (String.eqb k k') eqn:E; [|auto].
    apply String.eqb_eq in E. subst. contradiction Hnin.
    apply in_map_iff. exists (k', v). auto.
Qed.

Lemma own_get_map (f : A -> A) (o : JSObject A) (k : string) :
  own_get (map (fun e => (fst e, f (snd e))) o) k = option_map f (own_get o k).
Proof.
  induction o as [|[k' v'] o IH]; simpl; [reflexivity|].
  destruct (String.eqb k k'); auto.
Qed.

End ObjectShape.

Section Totals.

Import EmotionDetection.

Lemma fold_Qplus_compat (l : list Q) (a b : Q) :
  a == b -> fold_left Qplus l a == fold_left Qplus l b.
Proof.
  revert a b. induction l as [|x l IH]; intros a b H; simpl; [exact H|].
  apply IH. now rewrite H.
Qed.

Lemma fold_Qplus_shift (l : list Q) (a : Q) :
  fold_left Qplus l a == a + fold_left Qplus l 0.
Proof.
  revert a. induction l as [|x l IH]; intros a; simpl.
  - ring.
  - rewrite IH. rewrite (IH (0 + x)). ring.
Qed.

Lemma total_cons (k : string) (v : Q) (o : JSObject Q) :
  total ((k, v) :: o) == v + total o.
Proof.
  unfold total. simpl. rewrite fold_Qplus_shift. ring.
Qed.




(** On a well-formed object, normalizing divides every value by the
    total. *)
Lemma normalized_aux (t : Q) (todo : JSObject Q) :
  forall done : JSObject Q,
    NoDup (keys (done ++ todo)%list) ->
    ~ In "__proto__"%string (keys todo) ->
    fold_left (fun acc emotion => js_set acc emotion (num_get acc emotion / t))
              (keys todo) (done ++ todo)%list
    = (done ++ map (fun e => (fst e, snd e / t)) todo)%list.
Proof.
  induction todo as [|[k v] todo IH]; intros done Hnd Hp.
  - reflexivity.
  - simpl in Hp. simpl keys. simpl fold_left.
    assert (Hk : ~ In k (keys done)).
    { unfold keys in Hnd. rewrite map_app in Hnd. simpl in Hnd.
      apply NoDup_remove_2 in Hnd. intros H. apply Hnd. apply in_or_app. auto. }
    rewrite js_set_own_set by (intros ->; apply Hp; auto).
    unfold num_get. rewrite own_get_app_new by exact Hk.
    rewrite own_set_app_new by exact Hk.
    replace (done ++ (k, v / t) :: todo)%list
      with ((done ++ [(k, v / t)]) ++ todo)%list
      by (rewrite <- app_assoc; reflexivity).
    rewrite IH.
    + rewrite <- app_assoc. reflexivity.
    + unfold keys in *. rewrite <- app_assoc. simpl.
      rewrite map_app in *. simpl in *. exact Hnd.
    + intros H. apply Hp. auto.
Qed.

Lemma normalized_map (o : JSObject Q) :
  obj_wf o -> normalized o = map (fun e => (fst e, snd e / total o)) o.
Proof.
  intros [Hnd Hp]. unfold normalized.
  apply (normalized_aux (total o) o []); assumption.
Qed.


End Totals.

Section Simulator.

Import EmotionDetection.




Lemma select_in (entries : JSObject Q) :
  forall randomValue,
    select entries randomValue = "neutral"%string
    \/ In (select entries randomValue) (keys entries).
Proof.
  induction entries as [|[k p] entries IH]; intros r; simpl; [auto|].
  destruct (Qle_bool (r - p) 0); [auto|].
  destruct (IH (r - p)); auto.
Qed.

Lemma keys_add_to (o : JSObject Q) (k : string) (d : Q) :
  In k (keys o) -> keys (add_to o k d) = keys o.
Proof. apply keys_js_set_in. Qed.

Lemma keys_fold_set (f : JSObject Q -> string -> Q) (ks : list string) :
  forall o, (forall k, In k ks -> In k (keys o)) ->
            keys (fold_left (fun acc k => js_set acc k (f acc k)) ks o) = keys o.
Proof.
  induction ks as [|k ks IH]; intros o H; simpl; [reflexivity|].
  rewrite IH.
  - apply keys_js_set_in. apply H. simpl. auto.
  - intros k' Hin. rewrite keys_js_set_in by (apply H; simpl; auto).
    apply H. simpl. auto.
Qed.

Lemma keys_normalized (o : JSObject Q) : keys (normalized o) = keys o.
Proof.
  unfold normalized.
  apply (keys_fold_set (fun acc k => num_get acc k / total o)). auto.
Qed.

Lemma keys_variance_applied (v : Q) (o : JSObject Q) :
  keys (variance_applied v o) = keys o.
Proof.
  unfold variance_applied.
  assert (H : forall ks o', (forall k, In k ks -> In k (keys o')) ->
            keys (fold_left
                    (fun acc emotion =>
                       if String.eqb emotion "happy" || String.eqb emotion "surprised"
                       then scale acc emotion (1 + v * 0.3)
                       else if String.eqb emotion "sad" || String.eqb emotion "angry"
                       then scale acc emotion (1 - v * 0.2)
                       else acc) ks o') = keys o').
  { induction ks as [|k ks IH]; intros o' Hin; simpl; [reflexivity|].
    assert (Hk : In k (keys o')) by (apply Hin; simpl; auto).
    destruct (_ || _); [|destruct (_ || _)];
      rewrite IH; unfold scale; rewrite ?keys_js_set_in by exact Hk;
      try reflexivity; intros k' Hk'; apply Hin; simpl; auto. }
  apply H. auto.
Qed.

Lemma keys_emotionProbabilities (w : World) (v : Q) :
  keys (emotionProbabilities w v) = labels.
Proof.
  unfold emotionProbabilities.
  rewrite keys_normalized, keys_variance_applied.
  unfold day_adjusted, time_adjusted.
  destruct (is_weekend (dayOfWeek w));
    destruct ((6 <=? timeOfDay w) && (timeOfDay w <=? 10))%nat;
    destruct ((18 <=? timeOfDay w) && (timeOfDay w <=? 22))%nat;
    destruct ((22 <=? timeOfDay w) || (timeOfDay w <=? 5))%nat;
    reflexivity.
Qed.

Lemma baseConfidence_range (primaryEmotion : string) :
  In primaryEmotion labels ->
  exists lo hi,
    own_get baseConfidence primaryEmotion = Some (lo, hi)
    /\ 0.6 <= lo /\ lo <= hi /\ hi <= 0.95.
Proof.
  intros Hin. simpl in Hin.
  repeat (destruct Hin as [<-|Hin];
          [do 2 eexists; split; [reflexivity|]; repeat split; unfold Qle; simpl; lia|]).
  destruct Hin.
Qed.

End Simulator.

Section SimulatorResult.

Import EmotionDetection.

Variable w : World.
Hypothesis random_ok : random_unit w.


End SimulatorResult.






(* ================================================================== *)
(** * Properties of the analytics route *)
(* ================================================================== *)

Section ObjectBuilding.

Context {A : Type}.

Lemma own_set_fresh (o : JSObject A) (k : string) (v : A) :
  ~ In k (keys o) -> own_set o k v = (o ++ [(k, v)])%list.
Proof.
  induction o as [|[k' v'] o IH]; simpl; intros Hnin; [reflexivity|].
  destruct (String.eqb k k') eqn:E.
  - apply String.eqb_eq in E. subst. contradiction Hnin. auto.
  - f_equal. apply IH. intros H. apply Hnin. auto.
Qed.

(** Filling an object key by key, with keys it does not hold yet. *)
Lemma fold_js_set_fresh (f : string -> A) (ks : list string) :
  forall acc : JSObject A,
    NoDup (keys acc ++ ks)%list ->
    ~ In "__proto__" ks ->
    fold_left (fun o k => js_set o k (f k)) ks acc
    = (acc ++ map (fun k => (k, f k)) ks)%list.
Proof.
  induction ks as [|k ks IH]; intros acc Hnd Hp; simpl.
  - now rewrite app_nil_r.
  - rewrite js_set_own_set by (intros ->; apply Hp; simpl; auto).
    rewrite own_set_fresh
      by (apply NoDup_remove_2 in Hnd; intros H; apply Hnd, in_or_app; auto).
    rewrite IH.
    + now rewrite <- app_assoc.
    + unfold keys in *. rewrite map_app, <- app_assoc. exact Hnd.
    + intros H. apply Hp. simpl. auto.
Qed.

Lemma own_get_tabulate (f : string -> A) (ks : list string) (k : string) :
  own_get (map (fun k => (k, f k)) ks) k
  = if in_dec string_dec k ks then Some (f k) else None.
Proof.
  induction ks as [|k' ks IH]; simpl; [reflexivity|].
  destruct (String.eqb k k') eqn:E.
  - apply String.eqb_eq in E. subst.
    destruct (string_dec k' k'); [reflexivity | congruence].
  - apply String.eqb_neq in E. rewrite IH.
    destruct (string_dec k' k); [congruence|].
    destruct (in_dec string_dec k ks); reflexivity.
Qed.

Lemma own_get_keys (o : JSObject A) (k : string) :
  In k (keys o) <-> own_get o k <> None.
Proof.
  induction o as [|[k' v] o IH]; simpl; [tauto|].
  destruct (String.eqb k k') eqn:E.
  - apply String.eqb_eq in E. subst. split; [discriminate | auto].
  - apply String.eqb_neq in E. rewrite <- IH. split; [|auto].
    intros [H|H]; [congruence | exact H].
Qed.

Lemma sum_own_set (f : A -> nat) (o : JSObject A) (k : string) (v : A) :
  (list_sum (map (fun e => f (snd e)) (own_set o k v))
   + match own_get o k with Some old => f old | None => 0 end
   = list_sum (map (fun e => f (snd e)) o) + f v)%nat.
Proof.
  induction o as [|[k' v'] o IH]; simpl; [lia|].
  destruct (String.eqb k k'); simpl; lia.
Qed.

End ObjectBuilding.

Section Analytics.

Import EmotionAnalytics.

Lemma counted_snoc (h : list EmotionData) (d : EmotionData) :
  counted (h ++ [d]) = count_detection (counted h) d.
Proof. unfold counted. now rewrite fold_left_app. Qed.

(** The counts never hold a key twice, nor an own [__proto__]. *)
Lemma counted_wf (h : list EmotionData) : obj_wf (counted h).
Proof.
  induction h as [|d h IH] using rev_ind.
  - split; [constructor | simpl; tauto].
  - rewrite counted_snoc. now apply js_set_wf.
Qed.

Lemma occurrences_snoc (k : string) (h : list EmotionData) (d : EmotionData) :
  occurrences k (h ++ [d])
  = (occurrences k h + if String.eqb (emotion d) k then 1 else 0)%nat.
Proof.
  unfold occurrences. rewrite filter_app, length_app. simpl.
  destruct (String.eqb (emotion d) k); reflexivity.
Qed.

Lemma occurrences_le_length (k : string) (h : list EmotionData) :
  (occurrences k h <= List.length h)%nat.
Proof. apply filter_length_le. Qed.

Lemma plain_not_proto (k : string) : is_inherited k = false -> k <> "__proto__".
Proof. intros H ->. discriminate. Qed.

(** On plain labels the loop counts the detections of every label. *)
Lemma counted_get (h : list EmotionData) :
  plain_labels h ->
  forall k, own_get (counted h) k
            = if (occurrences k h =? 0)%nat then None
              else Some (Num (occurrences k h)).
Proof.
  induction h as [|d h IH] using rev_ind; intros Hp k; [reflexivity|].
  apply Forall_app in Hp. destruct Hp as [Hp Hd].
  inversion Hd as [|? ? Hplain _]; subst.
  rewrite counted_snoc, occurrences_snoc. unfold count_detection.
  rewrite js_set_own_set by (now apply plain_not_proto).
  destruct (String.eqb (emotion d) k) eqn:E.
  - apply String.eqb_eq in E. subst k. rewrite own_get_own_set_same.
    unfold js_get. rewrite (IH Hp).
    destruct (occurrences (emotion d) h =? 0)%nat eqn:E0.
    + rewrite Hplain. simpl. apply Nat.eqb_eq in E0. rewrite E0. reflexivity.
    + simpl. replace (occurrences (emotion d) h + 1 =? 0)%nat with false
        by (symmetry; apply Nat.eqb_neq; lia).
      do 2 f_equal. lia.
  - apply String.eqb_neq in E.
    rewrite own_get_own_set_other by congruence.
    rewrite (IH Hp), Nat.add_0_r. reflexivity.
Qed.

Lemma counted_values (h : list EmotionData) :
  plain_labels h ->
  forall k c, In (k, c) (counted h) ->
              c = Num (occurrences k h) /\ (0 < occurrences k h)%nat.
Proof.
  intros Hp k c Hin.
  apply (In_own_get _ _ _ (proj1 (counted_wf h))) in Hin.
  rewrite (counted_get h Hp) in Hin.
  destruct (occurrences k h =? 0)%nat eqn:E; [discriminate|].
  apply Nat.eqb_neq in E. inversion Hin. split; [reflexivity | lia].
Qed.

(** The counts add up to the number of detections. *)
Lemma counted_sum (h : list EmotionData) :
  plain_labels h ->
  list_sum (map (fun e => count_value (snd e)) (counted h)) = List.length h.
Proof.
  induction h as [|d h IH] using rev_ind; intros Hp; [reflexivity|].
  apply Forall_app in Hp. destruct Hp as [Hp Hd].
  inversion Hd as [|? ? Hplain _]; subst.
  rewrite counted_snoc, length_app. simpl. unfold count_detection.
  rewrite js_set_own_set by (now apply plain_not_proto).
  pose proof (sum_own_set count_value (counted h) (emotion d)
                (incremented (js_get (counted h) (emotion d)))) as Hs.
  unfold js_get in *. rewrite (counted_get h Hp) in *.
  rewrite (IH Hp) in Hs.
  destruct (occurrences (emotion d) h =? 0)%nat.
  - rewrite Hplain in Hs |- *. simpl in Hs |- *. lia.
  - simpl in Hs |- *. lia.
Qed.

(** The second loop gives every key of the counts its percentage. *)
Lemma percentages_map (counts : JSObject Count) (n : nat) :
  obj_wf counts ->
  percentages counts n
  = map (fun k => (k, percentage (js_get counts k) n)) (keys counts).
Proof.
  intros [Hnd Hp]. unfold percentages.
  apply (fold_js_set_fresh (fun k => percentage (js_get counts k) n) (keys counts) []);
    assumption.
Qed.

Lemma keys_percentages (counts : JSObject Count) (n : nat) :
  obj_wf counts -> keys (percentages counts n) = keys counts.
Proof.
  intros Hwf. rewrite percentages_map by exact Hwf.
  unfold keys. rewrite map_map. simpl. apply map_id.
Qed.

Lemma count_detection_proto (acc : JSObject Count) (d : EmotionData) :
  emotion d = "__proto__" -> count_detection acc d = acc.
Proof. intros H. unfold count_detection, js_set. now rewrite H. Qed.

Lemma keys_count_detection (acc : JSObject Count) (d : EmotionData) :
  emotion d <> "__proto__" -> In (emotion d) (keys (count_detection acc d)).
Proof.
  intros H. unfold count_detection. rewrite js_set_own_set by exact H.
  apply own_get_keys. rewrite own_get_own_set_same. discriminate.
Qed.

Lemma keys_count_detection_mono (acc : JSObject Count) (d : EmotionData) (k : string) :
  In k (keys acc) -> In k (keys (count_detection acc d)).
Proof.
  intros H. unfold count_detection, js_set.
  destruct (String.eqb (emotion d) "__proto__"); [exact H|].
  apply own_get_keys. apply own_get_keys in H.
  destruct (string_dec k (emotion d)) as [->|Hne].
  - rewrite own_get_own_set_same. discriminate.
  - now rewrite own_get_own_set_other.
Qed.

(** A label other than [__proto__] that occurs in the history is a key of
    the counts. *)
Lemma counted_keys_mem (h : list EmotionData) (d : EmotionData) :
  In d h -> emotion d <> "__proto__" -> In (emotion d) (keys (counted h)).
Proof.
  induction h as [|x h IH] using rev_ind; intros Hin Hne; [contradiction|].
  rewrite counted_snoc. apply in_app_or in Hin. destruct Hin as [Hin|[->|[]]].
  - apply keys_count_detection_mono. now apply IH.
  - now apply keys_count_detection.
Qed.

Lemma counted_all_proto (h : list EmotionData) :
  Forall (fun d => emotion d = "__proto__") h -> counted h = [].
Proof.
  induction h as [|x h IH] using rev_ind; intros H; [reflexivity|].
  apply Forall_app in H. destruct H as [H Hx]. inversion Hx; subst.
  rewrite counted_snoc, count_detection_proto by assumption. now apply IH.
Qed.

(** The fields of an analysis of a history that is not empty. *)
Lemma analysis_fields (h : list EmotionData) (a : EmotionAnalytics) :
  h <> [] ->
  analyzeEmotionHistory h = Ret a ->
  totalDetections a = List.length h
  /\ averageConfidence a
     = (summed h / EmotionDetection.nat_Q (List.length h))%Q
  /\ emotionDistribution a = percentages (counted h) (List.length h)
  /\ moodTrend a = determineMoodTrend (map emotion (slice_last3 h))
  /\ generateRecommendations (emotionDistribution a) (moodTrend a)
     = Ret (recommendations a).
Proof.
  intros Hne H. destruct h as [|d h]; [contradiction|].
  unfold analyzeEmotionHistory in H.
  destruct (generateRecommendations _ _) as [recs|] eqn:E; [|discriminate].
  inversion H; subst. simpl. repeat split; try reflexivity. exact E.
Qed.

(** The analysis returns as soon as one detection carries a label other
    than [__proto__]. *)
Lemma analysis_returns (h : list EmotionData) (d : EmotionData) :
  In d h -> emotion d <> "__proto__" ->
  exists a, analyzeEmotionHistory h = Ret a.
Proof.
  intros Hin Hne. pose proof (counted_keys_mem h d Hin Hne) as Hk.
  destruct h as [|x h]; [contradiction|].
  unfold analyzeEmotionHistory, generateRecommendations.
  rewrite keys_percentages by apply counted_wf.
  destruct (keys (counted (x :: h))) as [|k ks]; [contradiction|].
  simpl. eexists. reflexivity.
Qed.

Lemma analysis_throws (h : list EmotionData) :
  h <> [] -> Forall (fun d => emotion d = "__proto__") h ->
  exists message, analyzeEmotionHistory h = Throw message.
Proof.
  intros Hne H. destruct h as [|x h]; [contradiction|].
  unfold analyzeEmotionHistory. rewrite (counted_all_proto _ H).
  simpl. eexists. reflexivity.
Qed.

Lemma slice_last3_app (older recent : list EmotionData) :
  List.length recent = 3%nat -> slice_last3 (older ++ recent) = recent.
Proof.
  intros H. unfold slice_last3. rewrite length_app, H.
  replace (List.length older + 3 - 3)%nat with (List.length older + 0)%nat by lia.
  rewrite skipn_app, Nat.add_0_r, skipn_all.
  replace (List.length older - List.length older)%nat with 0%nat by lia.
  reflexivity.
Qed.

Lemma determineMoodTrend_values (recentEmotions : list string) :
  In (determineMoodTrend recentEmotions) ["improving"; "declining"; "stable"].
Proof.
  unfold determineMoodTrend.
  destruct (_ <? _)%nat; [simpl; auto|].
  destruct (_ <? _)%nat; simpl; auto.
Qed.

End Analytics.

(** X1.  For a history that is not empty and whose labels are not names of
    properties inherited from [Object.prototype], the analysis returns, it
    counts every detection, and the distribution holds for every label that
    occurs its share of the detections in percent, and no entry for a label
    that does not occur. *)
Theorem analytics_distribution_is_share (h : list EmotionAnalytics.EmotionData) :
  h <> [] ->
  EmotionAnalytics.plain_labels h ->
  exists a,
    EmotionAnalytics.analyzeEmotionHistory h = Ret a
    /\ EmotionAnalytics.totalDetections a = List.length h
    /\ forall k,
         own_get (EmotionAnalytics.emotionDistribution a) k
         = if (EmotionAnalytics.occurrences k h =? 0)%nat then None
           else Some (Some (EmotionAnalytics.share_of k h)).
Proof.
  intros Hne Hp.
  assert (Hret : exists a, EmotionAnalytics.analyzeEmotionHistory h = Ret a).
  { destruct h as [|d h]; [contradiction|].
    apply (analysis_returns (d :: h) d); [simpl; auto|].
    apply plain_not_proto. now inversion Hp. }
  destruct Hret as [a Ha]. exists a. split; [exact Ha|].
  destruct (analysis_fields h a Hne Ha) as (Hn & _ & Hd & _).
  split; [exact Hn|]. intros k. rewrite Hd.
  rewrite percentages_map by apply counted_wf.
  rewrite (own_get_tabulate
             (fun k => EmotionAnalytics.percentage
                         (js_get (EmotionAnalytics.counted h) k) (List.length h))).
  pose proof (counted_get h Hp k) as Hget.
  destruct (in_dec string_dec k (keys (EmotionAnalytics.counted h))) as [Hin|Hnin].
  - apply own_get_keys in Hin.
    destruct (EmotionAnalytics.occurrences k h =? 0)%nat; [congruence|].
    unfold js_get. rewrite Hget. reflexivity.
  - destruct (EmotionAnalytics.occurrences k h =? 0)%nat; [reflexivity|].
    contradiction Hnin. apply own_get_keys. rewrite Hget. discriminate.
Qed.

Lemma analytics_distribution_is_share_witness :
  exists a,
    EmotionAnalytics.analyzeEmotionHistory week_history = Ret a
    /\ EmotionAnalytics.totalDetections a = 4%nat
    /\ forall k,
         own_get (EmotionAnalytics.emotionDistribution a) k
         = if (EmotionAnalytics.occurrences k week_history =? 0)%nat then None
           else Some (Some (EmotionAnalytics.share_of k week_history)).
Proof.
  apply (analytics_distribution_is_share week_history).
  - discriminate.
  - repeat constructor.
Defined.

Section AnalyticsShares.

Import EmotionDetection.
Import EmotionAnalytics.

Local Open Scope Q_scope.

Lemma nat_Q_pos (n : nat) : (0 < n)%nat -> 0 < nat_Q n.
Proof.
  intros H. unfold nat_Q. change 0 with (inject_Z 0). rewrite <- Zlt_Qlt. lia.
Qed.

Lemma nat_Q_le (a b : nat) : nat_Q a <= nat_Q b <-> (a <= b)%nat.
Proof. unfold nat_Q. rewrite <- Zle_Qle. lia. Qed.

Lemma length_pos (h : list EmotionData) : h <> [] -> (0 < List.length h)%nat.
Proof. destruct h; [contradiction | simpl; lia]. Qed.

(** A greater share is a greater number of detections. *)
Lemma share_of_le (k k' : string) (h : list EmotionData) :
  h <> [] ->
  share_of k h <= share_of k' h ->
  (occurrences k h <= occurrences k' h)%nat.
Proof.
  intros Hne H. apply nat_Q_le.
  pose proof (nat_Q_pos _ (length_pos h Hne)) as HL.
  assert (Hc : 0 < / nat_Q (List.length h) * 100).
  { apply Qmult_lt_0_compat; [now apply Qinv_lt_0_compat | reflexivity]. }
  unfold share_of, Qdiv in H. rewrite <- !Qmult_assoc in H.
  now apply Qmult_le_r in H.
Qed.

(** [reduce] with the comparison of the source returns a key whose value no
    other key exceeds. *)
Lemma reduce_maximal (val : string -> Q) (f : string -> string -> string) :
  forall (l : list string) (x : string),
    (forall a b, In a (x :: l) -> In b (x :: l) ->
                 f a b = if Qgtb (val a) (val b) then a else b) ->
    In (fold_left f l x) (x :: l)
    /\ forall k, In k (x :: l) -> val k <= val (fold_left f l x).
Proof.
  induction l as [|b l IH]; intros x Hf.
  - simpl. split; [auto|]. intros k [<-|[]]. apply Qle_refl.
  - simpl fold_left.
    assert (Hstep : f x b = if Qgtb (val x) (val b) then x else b)
      by (apply Hf; simpl; auto).
    assert (Hin : In (f x b) (x :: b :: l))
      by (rewrite Hstep; destruct (Qgtb (val x) (val b)); simpl; auto).
    assert (Hx : val x <= val (f x b) /\ val b <= val (f x b)).
    { rewrite Hstep. destruct (Qgtb (val x) (val b)) eqn:E.
      - apply Qgtb_true in E. split; [apply Qle_refl | now apply Qlt_le_weak].
      - apply Qgtb_false in E. split; [exact E | apply Qle_refl]. }
    destruct (IH (f x b)) as [Hr Hmax].
    { intros a c Ha Hc. apply Hf.
      - destruct Ha as [<-|Ha]; [exact Hin | simpl; auto].
      - destruct Hc as [<-|Hc]; [exact Hin | simpl; auto]. }
    split.
    + destruct Hr as [Hr|Hr]; [rewrite <- Hr; exact Hin | simpl; auto].
    + intros k [<-|[<-|Hk]].
      * eapply Qle_trans; [apply Hx | apply Hmax; simpl; auto].
      * eapply Qle_trans; [apply Hx | apply Hmax; simpl; auto].
      * apply Hmax. simpl. auto.
Qed.

End AnalyticsShares.

(** X2.  For a history that is not empty and whose labels are not names of
    properties inherited from [Object.prototype], the distribution of the
    analysis accounts for every detection exactly once: it has one entry
    for each label that occurs in the history, none for any other label,
    and the numbers of detections of its labels add up to the length of
    the history. *)
Theorem analytics_distribution_accounts_for_all (h : list EmotionAnalytics.EmotionData) :
  h <> [] ->
  EmotionAnalytics.plain_labels h ->
  exists a,
    EmotionAnalytics.analyzeEmotionHistory h = Ret a
    /\ NoDup (keys (EmotionAnalytics.emotionDistribution a))
    /\ (forall k,
          In k (keys (EmotionAnalytics.emotionDistribution a))
          <-> exists d, In d h /\ EmotionAnalytics.emotion d = k)
    /\ list_sum (map (fun k => EmotionAnalytics.occurrences k h)
                     (keys (EmotionAnalytics.emotionDistribution a)))
       = List.length h.
Proof.
  intros Hne Hp.
  assert (Hret : exists a, EmotionAnalytics.analyzeEmotionHistory h = Ret a).
  { destruct h as [|d h]; [contradiction|].
    apply (analysis_returns (d :: h) d); [simpl; auto|].
    apply plain_not_proto. now inversion Hp. }
  destruct Hret as [a Ha].
  destruct (analysis_fields h a Hne Ha) as (_ & _ & Hd & _).
  assert (Hkeys : keys (EmotionAnalytics.emotionDistribution a)
                  = keys (EmotionAnalytics.counted h))
    by (rewrite Hd; apply keys_percentages, counted_wf).
  exists a. split; [exact Ha|]. rewrite Hkeys. split; [apply counted_wf|]. split.
  - intros k. rewrite own_get_keys, (counted_get h Hp k).
    unfold EmotionAnalytics.occurrences.
    destruct (filter _ h) as [|d ds] eqn:Ef; simpl.
    + split; [congruence|]. intros (d & Hin & Hk).
      assert (Hd' : In d (filter (fun detection =>
                                    String.eqb (EmotionAnalytics.emotion detection) k) h))
        by (apply filter_In; split; [exact Hin | now apply String.eqb_eq]).
      rewrite Ef in Hd'. contradiction.
    + split; [|discriminate]. intros _. exists d.
      assert (Hd' : In d (filter (fun detection =>
                                    String.eqb (EmotionAnalytics.emotion detection) k) h))
        by (rewrite Ef; simpl; auto).
      apply filter_In in Hd'. destruct Hd' as [Hin Hk].
      split; [exact Hin | now apply String.eqb_eq].
  - rewrite <- (counted_sum h Hp). unfold keys. rewrite map_map.
    f_equal. apply map_ext_in. intros [k c] Hin.
    destruct (counted_values h Hp k c Hin) as [-> _]. reflexivity.
Qed.

Lemma analytics_distribution_accounts_for_all_witness :
  exists a,
    EmotionAnalytics.analyzeEmotionHistory week_history = Ret a
    /\ NoDup (keys (EmotionAnalytics.emotionDistribution a))
    /\ (forall k,
          In k (keys (EmotionAnalytics.emotionDistribution a))
          <-> exists d, In d week_history /\ EmotionAnalytics.emotion d = k)
    /\ list_sum (map (fun k => EmotionAnalytics.occurrences k week_history)
                     (keys (EmotionAnalytics.emotionDistribution a)))
       = 4%nat.
Proof.
  apply (analytics_distribution_accounts_for_all week_history).
  - discriminate.
  - repeat constructor.
Defined.

(** X3.  The mood trend of an analysis is decided by the last three
    detections alone: whatever older detections precede them, it is the
    trend of those three, one of improving, declining and stable. *)
Theorem analytics_trend_from_last_three
    (older recent : list EmotionAnalytics.EmotionData)
    (a : EmotionAnalytics.EmotionAnalytics) :
  List.length recent = 3%nat ->
  EmotionAnalytics.analyzeEmotionHistory (older ++ recent) = Ret a ->
  EmotionAnalytics.moodTrend a
  = EmotionAnalytics.determineMoodTrend (map EmotionAnalytics.emotion recent)
  /\ In (EmotionAnalytics.moodTrend a) ["improving"; "declining"; "stable"].
Proof.
  intros Hlen Ha.
  assert (Hne : (older ++ recent)%list <> []).
  { intros H. apply (f_equal (@List.length _)) in H.
    rewrite length_app, Hlen in H. simpl in H. lia. }
  destruct (analysis_fields _ a Hne Ha) as (_ & _ & _ & Ht & _).
  rewrite Ht, slice_last3_app by exact Hlen.
  split; [reflexivity | apply determineMoodTrend_values].
Qed.

Lemma analytics_trend_from_last_three_witness :
  exists a,
    EmotionAnalytics.analyzeEmotionHistory week_history = Ret a
    /\ EmotionAnalytics.moodTrend a = "improving".
Proof.
  eexists. split; [reflexivity|].
  apply (analytics_trend_from_last_three
           [detection "sad" 0.8%Q]
           [detection "happy" 0.9%Q; detection "happy" 0.7%Q;
            detection "surprised" 0.6%Q]);
    reflexivity.
Defined.

(** X4.  For a history that is not empty and labelled with the seven
    emotions, the analysis returns two recommendations: the advice for a
    label that no other label outnumbers in the history, then the advice
    for the trend. *)
Theorem analytics_recommends_for_dominant (h : list EmotionAnalytics.EmotionData) :
  h <> [] ->
  Forall (fun d => In (EmotionAnalytics.emotion d) EmotionDetection.labels) h ->
  exists a dominant advice trend,
    EmotionAnalytics.analyzeEmotionHistory h = Ret a
    /\ (0 < EmotionAnalytics.occurrences dominant h)%nat
    /\ (forall k, (EmotionAnalytics.occurrences k h
                   <= EmotionAnalytics.occurrences dominant h)%nat)
    /\ own_get EmotionAnalytics.emotionRecommendations dominant = Some advice
    /\ own_get EmotionAnalytics.trendRecommendations (EmotionAnalytics.moodTrend a)
       = Some trend
    /\ EmotionAnalytics.recommendations a = [Own advice; Own trend].
Proof.
  intros Hne Hlabels.
  assert (Hp : EmotionAnalytics.plain_labels h).
  { eapply Forall_impl; [|exact Hlabels]. intros d Hd. simpl in Hd.
    repeat (destruct Hd as [<-|Hd]; [reflexivity|]). destruct Hd. }
  assert (Hret : exists a, EmotionAnalytics.analyzeEmotionHistory h = Ret a).
  { destruct h as [|d h]; [contradiction|].
    apply (analysis_returns (d :: h) d); [simpl; auto|].
    apply plain_not_proto. now inversion Hp. }
  destruct Hret as [a Ha].
  destruct (analysis_fields h a Hne Ha) as (_ & _ & Hd & Ht & Hrecs).
  set (counts := EmotionAnalytics.counted h) in *.
  set (L := List.length h) in *.
  (* the value of every key of the distribution *)
  assert (Hval : forall k, In k (keys counts) ->
            js_get (EmotionAnalytics.emotionDistribution a) k
            = Own (Some (EmotionAnalytics.share_of k h))
            /\ (0 < EmotionAnalytics.occurrences k h)%nat).
  { intros k Hk. rewrite Hd. unfold js_get.
    rewrite percentages_map by apply counted_wf.
    rewrite (own_get_tabulate
               (fun k => EmotionAnalytics.percentage (js_get counts k) L)).
    destruct (in_dec string_dec k (keys counts)); [|contradiction].
    apply own_get_keys in Hk. pose proof (counted_get h Hp k) as Hget.
    fold counts in Hget.
    destruct (EmotionAnalytics.occurrences k h =? 0)%nat eqn:E; [congruence|].
    apply Nat.eqb_neq in E. unfold js_get. rewrite Hget.
    split; [reflexivity | lia]. }
  unfold EmotionAnalytics.generateRecommendations in Hrecs.
  assert (Hkeys : keys (EmotionAnalytics.emotionDistribution a) = keys counts)
    by (rewrite Hd; apply keys_percentages, counted_wf).
  rewrite Hkeys in Hrecs.
  destruct (keys counts) as [|x l] eqn:Ek.
  { destruct h as [|d h]; [contradiction|].
    assert (In (EmotionAnalytics.emotion d) (keys counts)).
    { apply (counted_keys_mem (d :: h) d); [simpl; auto|].
      apply plain_not_proto. now inversion Hp. }
    rewrite Ek in *. contradiction. }
  simpl EmotionAnalytics.reduce in Hrecs.
  destruct (reduce_maximal (fun k => EmotionAnalytics.share_of k h)
              (fun a0 b =>
                 if EmotionAnalytics.greater (EmotionAnalytics.emotionDistribution a) a0 b
                 then a0 else b) l x) as [Hin Hmax].
  { intros k k' Hk Hk'. unfold EmotionAnalytics.greater.
    rewrite (proj1 (Hval k Hk)), (proj1 (Hval k' Hk')). reflexivity. }
  set (dominant := fold_left _ l x) in *.
  assert (Hdom : (0 < EmotionAnalytics.occurrences dominant h)%nat)
    by (apply Hval; exact Hin).
  assert (Hlabel : In dominant EmotionDetection.labels).
  { unfold EmotionAnalytics.occurrences in Hdom.
    destruct (filter _ h) as [|d ds] eqn:Ef; [simpl in Hdom; lia|].
    assert (Hd' : In d (filter (fun detection =>
                                  String.eqb (EmotionAnalytics.emotion detection) dominant) h))
      by (rewrite Ef; simpl; auto).
    apply filter_In in Hd'. destruct Hd' as [Hdh Heq].
    apply String.eqb_eq in Heq. rewrite <- Heq.
    rewrite Forall_forall in Hlabels. now apply Hlabels. }
  assert (Hadvice : exists advice,
             own_get EmotionAnalytics.emotionRecommendations dominant = Some advice
             /\ truthy advice = true).
  { simpl in Hlabel.
    repeat (destruct Hlabel as [<-|Hlabel];
            [eexists; split; reflexivity|]).
    destruct Hlabel. }
  destruct Hadvice as (advice & Hadvice & Htruthy).
  assert (Htrend : exists trend,
             own_get EmotionAnalytics.trendRecommendations (EmotionAnalytics.moodTrend a)
             = Some trend).
  { rewrite Ht.
    pose proof (determineMoodTrend_values
                  (map EmotionAnalytics.emotion (EmotionAnalytics.slice_last3 h))) as Hv.
    simpl in Hv.
    destruct Hv as [<-|[<-|[<-|[]]]]; eexists; reflexivity. }
  destruct Htrend as (trend & Htrend).
  exists a, dominant, advice, trend.
  split; [exact Ha|]. split; [exact Hdom|]. split.
  - intros k.
    destruct (in_dec string_dec k (x :: l)) as [Hk|Hk].
    + apply share_of_le; [exact Hne|]. now apply Hmax.
    + assert (EmotionAnalytics.occurrences k h = 0%nat); [|lia].
      pose proof (counted_get h Hp k) as Hget. fold counts in Hget.
      destruct (EmotionAnalytics.occurrences k h =? 0)%nat eqn:E;
        [now apply Nat.eqb_eq in E|].
      contradiction Hk. rewrite <- Ek. apply own_get_keys. rewrite Hget. discriminate.
  - split; [exact Hadvice|]. split; [exact Htrend|].
    unfold js_get in Hrecs. rewrite Hadvice, Htruthy, Htrend in Hrecs.
    simpl in Hrecs. congruence.
Qed.

Lemma analytics_recommends_for_dominant_witness :
  exists a dominant advice trend,
    EmotionAnalytics.analyzeEmotionHistory week_history = Ret a
    /\ (0 < EmotionAnalytics.occurrences dominant week_history)%nat
    /\ (forall k, (EmotionAnalytics.occurrences k week_history
                   <= EmotionAnalytics.occurrences dominant week_history)%nat)
    /\ own_get EmotionAnalytics.emotionRecommendations dominant = Some advice
    /\ own_get EmotionAnalytics.trendRecommendations (EmotionAnalytics.moodTrend a)
       = Some trend
    /\ EmotionAnalytics.recommendations a = [Own advice; Own trend].
Proof.
  apply (analytics_recommends_for_dominant week_history).
  - discriminate.
  - repeat (apply Forall_cons; [simpl; auto 10|]). apply Forall_nil.
Defined.

(** X6.  The handler answers 400 when the history is absent or no array, and
    500 when the body does not parse; a history it is given is answered with
    500 exactly when it is not empty and every detection is labelled
    [__proto__], and with 200 otherwise. *)
Theorem analytics_status (request : EmotionAnalytics.Request) :
  match request with
  | EmotionAnalytics.Malformed =>
      EmotionAnalytics.status (EmotionAnalytics.POST request) = 500%nat
  | EmotionAnalytics.Payload None =>
      EmotionAnalytics.status (EmotionAnalytics.POST request) = 400%nat
  | EmotionAnalytics.Payload (Some h) =>
      (EmotionAnalytics.status (EmotionAnalytics.POST request) = 500%nat
       <-> h <> [] /\ Forall (fun d => EmotionAnalytics.emotion d = "__proto__") h)
      /\ (EmotionAnalytics.status (EmotionAnalytics.POST request) = 200%nat
          \/ EmotionAnalytics.status (EmotionAnalytics.POST request) = 500%nat)
  end.
Proof.
  destruct request as [|[h|]]; [reflexivity | | reflexivity].
  unfold EmotionAnalytics.POST.
  destruct (Forall_Exists_dec
              (fun d => EmotionAnalytics.emotion d = "__proto__")
              (fun d => string_dec (EmotionAnalytics.emotion d) "__proto__") h)
    as [Hall|Hex].
  - destruct h as [|d h].
    + simpl. split; [|auto]. split; [discriminate | intros [H _]; contradiction].
    + destruct (analysis_throws (d :: h)) as [m Hm]; [discriminate | exact Hall|].
      rewrite Hm. simpl. split; [|auto]. split; [|reflexivity].
      intros _. split; [discriminate | exact Hall].
  - apply Exists_exists in Hex. destruct Hex as (d & Hin & Hne).
    destruct (analysis_returns h d Hin Hne) as [a Ha]. rewrite Ha. simpl.
    split; [|auto]. split; [discriminate|].
    intros [_ Hall]. rewrite Forall_forall in Hall. contradiction Hne. now apply Hall.
Qed.

(* ================================================================== *)
(** * Further properties of the client *)
(* ================================================================== *)

Section ClientAvailability.

Import SpotifyClient.

Variable w : World.



(** One invocation sends at most one authentication request. *)
Lemma getAccessToken_at_most_one (s : State) :
  (auth_requests (snd (getAccessToken w s)) <= S (auth_requests s))%nat
  /\ api_requests (snd (getAccessToken w s)) = api_requests s.
Proof.
  unfold getAccessToken.
  destruct (if truthy_opt (accessToken s) && isAvailable s then accessToken s else None);
    [simpl; auto|].
  simpl. destruct (negb (isAvailable s) && Z.ltb _ 60000); [simpl; auto|].
  destruct (auth_fetch w (auth_requests s)) as [|st [data|]];
    [| destruct (fallback data);
       [| destruct (if status_ok st && truthy_opt (access_token data)
                    then access_token data else None)] |];
    simpl; auto.
Qed.

End ClientAvailability.



(** X8.  [resetAvailability] ends the cooldown: the next attempt to get a
    token sends a request to the authentication route whatever the clock
    reads, and the client is available again exactly when that request
    delivers a token. *)
Theorem client_reset_reauthenticates
    (w : SpotifyClient.World) (s : SpotifyClient.State) :
  let r := SpotifyClient.getAccessToken w (SpotifyClient.resetAvailability s) in
  SpotifyClient.auth_requests (snd r) = S (SpotifyClient.auth_requests s)
  /\ (SpotifyClient.isAvailable (snd r) = true
      <-> exists token, fst r = Ret token /\ truthy token = true
                        /\ SpotifyClient.accessToken (snd r) = Some token).
Proof.
  unfold SpotifyClient.getAccessToken, SpotifyClient.resetAvailability. simpl.
  destruct (SpotifyClient.auth_fetch w (SpotifyClient.auth_requests s))
    as [|st [data|]]; simpl.
  - split; [reflexivity|]. split; [discriminate | intros (t & H & _); discriminate].
  - destruct (SpotifyClient.fallback data); simpl.
    + split; [reflexivity|]. split; [discriminate | intros (t & H & _); discriminate].
    + destruct (status_ok st); simpl.
      * destruct (SpotifyClient.access_token data) as [t|] eqn:Et; simpl.
        -- destruct (truthy t) eqn:Ett; simpl.
           ++ split; [reflexivity|]. split; [|reflexivity].
              intros _. exists t. auto.
           ++ split; [reflexivity|].
              split; [discriminate | intros (t' & H & _); discriminate].
        -- split; [reflexivity|].
           split; [discriminate | intros (t' & H & _); discriminate].
      * split; [reflexivity|].
        split; [discriminate | intros (t' & H & _); discriminate].
  - split; [reflexivity|]. split; [discriminate | intros (t & H & _); discriminate].
Qed.

(** X9.  A genre request never repeats itself: whatever the authentication
    route and the provider answer, 401 included, it returns after at most
    one authentication request and one request to the provider, and a
    response that is not ok gives the empty list. *)
Theorem client_genres_single_attempt
    (w : SpotifyClient.World) (s : SpotifyClient.State) :
  let r := SpotifyClient.getAvailableGenres w s in
  (SpotifyClient.auth_requests (snd r) <= S (SpotifyClient.auth_requests s))%nat
  /\ (SpotifyClient.api_requests (snd r) <= S (SpotifyClient.api_requests s))%nat
  /\ (forall token st data,
        fst (SpotifyClient.getAccessToken w s) = Ret token ->
        SpotifyClient.genres_fetch w (SpotifyClient.api_requests s) token
        = Responded st data ->
        status_ok st = false ->
        fst r = []).
Proof.
  unfold SpotifyClient.getAvailableGenres.
  destruct (getAccessToken_at_most_one w s) as [Ha Hp].
  destruct (SpotifyClient.getAccessToken w s) as [[token|m] s1]; simpl in *.
  - rewrite Hp.
    split.
    + destruct (SpotifyClient.genres_fetch w (SpotifyClient.api_requests s) token)
        as [|st [g|]]; [| destruct (negb (status_ok st)) ..]; simpl; exact Ha.
    + split.
      * destruct (SpotifyClient.genres_fetch w (SpotifyClient.api_requests s) token)
          as [|st [g|]]; [| destruct (negb (status_ok st)) ..]; simpl; lia.
      * intros token' st data Ht Hf Hok. inversion Ht; subst token'.
        rewrite Hf, Hok. reflexivity.
  - split; [exact Ha|]. split; [lia|]. intros token st data Ht. discriminate.
Qed.

(** X10.  When the provider answers a search with anything but 401, the
    search returns after one invocation: it has sent at most one
    authentication request and at most one request to the provider. *)
Theorem client_search_returns_without_401
    (w : SpotifyClient.World) (s : SpotifyClient.State) (fuel : nat)
    (query : string) (limit : nat) :
  (forall n token st data,
     SpotifyClient.search_fetch w n token query limit = Responded st data ->
     st <> 401%nat) ->
  exists tracks s',
    SpotifyClient.searchTracks (S fuel) w query limit s = Finished tracks s'
    /\ (SpotifyClient.auth_requests s' <= S (SpotifyClient.auth_requests s))%nat
    /\ (SpotifyClient.api_requests s' <= S (SpotifyClient.api_requests s))%nat.
Proof.
  intros H401. simpl.
  destruct (getAccessToken_at_most_one w s) as [Ha Hp].
  destruct (SpotifyClient.getAccessToken w s) as [[token|m] s1]; simpl in *.
  - destruct (SpotifyClient.search_fetch w (SpotifyClient.api_requests s1) token
                query limit) as [|st data] eqn:Ef.
    + do 2 eexists. split; [reflexivity|]. simpl. split; [exact Ha | lia].
    + destruct (negb (status_ok st)).
      * destruct (st =? 401)%nat eqn:E.
        -- apply Nat.eqb_eq in E. exfalso. eapply H401; eauto.
        -- do 2 eexists. split; [reflexivity|]. simpl. split; [exact Ha | lia].
      * destruct data; do 2 eexists; (split; [reflexivity|]); simpl;
          (split; [exact Ha | lia]).
  - do 2 eexists. split; [reflexivity|]. split; [exact Ha | lia].
Qed.

Lemma client_search_returns_without_401_witness :
  exists tracks s',
    SpotifyClient.searchTracks 1 jukebox "joy" 5 SpotifyClient.initial
    = Finished tracks s'
    /\ (SpotifyClient.auth_requests s' <= 1)%nat
    /\ (SpotifyClient.api_requests s' <= 1)%nat.
Proof.
  apply (client_search_returns_without_401 jukebox SpotifyClient.initial 0 "joy" 5).
  intros n token st data H. inversion H. discriminate.
Defined.

Section Durations.

Lemma pad2_two_digits (n : N) :
  (n < 60)%N -> String.length (pad2 (show_N n)) = 2%nat.
Proof.
  intros H.
  assert (Hall : forallb (fun m => (String.length (pad2 (show_N (N.of_nat m))) =? 2)%nat)
                         (seq 0 60) = true) by (vm_compute; reflexivity).
  rewrite forallb_forall in Hall.
  specialize (Hall (N.to_nat n)). rewrite N2Nat.id in Hall.
  apply Nat.eqb_eq, Hall, in_seq. lia.
Qed.

Lemma seconds_below_60 (duration_ms : N) :
  ((duration_ms mod 60000) / 1000 < 60)%N.
Proof.
  apply N.Div0.div_lt_upper_bound.
  change (1000 * 60)%N with 60000%N. apply N.mod_lt. discriminate.
Qed.

End Durations.

(** X11.  The card made of a track has a title, and its description is the
    name of the album, a separator and the duration, shown as minutes, a
    colon and exactly two digits of seconds; a popularity between 0 and 100
    becomes a rating between 0 and 5. *)
Theorem client_track_card (track : SpotifyClient.SpotifyTrack) :
  (0 <= SpotifyClient.popularity track)%Q ->
  (SpotifyClient.popularity track <= 100)%Q ->
  exists rating seconds,
    Card.rating (SpotifyClient.formatTrackForRecommendation track) = Some rating
    /\ (0 <= rating)%Q /\ (rating <= 5)%Q
    /\ show_duration (SpotifyClient.duration_ms track)
       = show_N (SpotifyClient.duration_ms track / 60000)%N ++ ":" ++ seconds
    /\ String.length seconds = 2%nat
    /\ truthy (Card.title (SpotifyClient.formatTrackForRecommendation track)) = true
    /\ Card.description (SpotifyClient.formatTrackForRecommendation track)
       = SpotifyClient.album_name track ++ " • "
         ++ show_N (SpotifyClient.duration_ms track / 60000)%N ++ ":" ++ seconds.
Proof.
  intros H0 H100. do 2 eexists. split; [reflexivity|].
  split; [|split; [|split; [reflexivity|split; [|split; [|reflexivity]]]]].
  - apply Qle_shift_div_l; [reflexivity | lra].
  - apply Qle_shift_div_r; [reflexivity | lra].
  - apply pad2_two_digits, seconds_below_60.
  - simpl. destruct (SpotifyClient.name track); reflexivity.
Qed.

Lemma client_track_card_witness :
  show_duration (SpotifyClient.duration_ms anthem) = "3:05"
  /\ Card.description (SpotifyClient.formatTrackForRecommendation anthem)
     = "Album" ++ " • " ++ "3:05"
  /\ exists rating seconds,
       Card.rating (SpotifyClient.formatTrackForRecommendation anthem) = Some rating
       /\ (0 <= rating)%Q /\ (rating <= 5)%Q
       /\ show_duration (SpotifyClient.duration_ms anthem)
          = show_N (SpotifyClient.duration_ms anthem / 60000)%N ++ ":" ++ seconds
       /\ String.length seconds = 2%nat
       /\ truthy (Card.title (SpotifyClient.formatTrackForRecommendation anthem)) = true
       /\ Card.description (SpotifyClient.formatTrackForRecommendation anthem)
          = SpotifyClient.album_name anthem ++ " • "
            ++ show_N (SpotifyClient.duration_ms anthem / 60000)%N ++ ":" ++ seconds.
Proof.
  split; [vm_compute; reflexivity|]. split; [vm_compute; reflexivity|].
  apply (client_track_card anthem); unfold Qle; simpl; lia.
Defined.

(* ================================================================== *)
(** * Further properties of the recommender *)
(* ================================================================== *)

Section Shuffling.

Context {A : Type}.

Lemma set_nth_perm (l : list A) :
  forall (j : nat) (y a : A),
    nth_error l j = Some y -> Permutation (y :: set_nth l j a) (a :: l).
Proof.
  induction l as [|x l IH]; intros [|j] y a H; simpl in *; try discriminate.
  - inversion H; subst. apply perm_swap.
  - eapply perm_trans; [apply perm_swap|].
    eapply perm_trans; [apply perm_skip, IH, H|]. apply perm_swap.
Qed.

Lemma swap_cons (a : A) (l : list A) (i j : nat) :
  swap (a :: l) (S i) (S j) = a :: swap l i j.
Proof.
  unfold swap. simpl.
  destruct (nth_error l i), (nth_error l j); reflexivity.
Qed.

(** Exchanging two elements keeps the elements. *)
Lemma swap_perm (l : list A) : forall i j, Permutation (swap l i j) l.
Proof.
  induction l as [|a l IH]; intros i j.
  - unfold swap. destruct (nth_error (@nil A) i), (nth_error (@nil A) j); reflexivity.
  - destruct i as [|i], j as [|j].
    + reflexivity.
    + unfold swap. simpl. destruct (nth_error l j) as [y|] eqn:E; [|reflexivity].
      simpl. now apply set_nth_perm.
    + unfold swap. simpl. destruct (nth_error l i) as [x|] eqn:E; [|reflexivity].
      simpl. now apply set_nth_perm.
    + rewrite swap_cons. apply perm_skip, IH.
Qed.

Lemma shuffle_from_perm (pick : nat -> nat) (i : nat) :
  forall l : list A, Permutation (shuffle_from i pick l) l.
Proof.
  induction i as [|i IH]; intros l; simpl; [reflexivity|].
  eapply perm_trans; [apply IH | apply swap_perm].
Qed.

Lemma shuffle_perm (pick : nat -> nat) (l : list A) : Permutation (shuffle pick l) l.
Proof. apply shuffle_from_perm. Qed.

Lemma slice0_In (n : nat) (l : list A) (x : A) : In x (slice0 n l) -> In x l.
Proof.
  unfold slice0. revert l. induction n as [|n IH]; intros l H; simpl in H;
    [contradiction|].
  destruct l as [|y l]; simpl in H; [contradiction|].
  destruct H as [H|H]; simpl; auto.
Qed.

Lemma dedupe_by_In (key : A -> string) (l : list A) :
  forall seen x, In x (dedupe_by key seen l) -> In x l /\ ~ In (key x) seen.
Proof.
  induction l as [|y l IH]; intros seen x H; simpl in H; [contradiction|].
  destruct (existsb (String.eqb (key y)) seen) eqn:E.
  - apply IH in H. simpl. tauto.
  - destruct H as [<-|H].
    + split; [simpl; auto|]. intros Hin.
      assert (existsb (String.eqb (key y)) seen = true); [|congruence].
      apply existsb_exists. exists (key y). split; [exact Hin | apply String.eqb_refl].
    + apply IH in H. destruct H as [H1 H2]. split; [simpl; auto|].
      intros Hin. apply H2. simpl. auto.
Qed.

(** No key is kept twice. *)
Lemma dedupe_by_NoDup (key : A -> string) (l : list A) :
  forall seen, NoDup (map key (dedupe_by key seen l)).
Proof.
  induction l as [|y l IH]; intros seen; simpl; [constructor|].
  destruct (existsb (String.eqb (key y)) seen); [apply IH|].
  simpl. constructor; [|apply IH].
  intros Hin. apply in_map_iff in Hin. destruct Hin as (x & Hk & Hx).
  apply dedupe_by_In in Hx. destruct Hx as [_ Hx]. apply Hx. simpl. auto.
Qed.

Lemma slice0_NoDup (key : A -> string) (n : nat) (l : list A) :
  NoDup (map key l) -> NoDup (map key (slice0 n l)).
Proof.
  unfold slice0. revert l. induction n as [|n IH]; intros l H; simpl;
    [constructor|].
  destruct l as [|y l]; simpl; [constructor|].
  inversion H as [|? ? Hnin Hnd]; subst. constructor; [|now apply IH].
  intros Hin. apply Hnin. apply in_map_iff in Hin. destruct Hin as (x & Hk & Hx).
  apply in_map_iff. exists x. split; [exact Hk|]. now apply (slice0_In n).
Qed.

(** What the three methods return after collecting: distinct keys, and
    nothing that was not collected. *)
Lemma selection_distinct (key : A -> string) (pick : nat -> nat) (n : nat)
    (l : list A) :
  NoDup (map key (slice0 n (shuffle pick (dedupe_by key [] l)))).
Proof.
  apply slice0_NoDup.
  eapply Permutation_NoDup; [|apply (dedupe_by_NoDup key l [])].
  apply Permutation_map, Permutation_sym, shuffle_perm.
Qed.

Lemma selection_In (key : A -> string) (pick : nat -> nat) (n : nat)
    (l : list A) (x : A) :
  In x (slice0 n (shuffle pick (dedupe_by key [] l))) -> In x l.
Proof.
  intros H. apply slice0_In in H.
  apply (Permutation_in _ (shuffle_perm pick _)) in H.
  now apply dedupe_by_In in H.
Qed.

End Shuffling.

Section RecommenderItems.

Import ContentRecommender.

Variable w : World.

Lemma string_length_append (a b : string) :
  String.length (a ++ b) = (String.length a + String.length b)%nat.
Proof. induction a as [|c a IH]; simpl; [reflexivity | now rewrite IH]. Qed.

Lemma substring_length_le (n : nat) :
  forall s : string, (String.length (substring 0 n s) <= n)%nat.
Proof.
  induction n as [|n IH]; intros [|c s]; simpl; try lia.
  specialize (IH s). lia.
Qed.

Lemma or_str_truthy (v : option string) (s : string) :
  or_str v None = Some s -> truthy s = true.
Proof.
  unfold or_str. destruct v as [x|]; simpl; [|discriminate].
  destruct (truthy x) eqn:E; [|discriminate]. intros H. inversion H. now subst.
Qed.

(** A movie that is pushed has a title and the address of its IMDb page. *)
Lemma movie_of_detail_wf (d : Fetch OMDBDetail) (m : Movie) :
  movie_of_detail w d = Some m ->
  truthy (title m) = true
  /\ imdb_url m = "https://www.imdb.com/title/" ++ id m.
Proof.
  unfold movie_of_detail.
  destruct d as [|st [detail|]]; try discriminate.
  destruct (status_ok st && String.eqb (d_Response detail) "True"); [|discriminate].
  destruct (d_Genre detail); [|discriminate].
  intros H. inversion H; subst; simpl. split; [|reflexivity].
  destruct (truthy (d_Title detail)) eqn:E; [exact E | reflexivity].
Qed.

Lemma movies_of_query_wf (query : string) (m : Movie) :
  In m (movies_of_query w query) ->
  truthy (title m) = true
  /\ imdb_url m = "https://www.imdb.com/title/" ++ id m.
Proof.
  unfold movies_of_query.
  destruct (omdb_search w query) as [|st [[search|]|]]; try contradiction.
  destruct (status_ok st); [|contradiction].
  intros H. apply in_flat_map in H. destruct H as (hit & _ & H).
  destruct (movie_of_detail w (omdb_detail w (imdbID hit))) as [m'|] eqn:E;
    simpl in H; [|contradiction].
  destruct H as [<-|[]]. now apply movie_of_detail_wf in E.
Qed.

(** A song has a name, an artist and an album, by default if need be. *)
Lemma song_of_track_wf (track : SpotifyTrack) :
  truthy (name (song_of_track track)) = true
  /\ truthy (artist (song_of_track track)) = true
  /\ truthy (album (song_of_track track)) = true.
Proof.
  unfold song_of_track. simpl. split; [|split].
  - destruct (or_str (t_name track) None) eqn:E; [|reflexivity].
    now apply or_str_truthy in E.
  - destruct (t_artists track) as [l|]; [|reflexivity].
    destruct (truthy (String.concat ", " l)) eqn:E; [exact E | reflexivity].
  - destruct (or_str (t_album_name track) None) eqn:E; [|reflexivity].
    now apply or_str_truthy in E.
Qed.

Lemma songs_of_genre_wf (token genre : string) (song : Song) :
  In song (songs_of_genre w token genre) ->
  truthy (name song) = true /\ truthy (artist song) = true
  /\ truthy (album song) = true.
Proof.
  unfold songs_of_genre.
  destruct (track_search w token genre) as [|st [items|]]; try contradiction.
  destruct (status_ok st); [|contradiction].
  intros H. apply in_map_iff in H. destruct H as (track & <- & _).
  apply song_of_track_wf.
Qed.

(** A book that is pushed has a title, and a description of at most 500
    characters and an ellipsis. *)
Lemma book_of_volume_wf (volumeInfo : GoogleBook) (b : Book) :
  book_of_volume volumeInfo = Some b ->
  truthy (b_title b) = true
  /\ (String.length (b_description b) <= 503)%nat.
Proof.
  unfold book_of_volume.
  destruct (or_str (v_title volumeInfo) None) as [t|] eqn:E; [|discriminate].
  intros H. inversion H; subst; simpl. split; [now apply or_str_truthy in E|].
  destruct (500 <? String.length _)%nat eqn:El.
  - rewrite string_length_append. simpl.
    pose proof (substring_length_le 500
                  match v_description volumeInfo with Some d => d | None => "" end).
    lia.
  - apply Nat.ltb_ge in El. lia.
Qed.

Lemma books_of_query_wf (query : string) (b : Book) :
  In b (books_of_query w query) ->
  truthy (b_title b) = true
  /\ (String.length (b_description b) <= 503)%nat.
Proof.
  unfold books_of_query.
  destruct (volume_search w query _) as [|st [items|]]; try contradiction.
  destruct (status_ok st); [|contradiction].
  intros H. apply in_flat_map in H. destruct H as (item & _ & H).
  destruct (book_of_volume item) as [b'|] eqn:E; simpl in H; [|contradiction].
  destruct H as [<-|[]]. now apply book_of_volume_wf in E.
Qed.

Lemma movies_or_nil_wf (emotion : string) (m : Movie) :
  In m (movies_or_nil w emotion) ->
  truthy (title m) = true
  /\ imdb_url m = "https://www.imdb.com/title/" ++ id m.
Proof.
  unfold movies_or_nil, getMovieRecommendations.
  destruct (negb (truthy (omdbApiKey w)) || _); [contradiction|].
  destruct (mapping_of emotion) as [mapping|]; [|contradiction].
  intros H. apply selection_In in H. apply in_flat_map in H.
  destruct H as (query & _ & H). now apply movies_of_query_wf in H.
Qed.

Lemma getBookRecommendations_wf (emotion : string) (b : Book) :
  In b (getBookRecommendations w emotion) ->
  truthy (b_title b) = true
  /\ (String.length (b_description b) <= 503)%nat.
Proof.
  unfold getBookRecommendations.
  destruct (mapping_of emotion) as [mapping|]; [|contradiction].
  intros H. apply selection_In in H. apply in_flat_map in H.
  destruct H as (query & _ & H). now apply books_of_query_wf in H.
Qed.

Lemma getMusicRecommendations_wf (emotion : string) (s : State) (song : Song) :
  In song (fst (getMusicRecommendations w emotion s)) ->
  truthy (name song) = true /\ truthy (artist song) = true
  /\ truthy (album song) = true.
Proof.
  unfold getMusicRecommendations.
  destruct (getSpotifyToken w s) as [token s1].
  destruct (if truthy_opt token then token else None) as [t|]; [|contradiction].
  destruct (mapping_of emotion) as [mapping|]; [|contradiction].
  simpl. intros H. apply selection_In in H. apply in_flat_map in H.
  destruct H as (genre & _ & H). now apply songs_of_genre_wf in H.
Qed.

End RecommenderItems.

(** X12.  The recommender never returns the same item twice: the movies of
    a result have pairwise distinct ids, its songs pairwise distinct names
    and its books pairwise distinct titles. *)
Theorem recommender_results_distinct
    (w : ContentRecommender.World) (emotion : string) (s : ContentRecommender.State) :
  let r := fst (ContentRecommender.getRecommendations w emotion s) in
  NoDup (map ContentRecommender.id (ContentRecommender.movies r))
  /\ NoDup (map ContentRecommender.name (ContentRecommender.music r))
  /\ NoDup (map ContentRecommender.b_title (ContentRecommender.books r)).
Proof.
  cbv zeta. destruct (getRecommendations_fields w emotion s) as (-> & -> & ->).
  split; [|split].
  - unfold ContentRecommender.movies_or_nil, ContentRecommender.getMovieRecommendations.
    destruct (negb (truthy (ContentRecommender.omdbApiKey w)) || _); [constructor|].
    destruct (ContentRecommender.mapping_of emotion);
      [apply selection_distinct | constructor].
  - unfold ContentRecommender.getMusicRecommendations.
    destruct (ContentRecommender.getSpotifyToken w s) as [token s1].
    destruct (if truthy_opt token then token else None); [|constructor].
    destruct (ContentRecommender.mapping_of emotion);
      [apply selection_distinct | constructor].
  - unfold ContentRecommender.getBookRecommendations.
    destruct (ContentRecommender.mapping_of emotion);
      [apply selection_distinct | constructor].
Qed.

(** X13.  The shuffle loop returns a permutation of the array it is given,
    whatever [Math.random] yields: no item is lost, repeated or made up. *)
Theorem shuffle_is_permutation {A : Type} (pick : nat -> nat) (l : list A) :
  Permutation (shuffle pick l) l.
Proof. apply shuffle_perm. Qed.

(** X14.  Every item the recommender returns has its text fields filled: a
    movie has a title and the address of its IMDb page, a song has a name,
    an artist and an album, and a book has a title and a description of at
    most 503 characters. *)
Theorem recommender_items_filled
    (w : ContentRecommender.World) (emotion : string) (s : ContentRecommender.State) :
  let r := fst (ContentRecommender.getRecommendations w emotion s) in
  Forall (fun m => truthy (ContentRecommender.title m) = true
                   /\ ContentRecommender.imdb_url m
                      = "https://www.imdb.com/title/" ++ ContentRecommender.id m)
         (ContentRecommender.movies r)
  /\ Forall (fun song => truthy (ContentRecommender.name song) = true
                         /\ truthy (ContentRecommender.artist song) = true
                         /\ truthy (ContentRecommender.album song) = true)
            (ContentRecommender.music r)
  /\ Forall (fun b => truthy (ContentRecommender.b_title b) = true
                      /\ (String.length (ContentRecommender.b_description b) <= 503)%nat)
            (ContentRecommender.books r).
Proof.
  destruct (getRecommendations_fields w emotion s) as (Hm & Hs & Hb).
  simpl. rewrite Hm, Hs, Hb. repeat split; apply Forall_forall; intros x Hx.
  - now apply movies_or_nil_wf in Hx.
  - now apply getMusicRecommendations_wf in Hx.
  - now apply getBookRecommendations_wf in Hx.
Qed.

(* ================================================================== *)
(** * Further properties of the recommendation route *)
(* ================================================================== *)

Section EnhancedCards.

Import Recommendations.

Variable w : World.

Lemma mapi_exc_Forall {A B} (f : nat -> A -> option B) (P : B -> Prop) :
  forall (l : list A) (i : nat) (l' : list B),
    (forall i x y, In x l -> f i x = Some y -> P y) ->
    mapi_exc f i l = Some l' -> Forall P l'.
Proof.
  induction l as [|x l IH]; intros i l' Hf H; simpl in H.
  - inversion H. constructor.
  - destruct (f i x) as [y|] eqn:E; [|discriminate].
    destruct (mapi_exc f (S i) l) as [ys|] eqn:El; [|discriminate].
    inversion H; subst. constructor.
    + apply (Hf i x); [simpl; auto | exact E].
    + apply (IH (S i)); [|exact El]. intros j a b Ha. apply Hf. simpl. auto.
Qed.

Lemma transformMovie_ok (movie : CR.Movie) :
  truthy (CR.title movie) = true ->
  CR.imdb_url movie = "https://www.imdb.com/title/" ++ CR.id movie ->
  Card.card_ok (transformMovie movie) = true.
Proof.
  intros Ht Hu. unfold Card.card_ok, transformMovie. simpl.
  rewrite Ht, Hu. reflexivity.
Qed.

Lemma transformSong_ok (i : nat) (song : CR.Song) (card : Recommendation) :
  transformSong w i song = Some card -> Card.card_ok card = true.
Proof.
  unfold transformSong.
  destruct (or_str (CR.external_url song) None) as [u|] eqn:Eu.
  - intros H. inversion H; subst. unfold Card.card_ok. simpl.
    rewrite (or_str_truthy _ _ Eu). destruct (CR.name song); reflexivity.
  - destruct (encodeURIComponent w _) as [q|]; [|discriminate].
    intros H. inversion H; subst. unfold Card.card_ok. simpl.
    destruct (CR.name song); reflexivity.
Qed.

Lemma transformBook_ok (i : nat) (book : CR.Book) (card : Recommendation) :
  truthy (CR.b_title book) = true ->
  transformBook w i book = Some card -> Card.card_ok card = true.
Proof.
  intros Ht. unfold transformBook.
  destruct (encodeURIComponent w _) as [q|]; [|discriminate].
  intros H. inversion H; subst. unfold Card.card_ok. simpl.
  rewrite Ht. reflexivity.
Qed.

Lemma or_fallback_ok (e : Emotion) (transformed : list Recommendation) getter :
  In getter [getFallbackMovies; getFallbackSongs; getGoodreadsStyleBooks;
             getFallbackBooks] ->
  Forall (fun card => Card.card_ok card = true) transformed ->
  exists l, or_fallback transformed (getter (label e)) = Own l
            /\ Forall (fun card => Card.card_ok card = true) l.
Proof.
  intros Hg Hall. destruct transformed as [|x xs].
  - destruct (static_lists_of_label e getter Hg) as (a & b & c & -> & Ha & Hb & Hc).
    simpl. eexists. split; [reflexivity|]. repeat constructor; assumption.
  - simpl. eexists. split; [reflexivity | exact Hall].
Qed.

Lemma original_not_enhanced (fuel : nat) (emotion : string) (s s' : State)
    (r : Response) (set : RecommendationSet) :
  original fuel w emotion s = Finished r s' ->
  body r = Recs set -> enhanced_backend set = false.
Proof.
  unfold original.
  destruct (fetchSpotifySongs fuel w emotion (client_state s)); [|discriminate].
  intros H. inversion H; subst. simpl. intros Hb. inversion Hb. reflexivity.
Qed.

Lemma recommender_items_wf (e : Emotion) (s : State) :
  let recs := fst (CR.getRecommendations (recommender w) (label e) (recommender_state s)) in
  (forall m, In m (CR.movies recs) ->
             truthy (CR.title m) = true
             /\ CR.imdb_url m = "https://www.imdb.com/title/" ++ CR.id m)
  /\ (forall b, In b (CR.books recs) -> truthy (CR.b_title b) = true).
Proof.
  destruct (getRecommendations_fields (recommender w) (label e) (recommender_state s))
    as (Hm & _ & Hb).
  simpl. rewrite Hm, Hb. split.
  - intros m Hin. now apply movies_or_nil_wf in Hin.
  - intros b Hin. now apply getBookRecommendations_wf in Hin.
Qed.

End EnhancedCards.

(** X15.  Every card of a response that the enhanced recommender backs, for
    any of the seven labels, can be rendered: the three lists are arrays,
    and each of their cards has a title and a link. *)
Theorem enhanced_cards_have_title_and_link
    (w : Recommendations.World) (e : Recommendations.Emotion) (fuel : nat)
    (s s' : Recommendations.State) (r : Recommendations.Response)
    (set : Recommendations.RecommendationSet) :
  Recommendations.POST fuel w s (Recommendations.Payload (Some (Recommendations.label e)))
  = Finished r s' ->
  Recommendations.body r = Recommendations.Recs set ->
  Recommendations.enhanced_backend set = true ->
  exists ms ss bs,
    Recommendations.r_movies set = Own ms
    /\ Recommendations.r_songs set = Own ss
    /\ Recommendations.r_books set = Own bs
    /\ Forall (fun card => Card.card_ok card = true) ms
    /\ Forall (fun card => Card.card_ok card = true) ss
    /\ Forall (fun card => Card.card_ok card = true) bs.
Proof.
  intros Hpost Hbody Henh. rewrite POST_label in Hpost.
  destruct (Recommendations.enhanced w (Recommendations.label e) s)
    as [[response|] s1] eqn:E.
  - inversion Hpost; subst response s1.
    destruct (enhanced_returns w _ s r s' E)
      as (ts & tb & set' & Hts & Htb & -> & Hm & Hs & Hb & _).
    simpl in Hbody. inversion Hbody; subst set'.
    destruct (recommender_items_wf w e s) as (Hmovies & Hbooks).
    destruct (or_fallback_ok e
                (map Recommendations.transformMovie
                   (ContentRecommender.movies
                      (fst (ContentRecommender.getRecommendations
                              (Recommendations.recommender w) (Recommendations.label e)
                              (Recommendations.recommender_state s)))))
                Recommendations.getFallbackMovies) as (ms & Hms & Hmok);
      [simpl; auto | |].
    { apply Forall_forall. intros card Hc. apply in_map_iff in Hc.
      destruct Hc as (m & <- & Hin).
      destruct (Hmovies m Hin). now apply transformMovie_ok. }
    destruct (or_fallback_ok e ts Recommendations.getFallbackSongs)
      as (ss & Hss & Hsok); [simpl; auto | |].
    { apply (mapi_exc_Forall _ _ _ _ _ (fun i x y _ => transformSong_ok w i x y) Hts). }
    destruct (or_fallback_ok e tb Recommendations.getGoodreadsStyleBooks)
      as (bs & Hbs & Hbok); [simpl; auto | |].
    { apply (mapi_exc_Forall _ _ _ _ _
               (fun i x y Hin => transformBook_ok w i x y (Hbooks x Hin)) Htb). }
    exists ms, ss, bs. rewrite Hm, Hs, Hb. auto 10.
  - pose proof (original_not_enhanced w fuel _ _ _ _ _ Hpost Hbody). congruence.
Qed.

Lemma enhanced_cards_have_title_and_link_witness :
  exists r s' set ms,
    Recommendations.POST 0 cinema_world fresh_state
      (Recommendations.Payload (Some "happy")) = Finished r s'
    /\ Recommendations.body r = Recommendations.Recs set
    /\ Recommendations.r_movies set = Own ms
    /\ List.length ms = 10%nat
    /\ Forall (fun card => Card.card_ok card = true) ms.
Proof.
  assert (Hpost : exists r s' set,
             Recommendations.POST 0 cinema_world fresh_state
               (Recommendations.Payload (Some "happy")) = Finished r s'
             /\ Recommendations.body r = Recommendations.Recs set
             /\ Recommendations.enhanced_backend set = true
             /\ exists ms, Recommendations.r_movies set = Own ms
                           /\ List.length ms = 10%nat).
  { do 3 eexists. split; [vm_compute; reflexivity|].
    split; [reflexivity|]. split; [reflexivity|].
    eexists. split; reflexivity. }
  destruct Hpost as (r & s' & set & Hp & Hb & He & ms & Hms & Hlen).
  destruct (enhanced_cards_have_title_and_link cinema_world Recommendations.happy 0
              fresh_state s' r set Hp Hb He)
    as (ms' & ss & bs & Hm & _ & _ & Hok & _).
  exists r, s', set, ms. repeat split; auto.
  rewrite Hms in Hm. inversion Hm. exact Hok.
Defined.

(** X16.  The recommendation handler never answers with a server error: a
    request it answers gets 200 or 400, and 400 exactly when the emotion is
    absent, empty, or neither one of the seven labels nor the name of a
    property that objects inherit; a rejected request changes no state. *)
Theorem recommendations_status
    (w : Recommendations.World) (fuel : nat) (s s' : Recommendations.State)
    (request : Recommendations.Request) (r : Recommendations.Response) :
  Recommendations.POST fuel w s request = Finished r s' ->
  (Recommendations.status r = 200%nat \/ Recommendations.status r = 400%nat)
  /\ (Recommendations.status r = 400%nat
      <-> match request with
          | Recommendations.Malformed => False
          | Recommendations.Payload None => True
          | Recommendations.Payload (Some emotion) =>
              emotion = ""
              \/ (~ In emotion (keys Recommendations.emotionConfig)
                  /\ is_inherited emotion = false)
          end)
  /\ (Recommendations.status r = 400%nat -> s' = s).
Proof.
  intros Hpost.
  assert (Hok : forall emotion s0,
             match Recommendations.enhanced w emotion s0 with
             | (Some response, s1) => Finished response s1
             | (None, s1) => Recommendations.original fuel w emotion s1
             end = Finished r s' ->
             Recommendations.status r = 200%nat).
  { intros emotion s0 H.
    destruct (Recommendations.enhanced w emotion s0) as [[response|] s1] eqn:E.
    - inversion H; subst.
      destruct (enhanced_returns w _ _ _ _ E) as (_ & _ & set & _ & _ & -> & _).
      reflexivity.
    - unfold Recommendations.original in H.
      destruct (Recommendations.fetchSpotifySongs fuel w emotion _); [|discriminate].
      inversion H; subst. reflexivity. }
  destruct request as [|[emotion|]]; simpl in Hpost.
  - inversion Hpost; subst. simpl.
    split; [auto|]. split; [split; [discriminate | contradiction] | discriminate].
  - unfold or_str in Hpost. simpl in Hpost.
    destruct (truthy emotion) eqn:Et.
    + assert (Hne : emotion <> "") by (intros ->; discriminate).
      unfold js_get in Hpost.
      destruct (own_get Recommendations.emotionConfig emotion) as [config|] eqn:Eo.
      * rewrite (Hok _ _ Hpost).
        split; [auto|]. split; [|discriminate].
        split; [discriminate|]. intros [H|[H _]]; [contradiction|].
        exfalso. apply H. apply own_get_keys. congruence.
      * destruct (is_inherited emotion) eqn:Ei.
        -- rewrite (Hok _ _ Hpost).
           split; [auto|]. split; [|discriminate].
           split; [discriminate|]. intros [H|[_ H]]; [contradiction | discriminate].
        -- inversion Hpost; subst. simpl.
           split; [auto|]. split; [|reflexivity].
           split; [|reflexivity]. intros _. right. split; [|reflexivity].
           intros H.
           apply (proj1 (own_get_keys Recommendations.emotionConfig emotion)) in H.
           contradiction.
    + inversion Hpost; subst. simpl.
      split; [auto|]. split; [|reflexivity].
      split; [|reflexivity]. intros _. left.
      unfold truthy in Et. apply negb_false_iff, String.eqb_eq in Et. exact Et.
  - inversion Hpost; subst. simpl.
    split; [auto|]. split; [tauto | reflexivity].
Qed.

Lemma recommendations_status_witness :
  exists r,
    Recommendations.POST 0 offline_world fresh_state
      (Recommendations.Payload (Some "bored")) = Finished r fresh_state
    /\ Recommendations.status r = 400%nat.
Proof.
  eexists. split; [reflexivity|].
  apply (recommendations_status offline_world 0 fresh_state fresh_state
           (Recommendations.Payload (Some "bored")) _ eq_refl).
  right. split; [|reflexivity].
  simpl. intuition discriminate.
Defined.

(* ================================================================== *)
(** * Further properties of the token route *)
(* ================================================================== *)

Section TokenCache.

Import SpotifyAuth.

Variable w : World.

Lemma authenticate_cases (s : State) :
  (status (fst (authenticate w s)) <> 200%nat
   /\ cachedToken (snd (authenticate w s)) = cachedToken s
   /\ forall token, body (fst (authenticate w s)) <> Cached token)
  \/ (exists token expires_in,
        fst (authenticate w s)
        = {| status := 200; body := Fresh token expires_in |}).
Proof.
  unfold authenticate.
  destruct (negb _ || negb _); simpl.
  { left. repeat split; try discriminate. }
  destruct (token_fetch w (auth_requests s)) as [|st [d|]]; simpl;
    try (left; repeat split; discriminate);
    destruct (negb (status_ok st)); simpl;
    try (left; repeat split; discriminate).
  right. eauto.
Qed.

Lemma authenticate_ticks (s : State) :
  (ticks s <= ticks (snd (authenticate w s)))%nat.
Proof.
  unfold authenticate.
  destruct (negb _ || negb _); simpl; [lia|].
  destruct (token_fetch w (auth_requests s)) as [|st [d|]]; simpl; try lia;
    destruct (negb (status_ok st)); simpl; lia.
Qed.

(** Only the cache check answers with a cached token. *)
Lemma POST_cached_inv (s : State) (token : string) :
  body (fst (POST w s)) = Cached token ->
  exists c,
    cachedToken s = Some c
    /\ access_token c = token
    /\ (clock w (ticks s) < expires_at c)%Z
    /\ auth_requests (snd (POST w s)) = auth_requests s.
Proof.
  unfold POST.
  destruct (cachedToken s) as [c|] eqn:Ec.
  - destruct (Z.ltb _ _) eqn:El; simpl.
    + intros H. inversion H; subst. exists c. apply Z.ltb_lt in El. auto.
    + intros H.
      destruct (authenticate_cases (tick s)) as [(_ & _ & Hk)|(t & e & Hf)].
      * now apply Hk in H.
      * rewrite Hf in H. discriminate.
  - intros H.
    destruct (authenticate_cases s) as [(_ & _ & Hk)|(t & e & Hf)].
    + now apply Hk in H.
    + rewrite Hf in H. discriminate.
Qed.

End TokenCache.

(** X17.  A request to the token route that does not answer 200 leaves the
    cached token as it was: a failed or unconfigured authentication neither
    evicts nor replaces it. *)
Theorem token_failure_keeps_cache (w : SpotifyAuth.World) (s : SpotifyAuth.State) :
  SpotifyAuth.status (fst (SpotifyAuth.POST w s)) <> 200%nat ->
  SpotifyAuth.cachedToken (snd (SpotifyAuth.POST w s)) = SpotifyAuth.cachedToken s.
Proof.
  unfold SpotifyAuth.POST.
  destruct (SpotifyAuth.cachedToken s) as [c|] eqn:Ec.
  - destruct (Z.ltb _ _); simpl; [congruence|].
    intros H.
    destruct (authenticate_cases w (SpotifyAuth.tick s)) as [(_ & Hk & _)|(t & e & Hf)].
    + rewrite Hk. exact Ec.
    + rewrite Hf in H. contradiction H. reflexivity.
  - intros H.
    destruct (authenticate_cases w s) as [(_ & Hk & _)|(t & e & Hf)].
    + rewrite Hk. exact Ec.
    + rewrite Hf in H. contradiction H. reflexivity.
Qed.

Lemma token_failure_keeps_cache_witness :
  SpotifyAuth.status (fst (SpotifyAuth.POST unconfigured_token_world stale_state))
  = 400%nat
  /\ SpotifyAuth.cachedToken (snd (SpotifyAuth.POST unconfigured_token_world stale_state))
     = SpotifyAuth.cachedToken stale_state.
Proof.
  split; [reflexivity|].
  apply (token_failure_keeps_cache unconfigured_token_world stale_state).
  discriminate.
Defined.

(** X18.  The token route never hands out an expired token: a response
    marked as cached carries the token that was cached, the clock read by
    this request is below its expiry, and nothing was sent to the
    provider. *)
Theorem token_cached_response_is_valid
    (w : SpotifyAuth.World) (s : SpotifyAuth.State) (token : string) :
  SpotifyAuth.body (fst (SpotifyAuth.POST w s)) = SpotifyAuth.Cached token ->
  exists c,
    SpotifyAuth.cachedToken s = Some c
    /\ SpotifyAuth.access_token c = token
    /\ (SpotifyAuth.clock w (SpotifyAuth.ticks s) < SpotifyAuth.expires_at c)%Z
    /\ SpotifyAuth.auth_requests (snd (SpotifyAuth.POST w s))
       = SpotifyAuth.auth_requests s.
Proof. apply POST_cached_inv. Qed.

Lemma token_cached_response_is_valid_witness :
  exists c,
    SpotifyAuth.cachedToken (snd (SpotifyAuth.POST token_world token_state0)) = Some c
    /\ SpotifyAuth.access_token c = "T"
    /\ (SpotifyAuth.clock token_world
          (SpotifyAuth.ticks (snd (SpotifyAuth.POST token_world token_state0)))
        < SpotifyAuth.expires_at c)%Z
    /\ SpotifyAuth.auth_requests
         (snd (SpotifyAuth.POST token_world
                 (snd (SpotifyAuth.POST token_world token_state0))))
       = SpotifyAuth.auth_requests (snd (SpotifyAuth.POST token_world token_state0)).
Proof.
  apply (token_cached_response_is_valid token_world
           (snd (SpotifyAuth.POST token_world token_state0)) "T").
  reflexivity.
Defined.

(** X19.  A token whose reported lifetime is at most 300 seconds is stored
    already expired: as long as the clock does not run backwards, the next
    request does not answer from the cache. *)
Theorem token_short_lifetime_not_reused
    (w : SpotifyAuth.World) (s : SpotifyAuth.State) (token : string) (expires_in : Z) :
  (forall n m, (n <= m)%nat -> (SpotifyAuth.clock w n <= SpotifyAuth.clock w m)%Z) ->
  SpotifyAuth.body (fst (SpotifyAuth.POST w s)) = SpotifyAuth.Fresh token expires_in ->
  (expires_in <= 300)%Z ->
  forall token',
    SpotifyAuth.body (fst (SpotifyAuth.POST w (snd (SpotifyAuth.POST w s))))
    <> SpotifyAuth.Cached token'.
Proof.
  intros Hmono Hfresh Hshort token' Hcached.
  apply POST_cached_inv in Hcached.
  destruct Hcached as (c & Hc & _ & Hlt & _).
  assert (Hstored : exists s0,
             (SpotifyAuth.ticks s0 <= SpotifyAuth.ticks (snd (SpotifyAuth.POST w s)))%nat
             /\ SpotifyAuth.cachedToken (snd (SpotifyAuth.POST w s))
                = Some {| SpotifyAuth.access_token := token;
                          SpotifyAuth.expires_at :=
                            SpotifyAuth.clock w (SpotifyAuth.ticks s0)
                            + (expires_in - 300) * 1000 |}).
  { unfold SpotifyAuth.POST in *.
    destruct (SpotifyAuth.cachedToken s) as [c0|].
    - destruct (Z.ltb _ _); simpl in *; [discriminate|].
      exists (SpotifyAuth.tick s). split.
      + apply (authenticate_ticks w (SpotifyAuth.tick s)).
      + now apply authenticate_fresh_expiry.
    - exists s. split.
      + apply authenticate_ticks.
      + now apply authenticate_fresh_expiry. }
  destruct Hstored as (s0 & Hticks & Hstored).
  rewrite Hstored in Hc. inversion Hc; subst c. simpl in Hlt.
  pose proof (Hmono _ _ Hticks). lia.
Qed.

Lemma token_short_lifetime_not_reused_witness :
  SpotifyAuth.body (fst (SpotifyAuth.POST brief_token_world token_state0))
  = SpotifyAuth.Fresh "T" 120
  /\ forall token',
       SpotifyAuth.body
         (fst (SpotifyAuth.POST brief_token_world
                 (snd (SpotifyAuth.POST brief_token_world token_state0))))
       <> SpotifyAuth.Cached token'.
Proof.
  split; [reflexivity|].
  apply (token_short_lifetime_not_reused brief_token_world token_state0 "T" 120).
  - intros n m H. simpl. lia.
  - reflexivity.
  - lia.
Defined.

(* ================================================================== *)
(** * Further properties of the emotion detection route *)
(* ================================================================== *)

(** X20.  The emotion detection handler answers with 200, 400 or 500 only.
    Its 503 branch ("no real service") cannot be reached: a request that
    forces real detection is answered before the last stage, by the missing
    credentials, by the local service, or by the outcome of Face++. *)
Theorem detection_status_codes
    (w : EmotionDetection.World) (request : EmotionDetection.Request) :
  (EmotionDetection.status (EmotionDetection.POST w request) = 200%nat
   \/ EmotionDetection.status (EmotionDetection.POST w request) = 400%nat
   \/ EmotionDetection.status (EmotionDetection.POST w request) = 500%nat)
  /\ forall message,
       EmotionDetection.body (EmotionDetection.POST w request)
       <> EmotionDetection.Failure message "no_real_service".
Proof.
  assert (Hcloud : forall n image,
             EmotionDetection.status
               (EmotionDetection.cloud_or_simulation w n image false) = 200%nat
             /\ forall message,
                  EmotionDetection.body
                    (EmotionDetection.cloud_or_simulation w n image false)
                  <> EmotionDetection.Failure message "no_real_service").
  { intros n image. unfold EmotionDetection.cloud_or_simulation.
    destruct (EmotionDetection.success _ && negb _); simpl; split;
      try reflexivity; discriminate. }
  destruct request as [message|image force]; simpl.
  { split; [auto | discriminate]. }
  destruct (or_str image None) as [img|]; simpl; [|split; [auto | discriminate]].
  destruct (EmotionDetection.hasFacePlusCredentials w); simpl.
  - rewrite andb_false_r.
    destruct (EmotionDetection.deepface w); simpl; [split; [auto | discriminate]|].
    destruct (EmotionDetection.success _); simpl; [split; [auto | discriminate]|].
    destruct force; simpl; [split; [auto | discriminate]|].
    destruct (Hcloud 1%nat img) as [-> H]. split; [auto | exact H].
  - destruct force; simpl; [split; [auto | discriminate]|].
    destruct (EmotionDetection.deepface w); simpl; [split; [auto | discriminate]|].
    destruct (Hcloud 0%nat img) as [-> H]. split; [auto | exact H].
Qed.

Section SimulatorRange.

Import EmotionDetection.

Lemma total_app (a b : JSObject Q) : total (a ++ b)%list == total a + total b.
Proof.
  induction a as [|[k v] a IH]; simpl app.
  - unfold total at 2. simpl. ring.
  - rewrite !total_cons, IH. ring.
Qed.

(** The shares handed to the other emotions use up what was left to
    distribute, and every emotion gets its entry. *)
Lemma distribute_total (primaryEmotion : string) (random : nat -> Q)
    (others : list string) :
  others <> [] -> NoDup others -> ~ In "__proto__"%string others ->
  forall i rem acc,
    0.01 <= rem ->
    (forall e, In e others -> ~ In e (keys acc)) ->
    total (distribute primaryEmotion random i others rem acc) == total acc + rem
    /\ keys (distribute primaryEmotion random i others rem acc)
       = (keys acc ++ others)%list.
Proof.
  induction others as [|e others IH]; intros Hne Hnd Hp i rem acc Hrem Hfresh;
    [contradiction|].
  assert (He : e <> "__proto__"%string) by (intros ->; apply Hp; simpl; auto).
  assert (Hnew : ~ In e (keys acc)) by (apply Hfresh; simpl; auto).
  inversion Hnd as [|? ? Hnin Hnd']; subst.
  destruct others as [|e2 others].
  - simpl. rewrite js_set_own_set by exact He.
    rewrite own_set_fresh by exact Hnew. split.
    + rewrite total_app, total_cons. unfold total at 2. simpl.
      rewrite Q.max_r by exact Hrem. ring.
    + unfold keys. now rewrite map_app.
  - change (distribute primaryEmotion random i (e :: e2 :: others) rem acc)
      with (let maxAllowed := coexisting primaryEmotion e (rem * 0.6) in
            let emotionScore := random i * (maxAllowed - 0.01) + 0.01 in
            let score := Qmin emotionScore (rem - 0.01) in
            distribute primaryEmotion random (S i) (e2 :: others) (rem - score)
                       (js_set acc e score)).
    cbv zeta.
    set (score := Qmin _ (rem - 0.01)).
    assert (Hs : score <= rem - 0.01) by apply Q.le_min_r.
    rewrite js_set_own_set by exact He.
    rewrite own_set_fresh by exact Hnew.
    destruct (IH ltac:(discriminate) Hnd'
                 ltac:(intros H; apply Hp; simpl in H |- *; tauto)
                 (S i) (rem - score) (acc ++ [(e, score)])%list) as [Ht Hk].
    + lra.
    + intros e' He' Hin. unfold keys in Hin. rewrite map_app in Hin.
      apply in_app_or in Hin. destruct Hin as [Hin|[<-|[]]].
      * apply (Hfresh e'); [simpl; simpl in He'; tauto | exact Hin].
      * contradiction.
    + split.
      * rewrite Ht, total_app, total_cons. unfold total at 2. simpl. ring.
      * rewrite Hk. unfold keys. rewrite map_app, <- app_assoc. reflexivity.
Qed.

Lemma others_of_labels (primaryEmotion : string) :
  In primaryEmotion labels ->
  let others := filter (fun e => negb (String.eqb e primaryEmotion)) labels in
  others <> [] /\ NoDup others /\ ~ In "__proto__"%string others
  /\ ~ In primaryEmotion others
  /\ Permutation (others ++ [primaryEmotion])%list labels.
Proof.
  intros Hin. simpl in Hin.
  repeat (destruct Hin as [<-|Hin];
          [vm_compute filter; cbv zeta;
           split; [discriminate|];
           split; [repeat constructor; simpl; intuition discriminate|];
           split; [simpl; intuition discriminate|];
           split; [simpl; intuition discriminate|];
           apply NoDup_Permutation;
           [repeat constructor; simpl; intuition discriminate
           |repeat constructor; simpl; intuition discriminate
           |intros x; simpl; tauto]|]).
  destruct Hin.
Qed.

Variable w : World.
Hypothesis random_ok : random_unit w.

(** The simulator reports the confidence it drew for the primary emotion,
    inside the range configured for that emotion. *)
Lemma simulator_confidence (imageData : option string) :
  exists primary c distribution,
    emotion (generateRealisticEmotion w imageData) = Some primary
    /\ In primary labels
    /\ confidence (generateRealisticEmotion w imageData) = Some c
    /\ 0.6 <= c /\ c <= 0.95
    /\ all_emotions (generateRealisticEmotion w imageData) = Some distribution
    /\ Permutation (keys distribution) labels
    /\ own_get distribution primary = Some c.
Proof.
  unfold generateRealisticEmotion. cbv zeta.
  set (probabilities := emotionProbabilities w (fst (image_analysis imageData))).
  set (primaryEmotion := select probabilities (random w 0)).
  assert (Hprim : In primaryEmotion labels).
  { destruct (select_in probabilities (random w 0)) as [H|H]; fold primaryEmotion in H.
    - rewrite H. simpl. auto.
    - unfold probabilities in H. now rewrite keys_emotionProbabilities in H. }
  destruct (baseConfidence_range primaryEmotion Hprim) as (lo & hi & Hbase & Hlo & Hlh & Hhi).
  rewrite Hbase. simpl fst. simpl snd.
  set (drawn := random w 1 * (hi - lo) + lo).
  assert (Hdrawn : lo <= drawn /\ drawn <= hi).
  { unfold drawn. destruct (random_ok 1%nat) as [H0 H1]. split; nra. }
  destruct Hdrawn as [Hd0 Hd1].
  replace (keys probabilities) with labels
    by (symmetry; apply keys_emotionProbabilities).
  destruct (others_of_labels primaryEmotion Hprim) as (Hne & Hnd & Hp & Hnp & Hperm).
  set (others := filter (fun e => negb (String.eqb e primaryEmotion)) labels) in *.
  assert (Hpp : primaryEmotion <> "__proto__"%string).
  { intros H. rewrite H in Hprim. simpl in Hprim. intuition discriminate. }
  destruct (distribute_total primaryEmotion (random w) others Hne Hnd Hp
              2%nat (1 - drawn) []) as [Ht Hk]; [lra | intros e _ [] |].
  set (given := distribute primaryEmotion (random w) 2 others (1 - drawn) []) in *.
  simpl in Hk.
  assert (Hall : js_set given primaryEmotion drawn
                 = (given ++ [(primaryEmotion, drawn)])%list).
  { rewrite js_set_own_set by exact Hpp. apply own_set_fresh. now rewrite Hk. }
  rewrite Hall.
  set (allEmotions := (given ++ [(primaryEmotion, drawn)])%list).
  assert (Hkeys : keys allEmotions = (others ++ [primaryEmotion])%list).
  { unfold allEmotions, keys. rewrite map_app. fold (keys given). now rewrite Hk. }
  assert (Hwf : obj_wf allEmotions).
  { unfold obj_wf. rewrite Hkeys. split.
    - eapply Permutation_NoDup; [apply Permutation_sym, Hperm|].
      repeat constructor; simpl; intuition discriminate.
    - intros H. apply in_app_or in H. destruct H as [H|[H|[]]]; [contradiction|].
      now apply Hpp. }
  assert (Htotal : total allEmotions == 1).
  { unfold allEmotions. rewrite total_app, total_cons, Ht.
    unfold total. simpl. ring. }
  assert (Hget : own_get allEmotions primaryEmotion = Some drawn).
  { apply In_own_get; [apply Hwf|]. unfold allEmotions. apply in_or_app. simpl. auto. }
  assert (Hnorm : own_get (normalized allEmotions) primaryEmotion
                  = Some (drawn / total allEmotions)).
  { rewrite normalized_map by exact Hwf.
    rewrite (own_get_map (fun x => x / total allEmotions)), Hget. reflexivity. }
  exists primaryEmotion, (drawn / total allEmotions), (normalized allEmotions).
  simpl. split; [reflexivity|]. split; [exact Hprim|].
  split; [unfold num_get; now rewrite Hnorm|].
  assert (Heq : drawn / total allEmotions == drawn).
  { rewrite Htotal. field. }
  split; [rewrite Heq; lra|]. split; [rewrite Heq; lra|].
  split; [reflexivity|]. split; [|exact Hnorm].
  rewrite keys_normalized, Hkeys. exact Hperm.
Qed.

End SimulatorRange.

(** X21.  With [Math.random] in [0, 1) the simulator reports one of the
    seven emotions with a confidence between 0.6 and 0.95; the confidence
    is the share of that emotion in the distribution, which holds exactly
    the seven labels; and the result names the simulation as its
    service. *)
Theorem simulator_confidence_in_range
    (w : EmotionDetection.World) (imageData : option string) :
  EmotionDetection.random_unit w ->
  exists primary c distribution,
    EmotionDetection.emotion (EmotionDetection.generateRealisticEmotion w imageData)
    = Some primary
    /\ In primary EmotionDetection.labels
    /\ EmotionDetection.confidence (EmotionDetection.generateRealisticEmotion w imageData)
       = Some c
    /\ (0.6 <= c)%Q /\ (c <= 0.95)%Q
    /\ EmotionDetection.all_emotions (EmotionDetection.generateRealisticEmotion w imageData)
       = Some distribution
    /\ Permutation (keys distribution) EmotionDetection.labels
    /\ own_get distribution primary = Some c
    /\ EmotionDetection.service_used (EmotionDetection.generateRealisticEmotion w imageData)
       = Some "enhanced_simulation".
Proof.
  intros Hr.
  destruct (simulator_confidence w Hr imageData)
    as (primary & c & distribution & H1 & H2 & H3 & H4 & H5 & H6 & H7 & H8).
  exists primary, c, distribution. repeat split; assumption.
Qed.

Lemma simulator_confidence_in_range_witness :
  exists primary c distribution,
    EmotionDetection.emotion
      (EmotionDetection.generateRealisticEmotion dark_world (Some selfie))
    = Some primary
    /\ In primary EmotionDetection.labels
    /\ EmotionDetection.confidence
         (EmotionDetection.generateRealisticEmotion dark_world (Some selfie))
       = Some c
    /\ (0.6 <= c)%Q /\ (c <= 0.95)%Q
    /\ EmotionDetection.all_emotions
         (EmotionDetection.generateRealisticEmotion dark_world (Some selfie))
       = Some distribution
    /\ Permutation (keys distribution) EmotionDetection.labels
    /\ own_get distribution primary = Some c
    /\ EmotionDetection.service_used
         (EmotionDetection.generateRealisticEmotion dark_world (Some selfie))
       = Some "enhanced_simulation".
Proof.
  apply (simulator_confidence_in_range dark_world (Some selfie)).
  intros n. simpl. split; [unfold Qle | unfold Qlt]; simpl; lia.
Defined.

Section ImageData.

Import EmotionDetection.

Lemma includes_comma_cons (c : ascii) (s : string) :
  includes (String c s) "," = Ascii.eqb c ","%char || includes s ",".
Proof.
  unfold includes. cbn -[ascii_dec].
  destruct (ascii_dec ","%char c) as [<-|Hne].
  - destruct s; reflexivity.
  - assert (E : Ascii.eqb c ","%char = false)
      by (apply Ascii.eqb_neq; congruence).
    rewrite E. cbn -[ascii_dec]. destruct (index 0 "," s); reflexivity.
Qed.

Lemma append_snoc (acc : string) (c : ascii) (s : string) :
  ((acc ++ String c "") ++ s = acc ++ String c s)%string.
Proof. induction acc as [|a acc IH]; simpl; [reflexivity | now rewrite IH]. Qed.

Lemma append_empty (s : string) : (s ++ "" = s)%string.
Proof. induction s as [|a s IH]; simpl; [reflexivity | now rewrite IH]. Qed.

(** Splitting at the first comma. *)
Lemma split_comma_aux_prefix (p : string) :
  includes p "," = false ->
  forall acc q,
    split_comma_aux (p ++ String ","%char q) acc
    = ((acc ++ p)%string :: split_comma_aux q "")%list
    /\ split_comma_aux p acc = [(acc ++ p)%string].
Proof.
  induction p as [|c p IH]; intros Hp acc q.
  - simpl. rewrite append_empty. auto.
  - rewrite includes_comma_cons in Hp. apply orb_false_iff in Hp.
    destruct Hp as [Hc Hp]. simpl. rewrite Hc.
    destruct (IH Hp (acc ++ String c "")%string q) as [H1 H2].
    rewrite H1, H2, append_snoc. auto.
Qed.

Lemma includes_comma_middle (p q : string) :
  includes (p ++ String ","%char q) "," = true.
Proof.
  induction p as [|c p IH]; simpl append.
  - rewrite includes_comma_cons. reflexivity.
  - rewrite includes_comma_cons, IH. apply orb_true_r.
Qed.

End ImageData.

(** X22.  Image preparation for Face++ strips the data-URL prefix: for a
    payload without comma, not empty and of at most 2 MB decoded, the text
    [prefix,payload] and the bare payload both give the payload itself,
    marked valid. *)
Theorem image_data_url_prefix_stripped
    (w : EmotionDetection.World) (prefix payload : string) :
  includes prefix "," = false ->
  includes payload "," = false ->
  payload <> "" ->
  (EmotionDetection.decoded_length w payload <= 2 * 1024 * 1024)%N ->
  EmotionDetection.processImageForFacePlusPlus w (prefix ++ "," ++ payload)
  = {| EmotionDetection.base64Data := payload;
       EmotionDetection.isValid := true;
       EmotionDetection.image_error := None |}
  /\ EmotionDetection.processImageForFacePlusPlus w payload
     = {| EmotionDetection.base64Data := payload;
          EmotionDetection.isValid := true;
          EmotionDetection.image_error := None |}.
Proof.
  intros Hp Hq Hne Hsize.
  assert (Ht : truthy payload = true).
  { unfold truthy. apply negb_true_iff, String.eqb_neq. exact Hne. }
  assert (Hs : (2 * 1024 * 1024 <? EmotionDetection.decoded_length w payload)%N = false)
    by (apply N.ltb_ge; exact Hsize).
  unfold EmotionDetection.processImageForFacePlusPlus. split.
  - change (prefix ++ "," ++ payload) with (prefix ++ String ","%char payload).
    rewrite includes_comma_middle. unfold split_comma.
    rewrite (proj1 (split_comma_aux_prefix prefix Hp "" payload)).
    rewrite (proj2 (split_comma_aux_prefix payload Hq "" "")).
    simpl nth. rewrite Ht, Hs. reflexivity.
  - rewrite Hq, Ht, Hs. reflexivity.
Qed.

Lemma image_data_url_prefix_stripped_witness :
  "data:image/jpeg;base64" ++ "," ++ "/9j/4AAQSkZJRgABAQAAAQABAAD" = selfie
  /\ EmotionDetection.processImageForFacePlusPlus dark_world
       ("data:image/jpeg;base64" ++ "," ++ "/9j/4AAQSkZJRgABAQAAAQABAAD")
     = {| EmotionDetection.base64Data := "/9j/4AAQSkZJRgABAQAAAQABAAD";
          EmotionDetection.isValid := true;
          EmotionDetection.image_error := None |}.
Proof.
  split; [reflexivity|].
  apply (image_data_url_prefix_stripped dark_world "data:image/jpeg;base64"
           "/9j/4AAQSkZJRgABAQAAAQABAAD").
  - reflexivity.
  - reflexivity.
  - discriminate.
  - vm_compute. discriminate.
Defined.

Section ProviderScores.

Import EmotionDetection.

(** What the scoring loop leaves in the distribution: the score of every
    label it was given, and the initial value of every other label. *)
Lemma record_scores_get (entries : list (string * Q)) :
  NoDup (map fst entries) ->
  ~ In "__proto__"%string (map fst entries) ->
  forall (init : Scores) (l : string),
    own_get (allEmotions (record_scores entries init)) l
    = match own_get entries l with
      | Some v => Some v
      | None => own_get (allEmotions init) l
      end.
Proof.
  induction entries as [|[k v] entries IH]; intros Hnd Hp init l; [reflexivity|].
  simpl in Hnd, Hp. inversion Hnd as [|? ? Hnin Hnd']; subst.
  unfold record_scores. simpl fold_left. fold (record_scores entries (record_score init k v)).
  rewrite IH by tauto. simpl own_get.
  rewrite js_set_own_set by tauto.
  destruct (String.eqb l k) eqn:E.
  - apply String.eqb_eq in E. subst l.
    rewrite own_get_absent.
    + apply own_get_own_set_same.
    + intros k' Hk'. apply String.eqb_neq. intros <-. contradiction.
  - apply String.eqb_neq in E.
    rewrite own_get_own_set_other by exact E. reflexivity.
Qed.

End ProviderScores.

(** X23.  For a Face++ payload that follows the taxonomy of the provider
    (no label twice after mapping), the distribution returned holds for
    every scored emotion its score divided by 100 under the mapped label,
    and an entry for each of the seven labels. *)
Theorem facepp_distribution_reflects_scores (emotions : JSObject Q) :
  EmotionDetection.scores_wf (EmotionDetection.facepp_entries emotions) ->
  (forall k v,
     In (k, v) emotions ->
     own_get (EmotionDetection.allEmotions (EmotionDetection.facepp_scores emotions))
             (EmotionDetection.facepp_mapped k)
     = Some (v / 100)%Q)
  /\ (forall l,
        In l EmotionDetection.labels ->
        exists v,
          own_get (EmotionDetection.allEmotions (EmotionDetection.facepp_scores emotions)) l
          = Some v).
Proof.
  intros [Hnd Hall].
  assert (Hp : ~ In "__proto__" (map fst (EmotionDetection.facepp_entries emotions))).
  { intros H. apply in_map_iff in H. destruct H as (e & He & Hin).
    rewrite Forall_forall in Hall. destruct (Hall e Hin) as [Hne _]. contradiction. }
  unfold EmotionDetection.facepp_scores. split.
  - intros k v Hin. rewrite record_scores_get by assumption.
    rewrite (In_own_get (EmotionDetection.facepp_entries emotions)
               (EmotionDetection.facepp_mapped k) (v / 100)%Q Hnd); [reflexivity|].
    unfold EmotionDetection.facepp_entries. apply in_map_iff.
    exists (k, v). split; [reflexivity | exact Hin].
  - intros l Hl. rewrite record_scores_get by assumption.
    destruct (own_get (EmotionDetection.facepp_entries emotions) l) as [v|];
      [eexists; reflexivity|].
    simpl in Hl.
    repeat (destruct Hl as [<-|Hl]; [eexists; reflexivity|]). destruct Hl.
Qed.

Lemma facepp_distribution_reflects_scores_witness :
  own_get (EmotionDetection.allEmotions
             (EmotionDetection.facepp_scores (EmotionDetection.fp_emotion joyful_face)))
          "happy"
  = Some (90 / 100)%Q.
Proof.
  refine (proj1 (facepp_distribution_reflects_scores
                   (EmotionDetection.fp_emotion joyful_face) _)
                "happiness" 90%Q _).
  - split.
    + vm_compute. repeat constructor; simpl; intuition discriminate.
    + vm_compute. repeat constructor; try discriminate.
  - simpl. auto 10.
Defined.

(** X24.  Google Vision reports an emotion other than neutral only for a
    likelihood of LIKELY or VERY_LIKELY: when none of the four likelihoods
    is that high the result is neutral with confidence 0.5, otherwise it is
    one of happy, sad, angry and surprised with a confidence of at least
    0.7. *)
Theorem vision_neutral_unless_likely (face : EmotionDetection.FaceAnnotation) :
  let scores := EmotionDetection.google_scores face in
  if EmotionDetection.pronounced (EmotionDetection.joyLikelihood face)
     || EmotionDetection.pronounced (EmotionDetection.sorrowLikelihood face)
     || EmotionDetection.pronounced (EmotionDetection.angerLikelihood face)
     || EmotionDetection.pronounced (EmotionDetection.surpriseLikelihood face)
  then In (EmotionDetection.dominantEmotion scores) ["happy"; "sad"; "angry"; "surprised"]
       /\ (0.7 <= EmotionDetection.maxConfidence scores)%Q
  else EmotionDetection.dominantEmotion scores = "neutral"
       /\ EmotionDetection.maxConfidence scores = 0.5%Q.
Proof.
  destruct face as [[] [] [] []]; vm_compute;
    (split; [tauto || reflexivity | reflexivity || discriminate]).
Qed.

(** X25.  The recommender never renews its Spotify token: once a token that
    is not empty is stored, any sequence of calls leaves it in place. *)
Theorem recommender_token_kept
    (w : ContentRecommender.World) (token : string) (emotions : list string) :
  truthy token = true ->
  fold_left (fun s emotion => snd (ContentRecommender.getRecommendations w emotion s))
            emotions (Some token)
  = Some token.
Proof.
  intros Ht. induction emotions as [|emotion emotions IH]; [reflexivity|].
  simpl fold_left.
  replace (snd (ContentRecommender.getRecommendations w emotion (Some token)))
    with (Some token); [exact IH|].
  unfold ContentRecommender.getRecommendations, ContentRecommender.getMusicRecommendations,
    ContentRecommender.getSpotifyToken.
  destruct (negb _ || negb _); simpl.
  - reflexivity.
  - rewrite Ht. simpl. rewrite Ht.
    destruct (ContentRecommender.mapping_of emotion); reflexivity.
Qed.

Lemma recommender_token_kept_witness :
  fold_left (fun s emotion =>
               snd (ContentRecommender.getRecommendations cinema_recommender emotion s))
            ["happy"; "sad"] (Some "T")
  = Some "T".
Proof.
  apply (recommender_token_kept cinema_recommender "T" ["happy"; "sad"]).
  reflexivity.
Defined.

(* ================================================================== *)
(** * Seed genres and inherited labels *)
(* ================================================================== *)

(** X26.  A recommendation request uses the first five seed genres, and
    only them: the request is made for these five genres joined by commas,
    its answer is what the method returns, and genres past the fifth
    change neither the result nor the requests sent. *)
Theorem client_recommendations_use_five_seeds
    (w : SpotifyClient.World) (fuel : nat) (seeds more : list string) (limit : nat)
    (s : SpotifyClient.State) :
  List.length seeds = 5%nat ->
  SpotifyClient.getRecommendations fuel w (seeds ++ more) limit s
  = SpotifyClient.getRecommendations fuel w seeds limit s
  /\ (forall token s1 st tracks,
        SpotifyClient.getAccessToken w s = (Ret token, s1) ->
        SpotifyClient.recommendations_fetch w (SpotifyClient.api_requests s1) token
          (String.concat "," seeds) limit
        = Responded st (Some tracks) ->
        status_ok st = true ->
        SpotifyClient.getRecommendations (S fuel) w (seeds ++ more) limit s
        = Finished tracks (SpotifyClient.sent s1)).
Proof.
  intros Hlen.
  assert (Hfive : SpotifyClient.join_genres seeds = String.concat "," seeds).
  { unfold SpotifyClient.join_genres, slice0.
    rewrite <- Hlen, firstn_all. reflexivity. }
  assert (Hjoin : SpotifyClient.join_genres (seeds ++ more)
                  = SpotifyClient.join_genres seeds).
  { unfold SpotifyClient.join_genres, slice0.
    rewrite firstn_app, Hlen. simpl (5 - 5)%nat.
    rewrite firstn_O, app_nil_r. reflexivity. }
  split.
  - revert s. induction fuel as [|fuel IH]; intros s; [reflexivity|].
    simpl. rewrite Hjoin.
    destruct (SpotifyClient.getAccessToken w s) as [[token|m] s1]; [|reflexivity].
    destruct (SpotifyClient.recommendations_fetch w (SpotifyClient.api_requests s1) token
                (SpotifyClient.join_genres seeds) limit) as [|st data]; [reflexivity|].
    destruct (negb (status_ok st)); [|reflexivity].
    destruct (st =? 401)%nat; [apply IH | reflexivity].
  - intros token s1 st tracks Htoken Hfetch Hok.
    simpl. rewrite Htoken, Hjoin, Hfive, Hfetch, Hok. reflexivity.
Qed.

Lemma client_recommendations_use_five_seeds_witness :
  SpotifyClient.getRecommendations 1 seeded_jukebox (five_seeds ++ ["metal"]) 5
    SpotifyClient.initial
  = SpotifyClient.getRecommendations 1 seeded_jukebox five_seeds 5 SpotifyClient.initial
  /\ exists s',
       SpotifyClient.getRecommendations 1 seeded_jukebox (five_seeds ++ ["metal"]) 5
         SpotifyClient.initial
       = Finished [anthem] s'.
Proof.
  split.
  - apply (client_recommendations_use_five_seeds seeded_jukebox 1 five_seeds ["metal"] 5
             SpotifyClient.initial eq_refl).
  - eexists.
    apply (proj2 (client_recommendations_use_five_seeds seeded_jukebox 0 five_seeds
                    ["metal"] 5 SpotifyClient.initial eq_refl)
                 "T" (snd (SpotifyClient.getAccessToken seeded_jukebox
                                 SpotifyClient.initial))
                 200%nat [anthem]); reflexivity.
Defined.

Section InheritedLabels.

Import EmotionAnalytics.

Lemma truthy_append_one (t : string) : truthy (t ++ "1") = true.
Proof. destruct t; reflexivity. Qed.

(** The entry of a label that objects inherit is never a number. *)
Lemma counted_inherited (k : string) (h : list EmotionData) :
  is_inherited k = true -> k <> "__proto__" ->
  (own_get (counted h) k = None
   \/ exists t, own_get (counted h) k = Some (Text t) /\ truthy t = true)
  /\ ((exists d, In d h /\ emotion d = k) ->
      exists t, own_get (counted h) k = Some (Text t) /\ truthy t = true).
Proof.
  intros Hi Hne. induction h as [|x h IH] using rev_ind.
  - split; [left; reflexivity | intros (d & [] & _)].
  - destruct IH as [Hq Hp]. rewrite counted_snoc. unfold count_detection.
    destruct (string_dec (emotion x) k) as [Hx|Hx].
    + assert (Hset : exists t,
                 own_get (js_set (counted h) (emotion x)
                            (incremented (js_get (counted h) (emotion x)))) k
                 = Some (Text t) /\ truthy t = true).
      { rewrite Hx. rewrite js_set_own_set by exact Hne.
        rewrite own_get_own_set_same. unfold js_get.
        destruct Hq as [Hq|(t & Hq & Ht)]; rewrite Hq.
        - rewrite Hi. simpl. eexists. split; [reflexivity | apply truthy_append_one].
        - simpl. rewrite Ht. eexists. split; [reflexivity | apply truthy_append_one]. }
      split; [right; exact Hset | intros _; exact Hset].
    + assert (Hsame : own_get (js_set (counted h) (emotion x)
                                 (incremented (js_get (counted h) (emotion x)))) k
                      = own_get (counted h) k).
      { unfold js_set. destruct (String.eqb (emotion x) "__proto__"); [reflexivity|].
        apply own_get_own_set_other. congruence. }
      rewrite Hsame. split; [exact Hq|].
      intros (d & Hin & Hd). apply Hp. apply in_app_or in Hin.
      destruct Hin as [Hin|[<-|[]]]; [eauto | contradiction].
Qed.

End InheritedLabels.

(** X27.  A detection labelled with the name of a property that objects
    inherit (constructor, toString, ..., other than [__proto__]) gets no
    number in the distribution: the analysis returns, and the share of that
    label is NaN. *)
Theorem analytics_inherited_label_is_nan
    (h : list EmotionAnalytics.EmotionData) (d : EmotionAnalytics.EmotionData) :
  In d h ->
  is_inherited (EmotionAnalytics.emotion d) = true ->
  EmotionAnalytics.emotion d <> "__proto__" ->
  exists a,
    EmotionAnalytics.analyzeEmotionHistory h = Ret a
    /\ own_get (EmotionAnalytics.emotionDistribution a) (EmotionAnalytics.emotion d)
       = Some None.
Proof.
  intros Hin Hi Hne.
  destruct (analysis_returns h d Hin Hne) as [a Ha]. exists a. split; [exact Ha|].
  assert (Hh : h <> []) by (intros ->; contradiction).
  destruct (analysis_fields h a Hh Ha) as (_ & _ & -> & _).
  rewrite percentages_map by apply counted_wf.
  rewrite (own_get_tabulate
             (fun k => EmotionAnalytics.percentage
                         (js_get (EmotionAnalytics.counted h) k) (List.length h))).
  destruct (in_dec string_dec (EmotionAnalytics.emotion d)
              (keys (EmotionAnalytics.counted h))) as [_|Hnin].
  - destruct (proj2 (counted_inherited (EmotionAnalytics.emotion d) h Hi Hne))
      as (t & Ht & _); [eauto|].
    unfold js_get. rewrite Ht. reflexivity.
  - contradiction Hnin. now apply counted_keys_mem.
Qed.

Lemma analytics_inherited_label_is_nan_witness :
  exists a,
    EmotionAnalytics.analyzeEmotionHistory odd_history = Ret a
    /\ own_get (EmotionAnalytics.emotionDistribution a) "constructor" = Some None.
Proof.
  apply (analytics_inherited_label_is_nan odd_history (detection "constructor" 0.5%Q)).
  - simpl. auto.
  - reflexivity.
  - discriminate.
Defined.
